(** * Size comparison and profiler timings of the maintainer dashboard

    A shallow embedding of the size-comparison routes (the loaders that fetch
    and diff two size snapshots, the table components that rank the rows)
    and of the profiler details route (the aggregation of the repeated
    measurements and the "mean" cell), with the properties the specification
    states about them.

    Conventions of the embedding.
    - A JavaScript number is the inductive type [number]: an exact rational,
      one of the two infinities, or NaN.  On byte counts (integers below
      2^53) subtraction, [Math.abs] and the comparisons agree with binary64;
      a quotient is kept as the exact rational instead of its rounding, which
      makes no difference at the values the properties fix (0, -1, the
      infinities and NaN).  Results are kept in lowest terms, so that equal
      values are equal terms.  The two zeros are identified, as [===]
      identifies them; a divisor [0] is the positive zero.
    - An object that is used as a dictionary (a snapshot
      [{ [bundleId: string]: { parsed, gzip } }], the profile of a test
      run, [profilesByBrowserName]) is the finite map of its own
      properties; [Object.keys] enumerates the domain, in an order that no
      property below depends on.  A lookup [object[key]] reads through the
      prototype chain ([Get]): a key that is not an own property finds the
      function of that name of [Object.prototype], or [Object.prototype]
      itself for "__proto__", and [Object.prototype] is as the platform
      defines it.
    - [parseInt] on a string of digits gives the number nearest to the
      integer that they write, a tie going to the even significand.
    - [Array.prototype.sort] is the stable insertion sort [Array_sort]; a
      comparator result that is NaN counts as [+0], as SortCompare
      prescribes.  What is proved of the sorted arrays holds of every
      arrangement that the comparator accepts ([ranked_of_precedes]).
    - The fetches of a loader are given by the state in which they settle;
      the digests and the conversion of a number to a string are parameters
      of the loaders.
    - A string is the sequence of its bytes in UTF-8.  A regular expression
      is matched part by part: a class under [+] takes the longest run of
      its characters, which loses no match, because in the expressions of
      the sources every such class is followed by a character outside of
      it; an expression without an anchor is tried at every position from
      the left.
    - What [toFixed] and [prettyBytes] print is a parameter of the cells;
      the hash function is a parameter of the digest. *)

From Stdlib Require Import QArith Qabs Lqa.
From Stdlib Require OrderedTypeEx.
From stdpp Require Import gmap strings list fin_maps sorting.
From stdpp Require Import pretty.

Open Scope string_scope.

(** ** JavaScript numbers *)

Inductive number : Type :=
  | NaN : number
  | Infinity (negative : bool) : number
  | Fin (q : Q) : number.

Definition num_of_Z (z : Z) : number := Fin (inject_Z z).
Coercion num_of_Z : Z >-> number.

Definition is_finite (x : number) : bool :=
  match x with Fin _ => true | _ => false end.

(** The sign of a rational, as [Q.compare] against zero. *)
Definition Qsign (q : Q) : comparison := (q ?= 0)%Q.

(** [a - b] *)
Definition num_sub (a b : number) : number :=
  match a, b with
  | NaN, _ | _, NaN => NaN
  | Fin x, Fin y => Fin (Qred (x - y))
  | Fin _, Infinity s => Infinity (negb s)
  | Infinity s, Fin _ => Infinity s
  | Infinity s, Infinity t => if eqb s t then NaN else Infinity s
  end.

(** [a / b], the divisor [0] being the positive zero. *)
Definition num_div (a b : number) : number :=
  match a, b with
  | NaN, _ | _, NaN => NaN
  | Fin x, Fin y =>
      match Qsign y with
      | Eq => match Qsign x with
              | Eq => NaN
              | Gt => Infinity false
              | Lt => Infinity true
              end
      | _ => Fin (Qred (x / y))
      end
  | Fin _, Infinity _ => Fin 0
  | Infinity s, Fin y =>
      match Qsign y with
      | Lt => Infinity (negb s)
      | _ => Infinity s
      end
  | Infinity _, Infinity _ => NaN
  end.

(** [Math.abs(a)] *)
Definition Math_abs (a : number) : number :=
  match a with
  | NaN => NaN
  | Infinity _ => Infinity false
  | Fin x => Fin (Qabs x)
  end.

(** [a === b] on numbers: NaN equals nothing. *)
Definition strict_eq (a b : number) : bool :=
  match a, b with
  | Fin x, Fin y => Qeq_bool x y
  | Infinity s, Infinity t => eqb s t
  | _, _ => false
  end.

(** [a < b] *)
Definition num_lt (a b : number) : bool :=
  match a, b with
  | NaN, _ | _, NaN => false
  | Fin x, Fin y => match (x ?= y)%Q with Lt => true | _ => false end
  | Fin _, Infinity s => negb s
  | Infinity s, Fin _ => s
  | Infinity s, Infinity t => s && negb t
  end.

(** [a > b], [a >= b] and [a <= b] *)
Definition num_gt (a b : number) : bool := num_lt b a.
Definition num_ge (a b : number) : bool := num_gt a b || strict_eq a b.
Definition num_le (a b : number) : bool := num_lt a b || strict_eq a b.

(** ** [Array.prototype.sort]

    [SortCompare] turns a NaN comparator result into [+0]; an element moves
    behind its right neighbour only when the comparator is positive, so
    equal elements keep their order. *)

Section Array_sort.
Context {A : Type} (comparefn : A → A → number).

Definition SortCompare (x y : A) : number :=
  match comparefn x y with
  | NaN => 0%Z
  | v => v
  end.

Fixpoint sort_insert (x : A) (l : list A) : list A :=
  match l with
  | [] => [x]
  | y :: l' =>
      if num_gt (SortCompare x y) 0%Z then y :: sort_insert x l' else x :: l
  end.

Definition Array_sort (l : list A) : list A := foldr sort_insert [] l.

(** [x] may stay in front of [y]: the comparator is not positive. *)
Definition precedes (x y : A) : Prop :=
  num_gt (SortCompare x y) 0%Z = false.
End Array_sort.

(** ** Data model of the size comparison *)

(** [{ parsed: number; gzip: number }], the value of a snapshot entry. *)
Module Snapshot.
Record entry : Type := { parsed : number; gzip : number }.
End Snapshot.

(** [interface SizeSnapshot { [bundleId: string]: { parsed; gzip } }] *)
Abbreviation SizeSnapshot := (gmap string Snapshot.entry).

(** [interface Size]; [previous] and [current] are what was read from a
    property that may be missing: [None] is [undefined]. *)
Module Size.
Record metric : Type := {
  previous : option number;
  current : option number;
  absoluteDiff : number;
  relativeDiff : number;
}.
Record t : Type := { parsed : metric; gzip : metric }.
End Size.

(** [Size & { id: string }], the second component of a table row. *)
Module Stats.
Record t : Type := { parsed : Size.metric; gzip : Size.metric; id : string }.
End Stats.

Definition nullSnapshot : Snapshot.entry :=
  {| Snapshot.parsed := 0%Z; Snapshot.gzip := 0%Z |}.

(** [{ ...a, ...b }]: the properties of [b] override those of [a]. *)
Definition spread {V : Type} (a b : gmap string V) : gmap string V := b ∪ a.

(** [Object.keys(o)] *)
Definition Object_keys {V : Type} (o : gmap string V) : list string :=
  elements (dom o).

(** [bundle.startsWith(prefix)] *)
Definition startsWith (s prefix : string) : bool := String.prefix prefix s.

(** ** Reading a property

    An object that was parsed from JSON or written as a literal inherits
    from [Object.prototype]: a key that is not an own property is looked up
    there. *)

(** The functions of [Object.prototype], each with its [length]. *)
Definition Object_prototype : list (string * Z) :=
  [("constructor", 1); ("__defineGetter__", 2); ("__defineSetter__", 2);
   ("hasOwnProperty", 1); ("__lookupGetter__", 1); ("__lookupSetter__", 1);
   ("isPrototypeOf", 1); ("propertyIsEnumerable", 1); ("toString", 0);
   ("valueOf", 0); ("toLocaleString", 0)]%Z.

(** What [o[key]] evaluates to: the own property; or a function of
    [Object.prototype]; or, for the accessor [__proto__],
    [Object.prototype] itself; or [undefined]. *)
Inductive property (A : Type) : Type :=
  | Own (a : A)
  | Method (length : Z)
  | Prototype
  | Undefined.
Arguments Own {A} a.
Arguments Method {A} length.
Arguments Prototype {A}.
Arguments Undefined {A}.

Definition Get {A : Type} (o : gmap string A) (key : string) : property A :=
  match o !! key with
  | Some a => Own a
  | None =>
      match List.find (λ named, String.eqb (fst named) key) Object_prototype with
      | Some (_, length) => Method length
      | None => if String.eqb key "__proto__" then Prototype else Undefined
      end
  end.

(** [ToNumber] of a number or [undefined] *)
Definition ToNumber (v : option number) : number := default NaN v.

(** ** The diff of two snapshots (body of [bundleKeys.forEach]) *)

Definition bundleKeys (baseSnapshot targetSnapshot : SizeSnapshot) : list string :=
  Object_keys (spread baseSnapshot targetSnapshot).

(** What [.parsed] and [.gzip] read from the value of a lookup: a size, or
    [undefined]. *)
Module Sized.
Record t : Type := { parsed : option number; gzip : option number }.
End Sized.

(** [snapshot[bundle] || nullSnapshot], as the two sizes that are read from
    it: those of the own entry; those of [nullSnapshot] where the lookup is
    [undefined]; and [undefined] twice where the lookup finds a function of
    [Object.prototype] or [Object.prototype] itself, which are truthy and
    have neither property. *)
Definition or_nullSnapshot (found : property Snapshot.entry) : Sized.t :=
  match found with
  | Own e =>
      {| Sized.parsed := Some (Snapshot.parsed e);
         Sized.gzip := Some (Snapshot.gzip e) |}
  | Undefined =>
      {| Sized.parsed := Some (Snapshot.parsed nullSnapshot);
         Sized.gzip := Some (Snapshot.gzip nullSnapshot) |}
  | Method _ | Prototype => {| Sized.parsed := None; Sized.gzip := None |}
  end.

(** One metric of an entry, from the previous and the current size. *)
Definition metric (previousSize currentSize : option number) : Size.metric :=
  {| Size.previous := previousSize;
     Size.current := currentSize;
     Size.absoluteDiff :=
       num_sub (ToNumber currentSize) (ToNumber previousSize);
     Size.relativeDiff :=
       num_sub (num_div (ToNumber currentSize) (ToNumber previousSize)) 1%Z |}.

Definition entry (baseSnapshot targetSnapshot : SizeSnapshot) (bundle : string)
  : string * Size.t :=
  let currentSize := or_nullSnapshot (Get targetSnapshot bundle) in
  let previousSize := or_nullSnapshot (Get baseSnapshot bundle) in
  (bundle,
   {| Size.parsed :=
        metric (Sized.parsed previousSize) (Sized.parsed currentSize);
      Size.gzip :=
        metric (Sized.gzip previousSize) (Sized.gzip currentSize) |}).

(** The loader with a "Modules" and a "Pages" list (src/unnamed/part_001),
    also the memoised computation of [Comparison] (src/unnamed/part_003). *)
Module Paged.
Record AppData : Type := {
  main : list (string * Size.t);
  pages : list (string * Size.t);
}.

(** One round of [forEach]: the entry is pushed to [pages] or to [main]. *)
Definition step (baseSnapshot targetSnapshot : SizeSnapshot)
    (acc : AppData) (bundle : string) : AppData :=
  let e := entry baseSnapshot targetSnapshot bundle in
  if startsWith bundle "docs:"
  then {| main := main acc; pages := pages acc ++ [e] |}
  else {| main := main acc ++ [e]; pages := pages acc |}.

Definition diff (baseSnapshot targetSnapshot : SizeSnapshot) : AppData :=
  fold_left (step baseSnapshot targetSnapshot)
    (bundleKeys baseSnapshot targetSnapshot)
    {| main := []; pages := [] |}.
End Paged.

(** The loader with the single list [main] (src/unnamed/part_004). *)
Module Flat.
Record AppData : Type := { main : list (string * Size.t) }.

Definition step (baseSnapshot targetSnapshot : SizeSnapshot)
    (acc : AppData) (bundle : string) : AppData :=
  {| main := main acc ++ [entry baseSnapshot targetSnapshot bundle] |}.

Definition diff (baseSnapshot targetSnapshot : SizeSnapshot) : AppData :=
  fold_left (step baseSnapshot targetSnapshot)
    (bundleKeys baseSnapshot targetSnapshot)
    {| main := [] |}.
End Flat.

(** ** The rows of the comparison table *)

Section rows.
(** [labelA.localeCompare(labelB)]: negative, zero or positive. *)
Variable localeCompare : string → string → Z.
Variable getBundleLabel : string → string.

(** The comparator of [rows]:
    orderBy(|parsedDiff| DESC, |gzipDiff| DESC, name ASC). *)
Definition compareRows (a b : string * Stats.t) : number :=
  let '(labelA, statsA) := a in
  let '(labelB, statsB) := b in
  let compareParsedDiff :=
    num_sub (Math_abs (Size.absoluteDiff (Stats.parsed statsB)))
            (Math_abs (Size.absoluteDiff (Stats.parsed statsA))) in
  let compareGzipDiff :=
    num_sub (Math_abs (Size.absoluteDiff (Stats.gzip statsB)))
            (Math_abs (Size.absoluteDiff (Stats.gzip statsA))) in
  let compareName : number := localeCompare labelA labelB in
  if strict_eq compareParsedDiff 0%Z && strict_eq compareGzipDiff 0%Z
  then compareName
  else if strict_eq compareParsedDiff 0%Z
  then compareGzipDiff
  else compareParsedDiff.

Definition toRow (e : string * Size.t) : string * Stats.t :=
  let '(bundleId, size) := e in
  (getBundleLabel bundleId,
   {| Stats.parsed := Size.parsed size;
      Stats.gzip := Size.gzip size;
      Stats.id := bundleId |}).

Definition rows (entries : list (string * Size.t)) : list (string * Stats.t) :=
  Array_sort compareRows (map toRow entries).
End rows.

(** ** Bundle labels *)

(** The rest of [s] behind the prefix [p], when [s] starts with [p]. *)
Fixpoint strip_prefix (p s : string) : option string :=
  match p, s with
  | EmptyString, _ => Some s
  | String a p', String b s' =>
      if Ascii.eqb a b then strip_prefix p' s' else None
  | String _ _, EmptyString => None
  end.

(** [s.replace(/^p/, "")] for a literal [p] *)
Definition remove_prefix (p s : string) : string :=
  default s (strip_prefix p s).

(** [s.replace(/p$/, "")] for a literal [p] *)
Definition remove_suffix (p s : string) : string :=
  let n := (String.length s - String.length p)%nat in
  if (String.length p <=? String.length s)%nat
     && String.eqb (String.substring n (String.length p) s) p
  then String.substring 0 n s
  else s.

(** [s.replace(/^p$/, r)] for a literal [p] *)
Definition replace_whole (p r s : string) : string :=
  if String.eqb s p then r else s.

(** The class [[\w-]] and the characters that [.] matches. *)
Definition is_word_or_dash (c : Ascii.ascii) : bool :=
  let n := Ascii.N_of_ascii c in
  ((48 <=? n) && (n <=? 57) || (65 <=? n) && (n <=? 90)
   || (97 <=? n) && (n <=? 122) || (n =? 95) || (n =? 45))%N.

Definition is_line_terminator (c : Ascii.ascii) : bool :=
  let n := Ascii.N_of_ascii c in ((n =? 10) || (n =? 13))%N.

Fixpoint all_chars (f : Ascii.ascii → bool) (s : string) : bool :=
  match s with
  | EmptyString => true
  | String c s' => f c && all_chars f s'
  end.

(** [getPageBundleLabel] (src/unnamed/part_003) *)
Definition getPageBundleLabel (bundleId : string) : string :=
  if startsWith bundleId "docs:/"
  then remove_prefix "docs:" bundleId
  else bundleId.

(** [getMainBundleLabel] of src/unnamed/part_003 *)
Definition getMainBundleLabel_core (bundleId : string) : string :=
  if String.eqb bundleId
       "packages/material-ui/build/umd/material-ui.production.min.js"
  then "@material-ui/core[umd]"
  else if String.eqb bundleId "@material-ui/core/Textarea"
  then "TextareaAutosize"
  else if String.eqb bundleId "docs.main" then "docs:/_app"
  else if String.eqb bundleId "docs.landing" then "docs:/"
  else remove_suffix ".esm" (remove_prefix "@material-ui/core/" bundleId).

(** [s.replace(/^@material-ui\/core.legacy$/, "@mui/material.legacy")] *)
Definition rename_legacy (s : string) : string :=
  match strip_prefix "@material-ui/core" s with
  | Some (String c rest) =>
      if negb (is_line_terminator c) && String.eqb rest "legacy"
      then "@mui/material.legacy"
      else s
  | _ => s
  end.

(** [s.replace(/^@material-ui\/([\w-]+)$/, "@mui/$1")] *)
Definition rename_org (s : string) : string :=
  match strip_prefix "@material-ui/" s with
  | Some (String c rest) =>
      if all_chars is_word_or_dash (String c rest)
      then "@mui/" ++ String c rest
      else s
  | _ => s
  end.

(** [getMainBundleLabel] of src/unnamed/part_004 *)
Definition getMainBundleLabel (bundleId : string) : string :=
  if String.eqb bundleId
       "packages/material-ui/build/umd/material-ui.production.min.js"
  then "@mui/material[umd]"
  else if String.eqb bundleId "@material-ui/core/Textarea"
  then "TextareaAutosize"
  else if String.eqb bundleId "docs.main" then "docs:/_app"
  else if String.eqb bundleId "docs.landing" then "docs:/"
  else
    remove_suffix ".esm"
      (remove_prefix "@material-ui/core/"
        (replace_whole "packages/material-ui/material-ui.production.min.js"
           "packages/mui-material/material-ui.production.min.js"
          (rename_org
            (replace_whole "@material-ui/unstyled" "@mui/core"
              (replace_whole "@material-ui/icons" "@mui/material-icons"
                (rename_legacy
                  (replace_whole "@material-ui/core" "@mui/material"
                     bundleId))))))).

(** ** The tables of the two routes *)

(** [SizeComparison] of src/unnamed/part_004: the single table "Modules"
    over the list [main] of the loader.  The list reaches the component as
    JSON, which keeps every finite number and turns the others into [null];
    the rows are taken here from the list as the loader computed it, and
    their order reads only [absoluteDiff], which is finite unless a lookup
    found an inherited property. *)
Definition SizeComparison (localeCompare : string → string → Z)
    (baseSnapshot targetSnapshot : SizeSnapshot) : list (string * Stats.t) :=
  rows localeCompare getMainBundleLabel
    (Flat.main (Flat.diff baseSnapshot targetSnapshot)).

(** [Comparison] of src/unnamed/part_003: the tables "Modules" and "Pages". *)
Definition Comparison (localeCompare : string → string → Z)
    (baseSnapshot targetSnapshot : SizeSnapshot)
  : list (string * Stats.t) * list (string * Stats.t) :=
  let results := Paged.diff baseSnapshot targetSnapshot in
  (rows localeCompare getMainBundleLabel_core (Paged.main results),
   rows localeCompare getPageBundleLabel (Paged.pages results)).

(** A snapshot of byte counts: every size is a finite number. *)
Definition valid_snapshot (snapshot : SizeSnapshot) : Prop :=
  map_Forall (λ _ e, is_finite (Snapshot.parsed e) = true
                     ∧ is_finite (Snapshot.gzip e) = true) snapshot.

(** ** Promises, errors and responses *)

(** An [Error] object and [String(error)] ([Error.prototype.toString]). *)
Module Error.
Record t : Type := { name : string; message : string }.

Definition toString (e : t) : string :=
  if String.eqb (name e) "" then message e
  else if String.eqb (message e) "" then name e
  else name e ++ ": " ++ message e.
End Error.

(** The state in which a fetch of a snapshot settles. *)
Inductive settled (A : Type) : Type :=
  | Fulfilled (value : A)
  | Rejected (reason : Error.t).
Arguments Fulfilled {A} value.
Arguments Rejected {A} reason.

(** [Promise.all([p, q])]: fulfilled with both values, or rejected with the
    reason of the promise that rejects first; [firstWins] tells whether
    [p] settles before [q]. *)
Definition Promise_all {A B : Type} (firstWins : bool)
    (p : settled A) (q : settled B) : settled (A * B) :=
  match p, q with
  | Fulfilled a, Fulfilled b => Fulfilled (a, b)
  | Rejected e, Fulfilled _ => Rejected e
  | Fulfilled _, Rejected e => Rejected e
  | Rejected e1, Rejected e2 => Rejected (if firstWins then e1 else e2)
  end.

(** A [Response] with a body of type [B] ([None] for a null body); the
    Content-Type header that [json] adds is left out. *)
Record Response (B : Type) : Type := {
  status : Z;
  statusText : string;
  headers : list (string * string);
  body : option B;
}.
Arguments status {B} _.
Arguments statusText {B} _.
Arguments headers {B} _.
Arguments body {B} _.

(** [json(data, { status, statusText, headers })]; the body is the data as
    handed over, before [JSON.stringify]. *)
Definition json {B : Type} (data : B) (status : Z) (statusText : string)
    (headers : list (string * string)) : Response B :=
  {| status := status; statusText := statusText;
     headers := headers; body := Some data |}.

(** How a loader completes: it returns a response or throws one. *)
Inductive completion (B : Type) : Type :=
  | Return (response : Response B)
  | Throw (response : Response B).
Arguments Return {B} response.
Arguments Throw {B} response.

(** What the loaders read from the request. *)
Record Request : Type := {
  searchParams : string;         (* [params.toString()] *)
  baseCommit : string;
  baseRef : string;
  prNumber : number;
  buildNumber : number;          (* [circleCIBuildNumber], [buildId] *)
  ifNoneMatch : option string;   (* [request.headers.get("if-none-match")] *)
}.

Definition enableCaching : bool := true.
Definition cacheEpoch : string := "1".

(** The body of a response: the computed data, or what the error carries. *)
Inductive payload (D : Type) : Type :=
  | Data (data : D)
  | Failure (number : number).
Arguments Data {D} data.
Arguments Failure {D} number.

Section loaders.
(** The hexadecimal SHA-256 and MD5 digests of a message. *)
Variable sha256 : string → string.
Variable md5 : string → string.
(** [`${n}`] for a number [n]. *)
Variable Number_toString : number → string.

(** [ifNoneMatch === etag] *)
Definition etag_matches (ifNoneMatch : option string) (etag : string) : bool :=
  match ifNoneMatch with
  | Some s => String.eqb s etag
  | None => false
  end.

(** [loader] of src/unnamed/part_001 *)
Definition Paged_loader (request : Request) (firstWins : bool)
    (fetchS3SizeSnapshot fetchCircleCISizeSnapshot : settled SizeSnapshot)
  : completion (payload Paged.AppData) :=
  let etag := sha256 ("v1-" ++ searchParams request) in
  let headers :=
    [("ETag", etag); ("Cache-Control", "immutable, max-age=86400")] in
  if enableCaching && etag_matches (ifNoneMatch request) etag
  then Return {| status := 304; statusText := "";
                 headers := headers; body := None |}
  else
    match Promise_all firstWins fetchS3SizeSnapshot fetchCircleCISizeSnapshot with
    | Rejected error =>
        Throw (json (Failure (prNumber request)) 404 (Error.toString error) [])
    | Fulfilled (baseSnapshot, targetSnapshot) =>
        Return (json (Data (Paged.diff baseSnapshot targetSnapshot))
                  200 "" headers)
    end.

(** [loader] of src/unnamed/part_004; its [digest] prefixes the epoch. *)
Definition Flat_loader (request : Request) (firstWins : bool)
    (fetchS3SizeSnapshot fetchCircleCISizeSnapshot : settled SizeSnapshot)
  : completion (payload Flat.AppData) :=
  let etag :=
    sha256 ("v" ++ cacheEpoch ++ "-" ++ ("v1-" ++ searchParams request)) in
  let headers :=
    [("ETag", etag); ("Cache-Control", "immutable, max-age=86400")] in
  if enableCaching && etag_matches (ifNoneMatch request) etag
  then Return {| status := 304; statusText := "";
                 headers := headers; body := None |}
  else
    match Promise_all firstWins fetchS3SizeSnapshot fetchCircleCISizeSnapshot with
    | Rejected error =>
        Throw (json (Failure (prNumber request)) 404 (Error.toString error) [])
    | Fulfilled (baseSnapshot, targetSnapshot) =>
        Return (json (Data (Flat.diff baseSnapshot targetSnapshot))
                  200 "" headers)
    end.

(** The data of the route of src/unnamed/part_003: the two snapshots. *)
Record AzureData : Type := {
  baseSnapshot : SizeSnapshot;
  targetSnapshot : SizeSnapshot;
  azPrNumber : number;
}.

(** [loader] of src/unnamed/part_003: a failed fetch is caught and
    answered with a returned 404 that carries the build id. *)
Definition Azure_loader (request : Request) (firstWins : bool)
    (fetchS3SizeSnapshot fetchAzureSizeSnapshot : settled SizeSnapshot)
  : completion (payload AzureData) :=
  let etag :=
    md5 ("v1-" ++ (baseCommit request ++ "--" ++ baseRef request ++ "--"
                   ++ Number_toString (buildNumber request) ++ "--"
                   ++ Number_toString (prNumber request))) in
  if etag_matches (ifNoneMatch request) etag
  then Return {| status := 304; statusText := ""; headers := []; body := None |}
  else
    match Promise_all firstWins fetchS3SizeSnapshot fetchAzureSizeSnapshot with
    | Fulfilled (base, target) =>
        Return (json (Data {| baseSnapshot := base; targetSnapshot := target;
                              azPrNumber := prNumber request |})
                  200 "" [("Cache-Control", "max-age=86400"); ("ETag", etag)])
    | Rejected _ =>
        Return (json (Failure (buildNumber request)) 404 "" [])
    end.
End loaders.

(** [SizeComparison] of src/unnamed/part_003 on the data of its route.  A
    response that the loader returns is the data of the route whatever its
    status.  The data of the 404 has neither snapshot: the two properties
    are [undefined], whose spread has no key, so that [Comparison] runs over
    no bundle. *)
Definition Azure_SizeComparison (localeCompare : string → string → Z)
    (data : payload AzureData)
  : list (string * Stats.t) * list (string * Stats.t) :=
  match data with
  | Data data =>
      Comparison localeCompare (baseSnapshot data) (targetSnapshot data)
  | Failure _ => Comparison localeCompare ∅ ∅
  end.

(** ** The profiler details route
    (src/app/routes/test-profile/$buildNumber/details/$testId.tsx) *)

(** [ToInt32], applied to the left operand of [>>]. *)
Definition ToInt32 (z : Z) : Z :=
  let m := (z mod 2 ^ 32)%Z in
  if (m <? 2 ^ 31)%Z then m else (m - 2 ^ 32)%Z.

(** [a >> k] on an integer [a] *)
Definition sar (a : Z) (k : Z) : Z := Z.shiftr (ToInt32 a) k.

(** [array[i]]: [None] stands for [undefined]. *)
Definition array_get {A : Type} (array : list A) (i : Z) : option A :=
  if (i <? 0)%Z then None else array !! Z.to_nat i.

Module Profiler.
Inductive phase : Type := mount | update.

Record interaction : Type := { id : number; name : string }.

Record ProfilerReport : Type := {
  phase_of : phase;
  actualDuration : number;
  baseDuration : number;
  startTime : number;
  commitTime : number;
  interactions : list interaction;
}.

Record TestProfile : Type := {
  browserName : string;
  profile : gmap string (list ProfilerReport);
  timestamp : number;
}.

(** An element of [profilesByBrowserName[browserName]]. *)
Record render : Type := {
  r_phase : phase;
  r_actualDuration : list number;
  r_baseDuration : list number;
  r_startTime : list number;
  r_commitTime : list number;
  r_interactions : list interaction;
}.

(** The object built for the first report seen at an index. *)
Definition first_report (testProfile : ProfilerReport) : render :=
  {| r_phase := phase_of testProfile;
     r_actualDuration := [actualDuration testProfile];
     r_baseDuration := [baseDuration testProfile];
     r_startTime := [startTime testProfile];
     r_commitTime := [commitTime testProfile];
     r_interactions := interactions testProfile |}.

(** The four [push] calls on an object that exists already. *)
Definition push_report (interaction : render) (testProfile : ProfilerReport)
  : render :=
  {| r_phase := r_phase interaction;
     r_actualDuration :=
       r_actualDuration interaction ++ [actualDuration testProfile];
     r_baseDuration := r_baseDuration interaction ++ [baseDuration testProfile];
     r_startTime := r_startTime interaction ++ [startTime testProfile];
     r_commitTime := r_commitTime interaction ++ [commitTime testProfile];
     r_interactions := r_interactions interaction |}.

(** The inner [testProfiles.forEach((testProfile, interactionIndex) => ..)]:
    index by index, the report is pushed onto the object at that index,
    or, behind the end of the array, stored as a new object. *)
Fixpoint squash (renders : list render) (testProfiles : list ProfilerReport)
  : list render :=
  match renders, testProfiles with
  | interaction :: renders', testProfile :: testProfiles' =>
      push_report interaction testProfile :: squash renders' testProfiles'
  | [], _ => map first_report testProfiles
  | _, [] => renders
  end.

(** How the aggregation ends: with the object [profilesByBrowserName], with
    a TypeError, or with a write to [Object.prototype], after which the
    lookups are no more the ones of the platform. *)
Inductive aggregation : Type :=
  | Aggregated (profilesByBrowserName : gmap string (list render))
  | Throws
  | Pollutes.

(** One round of the outer [testProfiles.forEach].  [profile[testId]] and
    [profilesByBrowserName[browserName]] read through the prototype chain:
    an inherited function with a positive [length] passes the guard
    [testProfiles?.length > 0] and has neither [map] nor [forEach]; under
    the name of an inherited function the reports are stored on that
    function, and [profilesByBrowserName] gets no property of its own;
    under "__proto__" they are stored on [Object.prototype]. *)
Definition step (testId : string)
    (profilesByBrowserName : gmap string (list render)) (p : TestProfile)
  : aggregation :=
  match Get (profile p) testId with
  | Own ((_ :: _) as testProfiles) =>
      match Get profilesByBrowserName (browserName p) with
      | Undefined =>
          Aggregated (<[browserName p := map first_report testProfiles]>
                        profilesByBrowserName)
      | Own renders =>
          Aggregated (<[browserName p := squash renders testProfiles]>
                        profilesByBrowserName)
      | Method _ => Aggregated profilesByBrowserName
      | Prototype => Pollutes
      end
  | Own [] => Aggregated profilesByBrowserName
  | Method length =>
      if (0 <? length)%Z then Throws else Aggregated profilesByBrowserName
  | Prototype | Undefined => Aggregated profilesByBrowserName
  end.

(** The outer [testProfiles.forEach], which ends at the first round that
    does not complete. *)
Fixpoint aggregate (testId : string) (testProfiles : list TestProfile)
    (profilesByBrowserName : gmap string (list render)) : aggregation :=
  match testProfiles with
  | [] => Aggregated profilesByBrowserName
  | p :: testProfiles' =>
      match step testId profilesByBrowserName p with
      | Aggregated profilesByBrowserName' =>
          aggregate testId testProfiles' profilesByBrowserName'
      | outcome => outcome
      end
  end.

Definition profilesByBrowserName (testId : string)
    (testProfiles : list TestProfile) : aggregation :=
  aggregate testId testProfiles ∅.

(** [timings.sort((a, b) => a - b)] *)
Definition sorted_timings (timings : list number) : list number :=
  Array_sort (λ a b, num_sub a b) timings.

(** [const mean = timings.sort((a, b) => a - b)[timings.length >> 1]] *)
Definition mean (timings : list number) : option number :=
  array_get (sorted_timings timings) (sar (Z.of_nat (length timings)) 1).

(** What [TimingAnalysisMean] displays, [format(mean)]; [format] is
    [formatMs], which throws on [undefined] ([None]). *)
Definition TimingAnalysisMean (format : number → string)
    (timings : list number) : option string :=
  format <$> mean timings.
End Profiler.

(** * Further code of the routes *)

(** ** The digest of the ETag ([digest] of src/unnamed/part_001 and
    src/unnamed/part_004) *)

(** The digit of a number below 16, in lower case. *)
Definition hex_digit (n : N) : Ascii.ascii :=
  if (n <? 10)%N then Ascii.ascii_of_N (48 + n) else Ascii.ascii_of_N (87 + n).

(** [b.toString(16)] for an element [b] of a [Uint8Array] *)
Definition toString16 (b : Byte.byte) : string :=
  let n := Byte.to_N b in
  if (n <? 16)%N then String (hex_digit n) ""
  else String (hex_digit (n / 16)) (String (hex_digit (n mod 16)) "").

(** The first [n] characters of [rest] followed by copies of [padString]. *)
Fixpoint filler (n : nat) (padString rest : string) : string :=
  match n with
  | O => ""
  | S n' =>
      match rest with
      | String c rest' => String c (filler n' padString rest')
      | EmptyString =>
          match padString with
          | String c pad' => String c (filler n' padString pad')
          | EmptyString => ""
          end
      end
  end.

(** [s.padStart(targetLength, padString)] *)
Definition padStart (targetLength : nat) (padString s : string) : string :=
  if (targetLength <=? String.length s)%nat then s
  else filler (targetLength - String.length s) padString padString ++ s.

(** [hashArray.map((b) => b.toString(16).padStart(2, "0")).join("")] *)
Definition hashHex (hashArray : list Byte.byte) : string :=
  String.concat "" (map (λ b, padStart 2 "0" (toString16 b)) hashArray).

(** [digest(message)]; [SHA_256] is [crypto.subtle.digest("SHA-256", _)] and
    the bytes of a string are its UTF-8 encoding. *)
Definition digest (SHA_256 : list Byte.byte → list Byte.byte)
    (message : string) : string :=
  hashHex (SHA_256 (String.list_byte_of_string message)).

(** ** The headers of the document ([headers] of src/unnamed/part_004 and
    src/unnamed/part_003) *)

(** [headers.get(name)], for a name spelled as it was set; [None] is [null]. *)
Definition Headers_get (name : string) (headers : list (string * string))
  : option string :=
  snd <$> List.find (λ kv, String.eqb (fst kv) name) headers.

Definition document_headers (loaderHeaders : list (string * string))
  : list (string * option string) :=
  [("Cache-Control", Headers_get "Cache-Control" loaderHeaders);
   ("ETag", Headers_get "ETag" loaderHeaders)].

(** What a cell or a list item shows: a text, or a link with its text. *)
Inductive node : Type :=
  | Text (text : string)
  | Anchor (href : string) (text : string).

(** ** The cells of the table ([addPercent] and [formatDiff] of
    src/unnamed/part_003 and src/unnamed/part_004) *)

(** [a * b] *)
Definition num_mul (a b : number) : number :=
  match a, b with
  | NaN, _ | _, NaN => NaN
  | Fin x, Fin y => Fin (Qred (x * y))
  | Fin x, Infinity s | Infinity s, Fin x =>
      match Qsign x with
      | Eq => NaN
      | Gt => Infinity s
      | Lt => Infinity (negb s)
      end
  | Infinity s, Infinity t => Infinity (xorb s t)
  end.

(** Whether [c] is the one character of the string [s]. *)
Definition is_char (s : string) (c : Ascii.ascii) : bool :=
  String.eqb (String c "") s.

(** [/^-|^0(?:\.0+)$/.test(formatted)] *)
Definition is_reduction (formatted : string) : bool :=
  startsWith formatted "-"
  || match strip_prefix "0." formatted with
     | Some zeros => negb (String.eqb zeros "") && all_chars (is_char "0") zeros
     | None => false
     end.

(** A row of the table: the React key and the five cells. *)
Module Tr.
Record t : Type := {
  key : string;
  bundle : node;
  sizeChange : string;
  size : string;
  gzipChange : string;
  gzip : string;
}.
End Tr.

Section cells.
(** [x.toFixed(2)] and [prettyBytes(x, { signed: true })] *)
Variable toFixed2 : number → string.
Variable prettyBytes_signed : number → string.

Definition addPercent (change : number) (goodEmoji badEmoji : string) : string :=
  let formatted := toFixed2 (num_mul change 100%Z) in
  if is_reduction formatted
  then formatted ++ "% " ++ goodEmoji
  else "+" ++ formatted ++ "% " ++ badEmoji.

Definition formatDiff (absoluteChange relativeChange : number) : string :=
  if strict_eq absoluteChange 0%Z then "--"
  else
    let trendIcon := if num_lt absoluteChange 0%Z then "▼" else "▲" in
    trendIcon ++ " " ++ prettyBytes_signed absoluteChange
    ++ " (" ++ addPercent relativeChange "" "" ++ ")".

(** [prettyBytes(x)] for a size as it was read, [labelA.localeCompare(labelB)]
    and [`${n}`] *)
Variable prettyBytes : option number → string.
Variable localeCompare : string → string → Z.
Variable Number_toString : number → string.

(** [renderPageBundleLabel] of [Comparison] (src/unnamed/part_003) *)
Definition renderPageBundleLabel (prNumber : number) (bundleId : string)
  : node :=
  if startsWith bundleId "docs:/"
  then
    let page := remove_prefix "docs:" bundleId in
    let host := "https://deploy-preview-" ++ Number_toString prNumber
                ++ "--material-ui.netlify.app" in
    Anchor (host ++ page) page
  else Text bundleId.

(** The body of [CompareTable] (src/unnamed/part_003): a row of five cells
    under its key, for every element of [rows]. *)
Definition CompareTable (getBundleLabel : string → string)
    (renderBundleLabel : string → node) (entries : list (string * Size.t))
  : list Tr.t :=
  map (λ row : string * Stats.t,
         let '(label, stats) := row in
         {| Tr.key := label;
            Tr.bundle := renderBundleLabel (Stats.id stats);
            Tr.sizeChange :=
              formatDiff (Size.absoluteDiff (Stats.parsed stats))
                         (Size.relativeDiff (Stats.parsed stats));
            Tr.size := prettyBytes (Size.current (Stats.parsed stats));
            Tr.gzipChange :=
              formatDiff (Size.absoluteDiff (Stats.gzip stats))
                         (Size.relativeDiff (Stats.gzip stats));
            Tr.gzip := prettyBytes (Size.current (Stats.gzip stats)) |})
      (rows localeCompare getBundleLabel entries).

(** The two tables of [Comparison] (src/unnamed/part_003), "Modules" and
    "Pages"; the first renders a bundle by its label. *)
Definition ComparisonTables (baseSnapshot targetSnapshot : SizeSnapshot)
    (prNumber : number) : list Tr.t * list Tr.t :=
  let results := Paged.diff baseSnapshot targetSnapshot in
  (CompareTable getMainBundleLabel_core
     (λ bundleId, Text (getMainBundleLabel_core bundleId))
     (Paged.main results),
   CompareTable getPageBundleLabel (renderPageBundleLabel prNumber)
     (Paged.pages results)).
End cells.

(** ** The fetch of the CircleCI snapshot ([fetchCircleCISizeSnapshot] of
    src/unnamed/part_001 and src/unnamed/part_004) *)

(** An item of the artifacts of a build. *)
Module Artifact.
Record t : Type := { path : string; url : string }.
End Artifact.

(** The response of a [fetch]: the status line and how [response.json()]
    settles. *)
Record HttpResponse (Body : Type) : Type := {
  http_status : Z;
  http_statusText : string;
  http_json : settled Body;
}.
Arguments http_status {Body} _.
Arguments http_statusText {Body} _.
Arguments http_json {Body} _.

Section fetchCircleCISizeSnapshot.
(** [downloadSnapshot(url)], and the message of the TypeError that reading
    [.url] of [undefined] throws. *)
Variable downloadSnapshot : string → settled SizeSnapshot.
Variable undefined_url_message : string.

Definition fetchCircleCISizeSnapshot
    (fetched : settled (HttpResponse (list Artifact.t)))
  : settled SizeSnapshot :=
  match fetched with
  | Rejected error => Rejected error
  | Fulfilled response =>
      match http_json response with
      | Rejected error => Rejected error
      | Fulfilled artifacts =>
          if (http_status response =? 200)%Z
          then
            match List.find (λ artifact,
                               String.eqb (Artifact.path artifact)
                                 "size-snapshot.json") artifacts with
            | Some artifact => downloadSnapshot (Artifact.url artifact)
            | None =>
                Rejected {| Error.name := "TypeError";
                            Error.message := undefined_url_message |}
            end
          else
            Rejected {| Error.name := "Error";
                        Error.message :=
                          pretty (http_status response) ++ ": "
                          ++ http_statusText response |}
      end
  end.
End fetchCircleCISizeSnapshot.

(** ** Matching against the regular expressions of the profiler routes *)

(** The longest prefix of characters that satisfy [f], and the rest. *)
Fixpoint span (f : Ascii.ascii → bool) (s : string) : string * string :=
  match s with
  | String c s' =>
      if f c then (String c (fst (span f s')), snd (span f s'))
      else ("", s)
  | EmptyString => ("", "")
  end.

(** A class followed by [+]: at least one character of the class, as many
    as there are; every expression below continues with a character that is
    not of the class, so no shorter match is ever tried with success. *)
Definition many1 (f : Ascii.ascii → bool) (s : string)
  : option (string * string) :=
  let '(matched, rest) := span f s in
  if String.eqb matched "" then None else Some (matched, rest).

(** The end of the input, [$]. *)
Definition at_end (s : string) : option unit :=
  if String.eqb s "" then Some tt else None.

(** [\d] *)
Definition is_digit (c : Ascii.ascii) : bool :=
  let n := Ascii.N_of_ascii c in ((48 <=? n) && (n <=? 57))%N.

(** The first position of [s] at which [match_here] succeeds: the match of
    an expression that is not anchored. *)
Fixpoint search {A : Type} (match_here : string → option A) (s : string)
  : option A :=
  match match_here s with
  | Some x => Some x
  | None =>
      match s with
      | String _ s' => search match_here s'
      | EmptyString => None
      end
  end.

(** ** The traced interactions ([ProfilerInteractions] of
    src/app/routes/test-profile/$buildNumber/details/$testId.tsx) *)

(** [name.match(/^([^:]+):(\d+):\d+ \(([^)]+)\)$/)]: the file name, the line
    number and the name of the interaction. *)
Definition traceByStackMatch (name : string) : option (string * string * string) :=
  '(filename, r) ← many1 (λ c, negb (is_char ":" c)) name;
  r ← strip_prefix ":" r;
  '(lineNumber, r) ← many1 is_digit r;
  r ← strip_prefix ":" r;
  '(_, r) ← many1 is_digit r;
  r ← strip_prefix " (" r;
  '(interactionName, r) ← many1 (λ c, negb (is_char ")" c)) r;
  r ← strip_prefix ")" r;
  _ ← at_end r;
  Some (filename, lineNumber, interactionName).

(** [name.match(/^unknown line \(([^)]+)\)$/)] *)
Definition unknownLineMatch (name : string) : option string :=
  r ← strip_prefix "unknown line (" name;
  '(who, r) ← many1 (λ c, negb (is_char ")" c)) r;
  r ← strip_prefix ")" r;
  _ ← at_end r;
  Some who.

(** One [<li key={interaction.id}>] of the list. *)
Definition ProfilerInteraction (codeUrl : string)
    (interaction : Profiler.interaction) : number * node :=
  (Profiler.id interaction,
   match traceByStackMatch (Profiler.name interaction) with
   | None =>
       Text (default (Profiler.name interaction)
               (unknownLineMatch (Profiler.name interaction)))
   | Some (filename, lineNumber, interactionName) =>
       Anchor (codeUrl ++ "/" ++ filename ++ "#L" ++ lineNumber)
              (interactionName ++ "@L" ++ lineNumber)
   end).

(** [codeUrl] is [testProfileDetails.codeUrl] of the context. *)
Definition ProfilerInteractions (codeUrl : string)
    (interactions : list Profiler.interaction) : list (number * node) :=
  map (ProfilerInteraction codeUrl) interactions.

(** ** The profiling artifacts of a build
    (src/app/routes/test-profile/$buildNumber.tsx) *)

(** The integer that a string of decimal digits writes, most significant
    digit first. *)
Definition digits_value (digits : string) : Z :=
  fold_left (λ n c, (10 * n + (Z.of_N (Ascii.N_of_ascii c) - 48))%Z)
    (String.list_ascii_of_string digits) 0%Z.

(** The number for a non-negative integer: the integer itself below 2^53,
    and from there the nearest number of 53 significant bits, a tie going to
    the even one, or [Infinity] from 2^1024 on. *)
Definition round_to_number (z : Z) : number :=
  if (z <? 2 ^ 53)%Z then num_of_Z z
  else
    let e := (Z.log2 z - 52)%Z in
    let q := (z / 2 ^ e)%Z in
    let r := (z mod 2 ^ e)%Z in
    let q' :=
      if (2 ^ e <? 2 * r)%Z || ((2 * r =? 2 ^ e)%Z && Z.odd q)
      then (q + 1)%Z else q in
    if (2 ^ 1024 <=? q' * 2 ^ e)%Z then Infinity false
    else num_of_Z (q' * 2 ^ e).

(** [parseInt(digits, 10)] on a string of digits: the number for the
    integer that they write. *)
Definition parseInt_digits (digits : string) : number :=
  round_to_number (digits_value digits).

Module ArtifactInfo.
Record t : Type := { pretty_path : string; url : string }.
End ArtifactInfo.

Module TestProfileArtifactsInfo.
Record t : Type := { browserName : string; timestamp : number; url : string }.
End TestProfileArtifactsInfo.

(** [pretty_path.match(/^react-profiler-report\/karma\/([^/]+)\/(\d+)\.json$/)] *)
Definition reportPathMatch (pretty_path : string) : option (string * string) :=
  r ← strip_prefix "react-profiler-report/karma/" pretty_path;
  '(browserName, r) ← many1 (λ c, negb (is_char "/" c)) r;
  r ← strip_prefix "/" r;
  '(timestampRaw, r) ← many1 is_digit r;
  r ← strip_prefix ".json" r;
  _ ← at_end r;
  Some (browserName, timestampRaw).

(** The callback of [infos.map]: the info of a report, or [null]. *)
Definition toTestProfileArtifactsInfo (artifactInfo : ArtifactInfo.t)
  : option TestProfileArtifactsInfo.t :=
  '(browserName, timestampRaw)
    ← reportPathMatch (ArtifactInfo.pretty_path artifactInfo);
  Some {| TestProfileArtifactsInfo.browserName := browserName;
          TestProfileArtifactsInfo.timestamp := parseInt_digits timestampRaw;
          TestProfileArtifactsInfo.url := ArtifactInfo.url artifactInfo |}.

(** [fetchTestProfileArtifactsInfos]: the [map] and the [filter] on the
    artifacts that [fetchCircleCIArtifactsInfos] has fetched. *)
Definition fetchTestProfileArtifactsInfos
    (fetchCircleCIArtifactsInfos : settled (list ArtifactInfo.t))
  : settled (list TestProfileArtifactsInfo.t) :=
  match fetchCircleCIArtifactsInfos with
  | Rejected reason => Rejected reason
  | Fulfilled infos => Fulfilled (omap toTestProfileArtifactsInfo infos)
  end.

(** [pipeline.vcs]; a pipeline without a branch has [branch === undefined]. *)
Module Vcs.
Record t : Type := {
  branch : option string;
  origin_repository_url : string;
  revision : string;
}.
End Vcs.

Module Pipeline.
Record t : Type := { vcs : Vcs.t }.
End Pipeline.

Module Job.
Record t : Type := { pipeline_id : string; web_url : string }.
End Job.

(** One attempt of [/pull\/(\d+)\/(head|merge)/] at the start of [s]. *)
Definition pullRequestMatch (s : string) : option string :=
  r ← strip_prefix "pull/" s;
  '(number, r) ← many1 is_digit r;
  r ← strip_prefix "/" r;
  if startsWith r "head" || startsWith r "merge" then Some number else None.

(** One attempt of [/pull\/(\d+)\//] at the start of [s]. *)
Definition pullMatch (s : string) : option string :=
  r ← strip_prefix "pull/" s;
  '(number, r) ← many1 is_digit r;
  _ ← strip_prefix "/" r;
  Some number.

Definition computeReviewUrl (pipeline : Pipeline.t) : string :=
  let vcs := Pipeline.vcs pipeline in
  match Vcs.branch vcs ≫= search pullRequestMatch with
  | None =>
      Vcs.origin_repository_url vcs ++ "/commit/" ++ Vcs.revision vcs ++ "/"
  | Some number =>
      Vcs.origin_repository_url vcs ++ "/pull/" ++ number ++ "/"
  end.

Definition computeLabel (pipeline : Pipeline.t) : string :=
  let vcs := Pipeline.vcs pipeline in
  match Vcs.branch vcs with
  | None => "Unknown"
  | Some branch =>
      match search pullMatch branch with
      | Some number => "#" ++ number
      | None => branch ++ " (" ++ String.substring 0 8 (Vcs.revision vcs) ++ ")"
      end
  end.

Module TestProfileDetails.
Record t : Type := {
  codeUrl : string;
  label : string;
  reviewUrl : string;
  webUrl : string;
}.
End TestProfileDetails.

(** [fetchTestProfileDetails]: the job, then the pipeline of the job. *)
Definition fetchTestProfileDetails
    (fetchCircleCIJobDetails : settled Job.t)
    (fetchCircleCIPipelineDetails : string → settled Pipeline.t)
  : settled TestProfileDetails.t :=
  match fetchCircleCIJobDetails with
  | Rejected reason => Rejected reason
  | Fulfilled job =>
      match fetchCircleCIPipelineDetails (Job.pipeline_id job) with
      | Rejected reason => Rejected reason
      | Fulfilled pipeline =>
          let vcs := Pipeline.vcs pipeline in
          Fulfilled
            {| TestProfileDetails.codeUrl :=
                 Vcs.origin_repository_url vcs ++ "/tree/"
                 ++ Vcs.revision vcs ++ "/";
               TestProfileDetails.label := computeLabel pipeline;
               TestProfileDetails.reviewUrl := computeReviewUrl pipeline;
               TestProfileDetails.webUrl := Job.web_url job |}
      end
  end.

(** [Promise.all(promises)]: fulfilled with the values in the order of the
    promises, or rejected with the reason of the promise that rejects
    first, the one at [first] among those that reject. *)
Definition Promise_all_list {A : Type} (first : nat)
    (promises : list (settled A)) : settled (list A) :=
  match omap (λ p, match p with Rejected e => Some e | Fulfilled _ => None end)
             promises with
  | [] =>
      Fulfilled
        (omap (λ p, match p with Fulfilled a => Some a | Rejected _ => None end)
              promises)
  | e :: es => Rejected (List.nth first (e :: es) e)
  end.

(** [fetchTestProfiles]; [download url] is how [fetch(url)] and then
    [response.json()] settle. *)
Definition fetchTestProfiles (first : nat)
    (download : string → settled (gmap string (list Profiler.ProfilerReport)))
    (fetchCircleCIArtifactsInfos : settled (list ArtifactInfo.t))
  : settled (list Profiler.TestProfile) :=
  match fetchTestProfileArtifactsInfos fetchCircleCIArtifactsInfos with
  | Rejected reason => Rejected reason
  | Fulfilled infos =>
      Promise_all_list first
        (map (λ info,
                match download (TestProfileArtifactsInfo.url info) with
                | Rejected reason => Rejected reason
                | Fulfilled testProfileArtifact =>
                    Fulfilled
                      {| Profiler.browserName :=
                           TestProfileArtifactsInfo.browserName info;
                         Profiler.profile := testProfileArtifact;
                         Profiler.timestamp :=
                           TestProfileArtifactsInfo.timestamp info |}
                end)
             infos)
  end.

(** The data of the layout route: the build number of a build without
    profiles, or the details and the profiles. *)
Inductive TestProfileData : Type :=
  | NoProfiles (buildNumber : number)
  | Profiles (testProfileDetails : TestProfileDetails.t)
             (testProfiles : list Profiler.TestProfile).

(** [loader] of src/app/routes/test-profile/$buildNumber.tsx: the promise
    of a response; nothing catches a fetch that fails. *)
Definition TestProfile_loader (buildNumber : number) (firstWins : bool)
    (fetchTestProfiles : settled (list Profiler.TestProfile))
    (fetchTestProfileDetails : settled TestProfileDetails.t)
  : settled (Response TestProfileData) :=
  match Promise_all firstWins fetchTestProfiles fetchTestProfileDetails with
  | Rejected reason => Rejected reason
  | Fulfilled (testProfiles, testProfileDetails) =>
      if (length testProfiles =? 0)%nat
      then Fulfilled (json (NoProfiles buildNumber) 404
                        "Build contains no profiling artifacts" [])
      else Fulfilled (json (Profiles testProfileDetails testProfiles)
                        200 "" [])
  end.

(** ** The index of the tests ([TestProfileIndex] and [TestProfileAnalysis]
    of src/app/routes/test-profile/$buildNumber.tsx) *)

(** [Array.from(new Set(array))]: the first occurrence of every element. *)
Definition Set_from (array : list string) : list string :=
  fold_left (λ seen x, if decide (x ∈ seen) then seen else (seen ++ [x])%list)
    array [].

(** [profile[testId].length > 0] *)
Definition has_reports (profile : gmap string (list Profiler.ProfilerReport))
    (testId : string) : bool :=
  match profile !! testId with
  | Some (_ :: _) => true
  | _ => false
  end.

Definition testIdsWithProfilingData (localeCompare : string → string → Z)
    (testProfiles : list Profiler.TestProfile) : list string :=
  Array_sort (λ a b, num_of_Z (localeCompare a b))
    (Set_from
       (fold_left
          (λ testIdsDuplicated p,
             (testIdsDuplicated
              ++ List.filter (has_reports (Profiler.profile p))
                   (Object_keys (Profiler.profile p)))%list)
          testProfiles [])).

(** * Notions of the statements *)

Open Scope list_scope.

(** The absolute changes a row is ranked by. *)
Definition absParsed (r : string * Stats.t) : number :=
  Math_abs (Size.absoluteDiff (Stats.parsed r.2)).
Definition absGzip (r : string * Stats.t) : number :=
  Math_abs (Size.absoluteDiff (Stats.gzip r.2)).

(** A row whose two absolute changes are finite numbers. *)
Definition finite_row (r : string * Stats.t) : Prop :=
  is_finite (Size.absoluteDiff (Stats.parsed r.2)) = true
  ∧ is_finite (Size.absoluteDiff (Stats.gzip r.2)) = true.

(** [x] ranks before [y]: by |parsed diff| descending, then |gzip diff|
    descending, then label ascending. *)
Definition ranked (localeCompare : string → string → Z)
    (x y : string * Stats.t) : Prop :=
  num_gt (absParsed x) (absParsed y) = true
  ∨ (strict_eq (absParsed x) (absParsed y) = true
     ∧ num_gt (absGzip x) (absGzip y) = true)
  ∨ (strict_eq (absParsed x) (absParsed y) = true
     ∧ strict_eq (absGzip x) (absGzip y) = true
     ∧ (localeCompare x.1 y.1 <= 0)%Z).

(** What the engine's sort needs of [localeCompare]. *)
Definition consistent (localeCompare : string → string → Z) : Prop :=
  (∀ a b, (0 < localeCompare a b)%Z → (localeCompare b a <= 0)%Z)
  ∧ (∀ a b c, (localeCompare a b <= 0)%Z → (localeCompare b c <= 0)%Z →
              (localeCompare a c <= 0)%Z).

(** The bundles of the list [pages]: those with the prefix "docs:". *)
Definition is_page (bundle : string) : Prop := startsWith bundle "docs:" = true.

(** [ids] lists every key of the two snapshots exactly once. *)
Definition exactly_the_union (base target : SizeSnapshot) (ids : list string)
  : Prop :=
  list_to_set ids =@{gset string} dom base ∪ dom target
  ∧ NoDup ids
  ∧ length ids = size (dom base ∪ dom target).

(** An entry that one of the loaders emits for the two snapshots. *)
Definition emitted (base target : SizeSnapshot) (e : string * Size.t) : Prop :=
  e ∈ Flat.main (Flat.diff base target)
  ∨ e ∈ Paged.main (Paged.diff base target)
        ++ Paged.pages (Paged.diff base target).

(** The snapshot [{ [bundle]: { parsed, gzip } }]. *)
Definition single (bundle : string) (parsed gzip : Z) : SizeSnapshot :=
  {[ bundle := {| Snapshot.parsed := parsed; Snapshot.gzip := gzip |} ]}.

(** A key that every object inherits from [Object.prototype]. *)
Definition inherited (key : string) : bool :=
  match Get (∅ : gmap string unit) key with
  | Undefined => false
  | _ => true
  end.

(** No bundle that only one of the two snapshots has is named like a
    property of [Object.prototype]: every size is read from an own property
    or, for a missing bundle, from [nullSnapshot]. *)
Definition plainly_named (base target : SizeSnapshot) : Prop :=
  ∀ bundle, bundle ∈ dom base ∪ dom target → inherited bundle = true →
            bundle ∈ dom base ∧ bundle ∈ dom target.

(** The size of a bundle in a snapshot, nothing for a missing bundle. *)
Definition size_in (snapshot : SizeSnapshot) (bundle : string)
  : Snapshot.entry :=
  default nullSnapshot (snapshot !! bundle).

(** A bundle that only [target] has: nothing before, its size now. *)
Definition fully_added (target : SizeSnapshot) (bundle : string)
    (size : Size.t) : Prop :=
  ∃ e, target !! bundle = Some e
    ∧ Size.previous (Size.parsed size) = Some (num_of_Z 0)
    ∧ Size.previous (Size.gzip size) = Some (num_of_Z 0)
    ∧ Size.current (Size.parsed size) = Some (Snapshot.parsed e)
    ∧ Size.current (Size.gzip size) = Some (Snapshot.gzip e).

(** A bundle that only [base] has: its size before, nothing now. *)
Definition fully_removed (base : SizeSnapshot) (bundle : string)
    (size : Size.t) : Prop :=
  ∃ e, base !! bundle = Some e
    ∧ Size.current (Size.parsed size) = Some (num_of_Z 0)
    ∧ Size.current (Size.gzip size) = Some (num_of_Z 0)
    ∧ Size.previous (Size.parsed size) = Some (Snapshot.parsed e)
    ∧ Size.previous (Size.gzip size) = Some (Snapshot.gzip e).

(** Whether a fetch has failed. *)
Definition rejected {A : Type} (p : settled A) : bool :=
  match p with Rejected _ => true | Fulfilled _ => false end.

(** The response of a completion, returned or thrown. *)
Definition response_of {B : Type} (c : completion B) : Response B :=
  match c with Return r | Throw r => r end.

(** The response tells the failure: its status text is [String(error)]. *)
Definition carries_failure {B : Type} (r : Response B) (error : Error.t)
  : Prop :=
  statusText r = Error.toString error.

(** Whether the body of a response is computed data. *)
Definition carries_data {D : Type} (r : Response (payload D)) : bool :=
  match body r with Some (Data _) => true | _ => false end.

(** The reports of [testId] in a profile of [browser], when there are any. *)
Definition run_of (testId browser : string) (p : Profiler.TestProfile)
  : option (list Profiler.ProfilerReport) :=
  if decide (Profiler.browserName p = browser)
  then match Profiler.profile p !! testId with
       | Some (r :: rs) => Some (r :: rs)
       | _ => None
       end
  else None.

(** The repeated runs of [testId] in [browser], in the order of the profiles. *)
Definition runs (testId browser : string)
    (testProfiles : list Profiler.TestProfile)
  : list (list Profiler.ProfilerReport) :=
  omap (run_of testId browser) testProfiles.

(** The reports at index [i] of the runs that are long enough. *)
Definition column (i : nat) (rs : list (list Profiler.ProfilerReport))
  : list Profiler.ProfilerReport :=
  omap (λ run, run !! i) rs.

(** The render that a column of reports is squashed to: the phase and the
    interactions of its first report, and the four measurements of all. *)
Definition render_of (reports : list Profiler.ProfilerReport)
  : option Profiler.render :=
  match reports with
  | [] => None
  | first :: _ =>
      Some {| Profiler.r_phase := Profiler.phase_of first;
              Profiler.r_actualDuration := Profiler.actualDuration <$> reports;
              Profiler.r_baseDuration := Profiler.baseDuration <$> reports;
              Profiler.r_startTime := Profiler.startTime <$> reports;
              Profiler.r_commitTime := Profiler.commitTime <$> reports;
              Profiler.r_interactions := Profiler.interactions first |}
  end.

(** [acc] holds, per browser, the renders of the columns of the runs; a
    browser named like an inherited property has no renders there. *)
Definition squashed_renders (testId : string)
    (acc : gmap string (list Profiler.render))
    (seen : list Profiler.TestProfile) : Prop :=
  ∀ browser,
    match acc !! browser with
    | None => inherited browser = false → runs testId browser seen = []
    | Some renders =>
        inherited browser = false
        ∧ runs testId browser seen ≠ []
        ∧ ∀ i, renders !! i = render_of (column i (runs testId browser seen))
    end.

(** No profile is of a browser named like an inherited property. *)
Definition plain_browsers (testProfiles : list Profiler.TestProfile) : Prop :=
  Forall (λ p, inherited (Profiler.browserName p) = false) testProfiles.

(** ** Example data *)

(** A consistent comparison to run the tables with: the order of the
    strings by character code. *)
Definition codeCompare (a b : string) : Z :=
  match String.compare a b with
  | Lt => (-1)%Z
  | Eq => 0%Z
  | Gt => 1%Z
  end.

(** The mixed scenario: bundle "a" grows, bundle "b" is added. *)
Definition example_base : SizeSnapshot := single "a" 1000 400.
Definition example_target : SizeSnapshot :=
  <["b" := {| Snapshot.parsed := 50%Z; Snapshot.gzip := 20%Z |}]>
    (single "a" 1100 440).

(** The entries of "a" and "b" in the mixed scenario, and a row. *)
Definition example_a : Size.t :=
  {| Size.parsed :=
       {| Size.previous := Some (num_of_Z 1000);
          Size.current := Some (num_of_Z 1100);
          Size.absoluteDiff := 100%Z; Size.relativeDiff := Fin (1 # 10) |};
     Size.gzip :=
       {| Size.previous := Some (num_of_Z 400);
          Size.current := Some (num_of_Z 440);
          Size.absoluteDiff := 40%Z; Size.relativeDiff := Fin (1 # 10) |} |}.

Definition example_b : Size.t :=
  {| Size.parsed :=
       {| Size.previous := Some (num_of_Z 0);
          Size.current := Some (num_of_Z 50);
          Size.absoluteDiff := 50%Z; Size.relativeDiff := Infinity false |};
     Size.gzip :=
       {| Size.previous := Some (num_of_Z 0);
          Size.current := Some (num_of_Z 20);
          Size.absoluteDiff := 20%Z; Size.relativeDiff := Infinity false |} |}.

Definition row (label : string) (bundleId : string) (size : Size.t)
  : string * Stats.t :=
  (label, {| Stats.parsed := Size.parsed size; Stats.gzip := Size.gzip size;
             Stats.id := bundleId |}).

(** A target with a bundle that is named like a property that every object
    inherits. *)
Definition example_inherited : SizeSnapshot :=
  <["a" := {| Snapshot.parsed := 1%Z; Snapshot.gzip := 1%Z |}]>
    (single "constructor" 100 50).

(** The entry of the removed bundle of 100 and 50 bytes. *)
Definition example_removed : Size.t :=
  {| Size.parsed :=
       {| Size.previous := Some (num_of_Z 100);
          Size.current := Some (num_of_Z 0);
          Size.absoluteDiff := (-100)%Z; Size.relativeDiff := (-1)%Z |};
     Size.gzip :=
       {| Size.previous := Some (num_of_Z 50);
          Size.current := Some (num_of_Z 0);
          Size.absoluteDiff := (-50)%Z; Size.relativeDiff := (-1)%Z |} |}.

(** A request without [If-None-Match], and the error of a failed fetch. *)
Definition example_request : Request :=
  {| searchParams := "baseCommit=abc&baseRef=master&prNumber=7&circleCIBuildNumber=9";
     baseCommit := "abc"; baseRef := "master";
     prNumber := 7%Z; buildNumber := 9%Z; ifNoneMatch := None |}.

Definition example_error : Error.t :=
  {| Error.name := "Error"; Error.message := "404: Not Found" |}.

(** A target with a page bundle besides "a" and "b". *)
Definition example_pages : SizeSnapshot :=
  <["docs:/api" := {| Snapshot.parsed := 7%Z; Snapshot.gzip := 3%Z |}]>
    example_target.

(** A report with the given durations, and a profile of one browser with the
    reports of the test "renders". *)
Definition report (actual base : Z) : Profiler.ProfilerReport :=
  {| Profiler.phase_of := Profiler.mount;
     Profiler.actualDuration := actual; Profiler.baseDuration := base;
     Profiler.startTime := 0%Z; Profiler.commitTime := 0%Z;
     Profiler.interactions := [] |}.

Definition profile_of (browser : string)
    (reports : list Profiler.ProfilerReport) : Profiler.TestProfile :=
  {| Profiler.browserName := browser;
     Profiler.profile := {[ "renders" := reports ]};
     Profiler.timestamp := 0%Z |}.

(** Three runs in Chrome, the second with an extra render, one in Firefox. *)
Definition example_profiles : list Profiler.TestProfile :=
  [profile_of "chrome" [report 3 9; report 8 2];
   profile_of "firefox" [report 5 5];
   profile_of "chrome" [report 1 7; report 6 4; report 2 2];
   profile_of "chrome" [report 2 8; report 7 3]].

(** The object that collects the given durations. *)
Definition collected (actual base : list Z) : Profiler.render :=
  {| Profiler.r_phase := Profiler.mount;
     Profiler.r_actualDuration := map num_of_Z actual;
     Profiler.r_baseDuration := map num_of_Z base;
     Profiler.r_startTime := map (λ _, num_of_Z 0) actual;
     Profiler.r_commitTime := map (λ _, num_of_Z 0) actual;
     Profiler.r_interactions := [] |}.

(** What the example profiles are aggregated to. *)
Definition example_renders : gmap string (list Profiler.render) :=
  <["chrome" := [collected [3; 1; 2]%Z [9; 7; 8]%Z;
                 collected [8; 6; 7]%Z [2; 4; 3]%Z;
                 collected [2]%Z [2]%Z]]>
    (<["firefox" := [collected [5]%Z [5]%Z]]> ∅).

(** A profile that lacks the test, and a profile of a browser with the name
    of an inherited function. *)
Definition example_inherited_profiles : list Profiler.TestProfile :=
  [profile_of "constructor" [report 3 9]; profile_of "firefox" [report 5 5]].

(** A test "constructor" that Chrome has profiled and Firefox has not. *)
Definition example_constructor_profiles : list Profiler.TestProfile :=
  [{| Profiler.browserName := "chrome";
      Profiler.profile := {["constructor" := [report 3 9]]};
      Profiler.timestamp := 0%Z |};
   profile_of "firefox" [report 5 5]].

(** ** Notions for the further code *)

(** The request sent again with the [If-None-Match] header [etag]. *)
Definition revalidate (request : Request) (etag : string) : Request :=
  {| searchParams := searchParams request;
     baseCommit := baseCommit request;
     baseRef := baseRef request;
     prNumber := prNumber request;
     buildNumber := buildNumber request;
     ifNoneMatch := Some etag |}.


(** A digit of the lower-case hexadecimal notation, and its value. *)
Definition is_hex (c : Ascii.ascii) : bool :=
  let n := Ascii.N_of_ascii c in
  ((48 <=? n) && (n <=? 57) || (97 <=? n) && (n <=? 102))%N.

Definition hex_value (c : Ascii.ascii) : N :=
  let n := Ascii.N_of_ascii c in
  if (n <? 58)%N then (n - 48)%N else (n - 87)%N.

(** The bytes that a string of pairs of hexadecimal digits stands for. *)
Fixpoint unhex (s : string) : list Byte.byte :=
  match s with
  | String h (String l rest) =>
      match Byte.of_N (16 * hex_value h + hex_value l) with
      | Some b => b :: unhex rest
      | None => []
      end
  | _ => []
  end.

(** How a cell of a change reads against the sizes before and now. *)
Definition change_shown (cell : string) (previous current : number) : Prop :=
  (cell = "--" ↔ strict_eq previous current = true)
  ∧ (startsWith cell "▼" = true ↔ num_lt current previous = true)
  ∧ (startsWith cell "▲" = true ↔ num_gt current previous = true).

(** The row of a bundle in a table of the Azure route: its key is the
    label of the bundle and its first cell the rendered label, its cells of
    change read against the sizes of the bundle in the two snapshots, and
    its cells of size show the sizes in [target]. *)
Definition row_of_bundle (prettyBytes : option number → string)
    (label : string) (cell : node) (base target : SizeSnapshot)
    (bundle : string) (tr : Tr.t) : Prop :=
  Tr.key tr = label
  ∧ Tr.bundle tr = cell
  ∧ change_shown (Tr.sizeChange tr)
      (Snapshot.parsed (size_in base bundle))
      (Snapshot.parsed (size_in target bundle))
  ∧ Tr.size tr = prettyBytes (Some (Snapshot.parsed (size_in target bundle)))
  ∧ change_shown (Tr.gzipChange tr)
      (Snapshot.gzip (size_in base bundle))
      (Snapshot.gzip (size_in target bundle))
  ∧ Tr.gzip tr = prettyBytes (Some (Snapshot.gzip (size_in target bundle))).

(** The text that a node shows. *)
Definition node_text (n : node) : string :=
  match n with Text text | Anchor _ text => text end.

(** A string whose first character, when it has one, is not of the class. *)
Definition stops (f : Ascii.ascii → bool) (s : string) : Prop :=
  match s with
  | EmptyString => True
  | String c _ => f c = false
  end.

(** A string of at least one character, all of them of the class. *)
Definition some_of (f : Ascii.ascii → bool) (s : string) : Prop :=
  s ≠ "" ∧ all_chars f s = true.

(** The classes of the expressions. *)
Definition no_colon (c : Ascii.ascii) : bool := negb (is_char ":" c).
Definition no_paren (c : Ascii.ascii) : bool := negb (is_char ")" c).
Definition no_slash (c : Ascii.ascii) : bool := negb (is_char "/" c).

(** The profile [p] is what the report [info] has become: its browser, its
    time stamp and the profile downloaded from its URL. *)
Definition downloaded
    (download : string → settled (gmap string (list Profiler.ProfilerReport)))
    (info : TestProfileArtifactsInfo.t) (p : Profiler.TestProfile) : Prop :=
  Profiler.browserName p = TestProfileArtifactsInfo.browserName info
  ∧ Profiler.timestamp p = TestProfileArtifactsInfo.timestamp info
  ∧ download (TestProfileArtifactsInfo.url info)
    = Fulfilled (Profiler.profile p).

(** The reason for which a fetch has failed. *)
Definition reason_of {A : Type} (p : settled A) : option Error.t :=
  match p with Rejected e => Some e | Fulfilled _ => None end.

(** A number with its rational in lowest terms, and the order of the
    numbers that are written so. *)
Definition canonical (x : number) : number :=
  match x with
  | Fin q => Fin (Qred q)
  | other => other
  end.

Definition canonical_le (a b : number) : Prop :=
  num_le a b = true ∧ canonical a = a ∧ canonical b = b.

(** ** Example data of the further code *)

(** Stand-ins for the formatting functions: a number as its numerator and
    denominator, and an integer as its decimal notation. *)
Definition show_number (n : number) : string :=
  match n with
  | NaN => "NaN"
  | Infinity negative => if negative then "-Infinity" else "Infinity"
  | Fin q => pretty (Qnum q) ++ "/" ++ pretty (Zpos (Qden q))
  end.

Definition show_size (v : option number) : string :=
  match v with
  | Some n => show_number n
  | None => "undefined"
  end.

Definition show_integer (n : number) : string :=
  match n with
  | Fin q => pretty (Qnum q)
  | _ => "NaN"
  end.

(** A formatting that differs from [show_number] only at NaN. *)
Definition show_number_but_NaN (n : number) : string :=
  match n with
  | NaN => "not a number"
  | other => show_number other
  end.

(** A hash for the examples: the bytes of the message themselves. *)
Definition example_digest : string → string := digest (λ bytes, bytes).

Definition example_etag : string :=
  example_digest ("v1-v1-" ++ searchParams example_request).

Definition example_paged_etag : string :=
  example_digest ("v1-" ++ searchParams example_request).

(** The artifacts of a build: a test report and the snapshot. *)
Definition example_artifacts : list Artifact.t :=
  [{| Artifact.path := "junit.xml"; Artifact.url := "https://ci/0" |};
   {| Artifact.path := "size-snapshot.json"; Artifact.url := "https://ci/1" |}].

Definition example_downloadSnapshot (url : string) : settled SizeSnapshot :=
  if String.eqb url "https://ci/1" then Fulfilled example_target
  else Rejected example_error.

(** The tables of the mixed scenario with a page. *)
Definition example_tables : list Tr.t * list Tr.t :=
  ComparisonTables show_number show_number show_size codeCompare
    show_integer example_base example_pages 7%Z.

(** A job and its pipeline, on the branch of a pull request. *)
Definition example_job : Job.t :=
  {| Job.pipeline_id := "p1"; Job.web_url := "https://ci/job/9" |}.

Definition example_pipeline : Pipeline.t :=
  {| Pipeline.vcs :=
       {| Vcs.branch := Some "pull/123/head";
          Vcs.origin_repository_url := "https://github.com/mui-org/material-ui";
          Vcs.revision := "0123456789abcdef" |} |}.

Definition example_details : TestProfileDetails.t :=
  {| TestProfileDetails.codeUrl :=
       "https://github.com/mui-org/material-ui/tree/0123456789abcdef/";
     TestProfileDetails.label := "#123";
     TestProfileDetails.reviewUrl :=
       "https://github.com/mui-org/material-ui/pull/123/";
     TestProfileDetails.webUrl := "https://ci/job/9" |}.

(** The artifacts of a profiled build, and the download of a report. *)
Definition example_infos : list ArtifactInfo.t :=
  [{| ArtifactInfo.pretty_path := "react-profiler-report/karma/chrome/16.json";
      ArtifactInfo.url := "https://ci/chrome" |};
   {| ArtifactInfo.pretty_path := "size-snapshot.json";
      ArtifactInfo.url := "https://ci/1" |};
   {| ArtifactInfo.pretty_path := "react-profiler-report/karma/firefox/17.json";
      ArtifactInfo.url := "https://ci/firefox" |}].

Definition example_download (url : string)
  : settled (gmap string (list Profiler.ProfilerReport)) :=
  if String.eqb url "https://ci/chrome"
  then Fulfilled {[ "renders" := [report 3 9; report 8 2] ]}
  else if String.eqb url "https://ci/firefox"
  then Fulfilled {[ "renders" := [report 5 5] ]}
  else Rejected example_error.

(** * Properties *)

(** ** Numbers *)

Lemma num_gt_Fin (a b : Q) : num_gt (Fin a) (Fin b) = true ↔ (b < a)%Q.
Proof.
  unfold num_gt, num_lt. rewrite Qlt_alt.
  destruct (b ?= a)%Q; split; congruence.
Qed.

Lemma num_gt_Fin_false (a b : Q) : num_gt (Fin a) (Fin b) = false ↔ (a <= b)%Q.
Proof.
  rewrite <- not_true_iff_false, num_gt_Fin. split; [apply Qnot_lt_le|].
  intros ? ?. eapply Qlt_not_le; eauto.
Qed.

Lemma strict_eq_Fin (a b : Q) : strict_eq (Fin a) (Fin b) = true ↔ (a == b)%Q.
Proof. apply Qeq_bool_iff. Qed.

Lemma strict_eq_Fin_false (a b : Q) :
  strict_eq (Fin a) (Fin b) = false ↔ ¬ (a == b)%Q.
Proof. rewrite <- not_true_iff_false, strict_eq_Fin. done. Qed.

(** Subtraction of finite numbers, up to the value of the rational. *)
Lemma num_sub_Fin (a b : Q) : ∃ q, num_sub (Fin a) (Fin b) = Fin q ∧ (q == a - b)%Q.
Proof. eexists; split; [reflexivity | apply Qred_correct]. Qed.

Lemma num_sub_diag (a : number) :
  is_finite a = true → num_sub a a = 0%Z.
Proof.
  destruct a as [| |q]; try discriminate. intros _. simpl.
  unfold num_of_Z. f_equal.
  rewrite (Qred_complete (q - q) 0) by ring. reflexivity.
Qed.

Lemma num_div_diag (a : number) :
  is_finite a = true → strict_eq a 0%Z = false →
  num_sub (num_div a a) 1%Z = 0%Z.
Proof.
  destruct a as [| |q]; try discriminate. intros _ Hq.
  apply strict_eq_Fin_false in Hq. change (inject_Z 0) with 0%Q in Hq.
  unfold num_div, Qsign.
  destruct (q ?= 0)%Q eqn:E.
  - apply Qeq_alt in E. contradiction.
  - simpl. unfold num_of_Z. f_equal.
    rewrite (Qred_complete (Qred (q / q) - inject_Z 1) 0); [reflexivity|].
    rewrite Qred_correct. change (inject_Z 1) with 1%Q. field; exact Hq.
  - simpl. unfold num_of_Z. f_equal.
    rewrite (Qred_complete (Qred (q / q) - inject_Z 1) 0); [reflexivity|].
    rewrite Qred_correct. change (inject_Z 1) with 1%Q. field; exact Hq.
Qed.

(** [0 / a - 1] is [-1] unless [a] is zero or NaN. *)
Lemma num_div_zero_l (a : number) :
  a ≠ NaN → strict_eq a 0%Z = false →
  num_sub (num_div 0%Z a) 1%Z = (-1)%Z.
Proof.
  destruct a as [|s|q]; [done| reflexivity |]. intros _ Hq.
  apply strict_eq_Fin_false in Hq. change (inject_Z 0) with 0%Q in Hq.
  unfold num_of_Z, num_div, Qsign. change (inject_Z 0) with 0%Q.
  assert (Qred (Qred (0 / q) - inject_Z 1) = inject_Z (-1)) as Hred.
  { rewrite (Qred_complete _ (inject_Z (-1))); [reflexivity|].
    rewrite Qred_correct. change (inject_Z 1) with 1%Q.
    change (inject_Z (-1)) with (-1 # 1)%Q. field; exact Hq. }
  destruct (q ?= 0)%Q eqn:E.
  - apply Qeq_alt in E. contradiction.
  - unfold num_sub. by rewrite Hred.
  - unfold num_sub. by rewrite Hred.
Qed.

(** [a / 0 - 1] is [+Infinity] for a positive [a]. *)
Lemma num_div_zero_r (a : number) :
  num_gt a 0%Z = true → num_sub (num_div a 0%Z) 1%Z = Infinity false.
Proof.
  destruct a as [|s|q]; [done| |].
  - destruct s; [discriminate | reflexivity].
  - intros Hq. apply num_gt_Fin in Hq. change (inject_Z 0) with 0%Q in Hq.
    unfold num_of_Z, num_div, Qsign. change (inject_Z 0 ?= 0)%Q with Eq.
    apply Qgt_alt in Hq. rewrite Hq. reflexivity.
Qed.

(** ** The sort *)

Section Array_sort_facts.
Context {A : Type} (comparefn : A → A → number).

Lemma sort_insert_perm (x : A) (l : list A) :
  sort_insert comparefn x l ≡ₚ x :: l.
Proof.
  induction l as [|y l IH]; cbn [sort_insert]; [reflexivity|].
  destruct (num_gt (SortCompare comparefn x y) 0%Z); [|reflexivity].
  rewrite IH. apply Permutation_swap.
Qed.

Lemma Array_sort_perm (l : list A) : Array_sort comparefn l ≡ₚ l.
Proof.
  induction l as [|x l IH]; simpl; [reflexivity|].
  rewrite sort_insert_perm. by constructor.
Qed.

(** Sortedness, for elements on which the comparator is consistent. *)
Context (P : A → Prop).
Hypothesis precedes_total :
  ∀ x y, P x → P y → ¬ precedes comparefn x y → precedes comparefn y x.
Hypothesis precedes_trans :
  ∀ x y z, P x → P y → P z →
    precedes comparefn x y → precedes comparefn y z → precedes comparefn x z.

Lemma sort_insert_sorted (x : A) (l : list A) :
  P x → Forall P l → StronglySorted (precedes comparefn) l →
  StronglySorted (precedes comparefn) (sort_insert comparefn x l).
Proof.
  intros Hx. induction l as [|y l IH]; intros HP Hs; cbn [sort_insert].
  { repeat constructor. }
  apply Forall_cons in HP as [Hy HP].
  apply StronglySorted_inv in Hs as [Hs Hyl].
  destruct (num_gt (SortCompare comparefn x y) 0%Z) eqn:E.
  - constructor; [by apply IH|].
    assert (precedes comparefn y x) as Hyx.
    { apply precedes_total; [done..|]. unfold precedes. by rewrite E. }
    eapply Permutation_Forall; [symmetry; apply sort_insert_perm|].
    by constructor.
  - constructor; [by constructor|].
    constructor; [done|].
    rewrite Forall_forall in Hyl, HP. apply Forall_forall. intros z Hz.
    apply (precedes_trans x y z); auto.
Qed.

Lemma Array_sort_sorted (l : list A) :
  Forall P l → StronglySorted (precedes comparefn) (Array_sort comparefn l).
Proof.
  induction l as [|x l IH]; intros HP; simpl; [constructor|].
  apply Forall_cons in HP as [Hx HP].
  apply sort_insert_sorted; [done| |by apply IH].
  eapply Permutation_Forall; [symmetry; apply Array_sort_perm|done].
Qed.
End Array_sort_facts.

(** A sorted list stays sorted under a relation that follows from the first
    on its elements. *)
Lemma StronglySorted_on {A : Type} (R S : A → A → Prop) (P : A → Prop)
    (l : list A) :
  (∀ x y, P x → P y → R x y → S x y) →
  Forall P l → StronglySorted R l → StronglySorted S l.
Proof.
  intros HRS HP Hs. induction Hs as [|a l Hs IH Ha]; constructor.
  - apply IH. by apply Forall_cons in HP as [_ ?].
  - apply Forall_cons in HP as [Hpa HP].
    rewrite Forall_forall in Ha, HP. apply Forall_forall. intros b Hb.
    apply HRS; auto.
Qed.

(** A comparator that decides a total preorder [S] on the elements [P]
    sorts them by [S]. *)
Lemma Array_sort_by {A : Type} (comparefn : A → A → number) (P : A → Prop)
    (S : A → A → Prop) (l : list A) :
  (∀ x y, P x → P y → precedes comparefn x y ↔ S x y) →
  (∀ x y, P x → P y → ¬ S x y → S y x) →
  (∀ x y z, P x → P y → P z → S x y → S y z → S x z) →
  Forall P l → StronglySorted S (Array_sort comparefn l).
Proof.
  intros Hiff Htotal Htrans HP.
  apply (StronglySorted_on (precedes comparefn) S P).
  - intros x y Hx Hy. by apply Hiff.
  - eapply Permutation_Forall; [symmetry; apply Array_sort_perm | done].
  - apply (Array_sort_sorted comparefn P); [| |done].
    + intros x y Hx Hy Hn. apply Hiff, Htotal; [done..|].
      intros HS. apply Hn. by apply Hiff.
    + intros x y z Hx Hy Hz Hxy Hyz. apply Hiff; [done..|].
      apply (Htrans x y z); [done..| |]; by apply Hiff.
Qed.

(** In a strongly sorted list the relation holds between any two positions. *)
Lemma StronglySorted_lookup {A : Type} (R : A → A → Prop) (l : list A)
    (i j : nat) (x y : A) :
  StronglySorted R l → (i < j)%nat → l !! i = Some x → l !! j = Some y → R x y.
Proof.
  intros Hs. revert i j. induction Hs as [|a l Hs IH Ha]; intros i j Hij Hi Hj.
  { by rewrite lookup_nil in Hi. }
  destruct j as [|j]; [lia|]. simpl in Hj.
  destruct i as [|i]; simpl in Hi.
  - injection Hi as ->. rewrite Forall_forall in Ha.
    apply Ha. eapply list_elem_of_lookup_2; eauto.
  - apply (IH i j); [lia|done..].
Qed.

(** ** The comparator of the rows *)

Lemma sub_is_zero (a b : Q) :
  strict_eq (num_sub (Fin b) (Fin a)) 0%Z = true ↔ (a == b)%Q.
Proof.
  unfold num_sub, num_of_Z. rewrite strict_eq_Fin, Qred_correct.
  change (inject_Z 0) with 0%Q. split; intros H; lra.
Qed.

Lemma sub_is_positive (a b : Q) :
  num_gt (num_sub (Fin b) (Fin a)) 0%Z = true ↔ (a < b)%Q.
Proof.
  unfold num_sub, num_of_Z. rewrite num_gt_Fin, Qred_correct.
  change (inject_Z 0) with 0%Q. split; intros H; lra.
Qed.

Lemma num_of_Z_positive (z : Z) : num_gt z 0%Z = true ↔ (0 < z)%Z.
Proof. unfold num_of_Z. rewrite num_gt_Fin, <- Zlt_Qlt. done. Qed.

Section rows_facts.
Variable localeCompare : string → string → Z.
Variable getBundleLabel : string → string.

(** The comparator is positive exactly when the second row ranks
    strictly before the first. *)
Lemma compareRows_positive (x y : string * Stats.t) (px gx py gy : Q) :
  absParsed x = Fin px → absGzip x = Fin gx →
  absParsed y = Fin py → absGzip y = Fin gy →
  num_gt (SortCompare (compareRows localeCompare) x y) 0%Z = true
  ↔ (px < py)%Q
    ∨ ((px == py)%Q ∧ (gx < gy)%Q)
    ∨ ((px == py)%Q ∧ (gx == gy)%Q ∧ (0 < localeCompare x.1 y.1)%Z).
Proof.
  destruct x as [lx sx], y as [ly sy]. unfold absParsed, absGzip. simpl.
  intros Hpx Hgx Hpy Hgy.
  unfold SortCompare, compareRows. rewrite Hpx, Hgx, Hpy, Hgy.
  pose proof (sub_is_zero px py) as Zp.
  pose proof (sub_is_zero gx gy) as Zg.
  pose proof (sub_is_positive px py) as Pp.
  pose proof (sub_is_positive gx gy) as Pg.
  destruct (num_sub_Fin py px) as (dp & Hdp & _).
  destruct (num_sub_Fin gy gx) as (dg & Hdg & _).
  rewrite Hdp in Zp, Pp |- *. rewrite Hdg in Zg, Pg |- *.
  destruct (strict_eq (Fin dp) 0%Z) eqn:Ep;
    destruct (strict_eq (Fin dg) 0%Z) eqn:Eg; cbn [andb].
  - change (num_gt (num_of_Z (localeCompare lx ly)) 0%Z = true ↔
            (px < py)%Q ∨ ((px == py)%Q ∧ (gx < gy)%Q)
            ∨ ((px == py)%Q ∧ (gx == gy)%Q ∧ (0 < localeCompare lx ly)%Z)).
    rewrite num_of_Z_positive.
    apply proj1 in Zp, Zg. specialize (Zp eq_refl). specialize (Zg eq_refl).
    split; [by auto|]. intros [H|[[_ H]|(_ & _ & H)]]; [lra|lra|done].
  - change (num_gt (Fin dg) 0%Z = true ↔
            (px < py)%Q ∨ ((px == py)%Q ∧ (gx < gy)%Q)
            ∨ ((px == py)%Q ∧ (gx == gy)%Q ∧ (0 < localeCompare lx ly)%Z)).
    rewrite Pg. apply proj1 in Zp. specialize (Zp eq_refl).
    assert (¬ (gx == gy)%Q) by (intros H; apply Zg in H; congruence).
    split; [by auto|]. intros [H'|[[_ H']|(_ & H' & _)]]; [lra|done|done].
  - change (num_gt (Fin dp) 0%Z = true ↔
            (px < py)%Q ∨ ((px == py)%Q ∧ (gx < gy)%Q)
            ∨ ((px == py)%Q ∧ (gx == gy)%Q ∧ (0 < localeCompare lx ly)%Z)).
    rewrite Pp.
    assert (¬ (px == py)%Q) by (intros H; apply Zp in H; congruence).
    split; [by auto|]. intros [H'|[[H' _]|(H' & _)]]; [done|done|done].
  - change (num_gt (Fin dp) 0%Z = true ↔
            (px < py)%Q ∨ ((px == py)%Q ∧ (gx < gy)%Q)
            ∨ ((px == py)%Q ∧ (gx == gy)%Q ∧ (0 < localeCompare lx ly)%Z)).
    rewrite Pp.
    assert (¬ (px == py)%Q) by (intros H; apply Zp in H; congruence).
    split; [by auto|]. intros [H'|[[H' _]|(H' & _)]]; [done|done|done].
Qed.

Lemma finite_row_abs (x : string * Stats.t) :
  finite_row x → ∃ px gx, absParsed x = Fin px ∧ absGzip x = Fin gx.
Proof.
  unfold finite_row, absParsed, absGzip. intros [Hp Hg].
  destruct (Size.absoluteDiff (Stats.parsed x.2)); try discriminate.
  destruct (Size.absoluteDiff (Stats.gzip x.2)); try discriminate.
  simpl. eauto.
Qed.

(** On rows with finite changes, staying in front is ranking before. *)
Lemma precedes_ranked (x y : string * Stats.t) :
  finite_row x → finite_row y →
  precedes (compareRows localeCompare) x y ↔ ranked localeCompare x y.
Proof.
  intros Hx Hy.
  destruct (finite_row_abs x Hx) as (px & gx & Hpx & Hgx).
  destruct (finite_row_abs y Hy) as (py & gy & Hpy & Hgy).
  unfold precedes. rewrite <- not_true_iff_false.
  rewrite (compareRows_positive x y px gx py gy) by done.
  unfold ranked. rewrite Hpx, Hgx, Hpy, Hgy.
  rewrite !num_gt_Fin, !strict_eq_Fin.
  split.
  - intros Hn.
    destruct (Q_dec px py) as [[H|H]|H].
    + exfalso. apply Hn. by left.
    + by left.
    + destruct (Q_dec gx gy) as [[H'|H']|H'].
      * exfalso. apply Hn. right. left. done.
      * right. left. done.
      * right. right. repeat split; try done.
        destruct (Z_lt_le_dec 0 (localeCompare x.1 y.1)) as [Hl|Hl]; [|done].
        exfalso. apply Hn. right. right. done.
  - intros [H|[[H1 H2]|(H1 & H2 & H3)]] [H'|[[H1' H2']|(H1' & H2' & H3')]];
      try lra; lia.
Qed.

Hypothesis localeCompare_consistent : consistent localeCompare.

Lemma ranked_total (x y : string * Stats.t) :
  finite_row x → finite_row y →
  ¬ ranked localeCompare x y → ranked localeCompare y x.
Proof.
  intros Hx Hy.
  destruct (finite_row_abs x Hx) as (px & gx & Hpx & Hgx).
  destruct (finite_row_abs y Hy) as (py & gy & Hpy & Hgy).
  unfold ranked. rewrite Hpx, Hgx, Hpy, Hgy.
  rewrite !num_gt_Fin, !strict_eq_Fin. intros Hn.
  destruct localeCompare_consistent as [Htot _].
  destruct (Q_dec px py) as [[H|H]|H]; [by left | exfalso; apply Hn; by left |].
  destruct (Q_dec gx gy) as [[H'|H']|H'].
  - right; left. split; [by symmetry | done].
  - exfalso. apply Hn. right; left. done.
  - right; right. split; [by symmetry|]. split; [by symmetry|].
    apply Htot.
    destruct (Z_lt_le_dec 0 (localeCompare x.1 y.1)) as [Hl|Hl]; [done|].
    exfalso. apply Hn. right; right. done.
Qed.

Lemma ranked_trans (x y z : string * Stats.t) :
  finite_row x → finite_row y → finite_row z →
  ranked localeCompare x y → ranked localeCompare y z →
  ranked localeCompare x z.
Proof.
  intros Hx Hy Hz.
  destruct (finite_row_abs x Hx) as (px & gx & Hpx & Hgx).
  destruct (finite_row_abs y Hy) as (py & gy & Hpy & Hgy).
  destruct (finite_row_abs z Hz) as (pz & gz & Hpz & Hgz).
  unfold ranked. rewrite Hpx, Hgx, Hpy, Hgy, Hpz, Hgz.
  rewrite !num_gt_Fin, !strict_eq_Fin.
  destruct localeCompare_consistent as [_ Htrans].
  intros [H|[[H1 H2]|(H1 & H2 & H3)]] [H'|[[H1' H2']|(H1' & H2' & H3')]].
  all: try (left; lra).
  all: try (right; left; split; lra).
  right; right. split; [lra|]. split; [lra|]. eapply Htrans; eauto.
Qed.

(** The rows are a rearrangement of the entries, each with its label. *)
Lemma rows_perm (entries : list (string * Size.t)) :
  rows localeCompare getBundleLabel entries
  ≡ₚ map (toRow getBundleLabel) entries.
Proof. apply Array_sort_perm. Qed.

(** Whatever arrangement of rows with finite changes the comparator
    accepts is ranked: the order does not depend on how the engine sorts. *)
Lemma ranked_of_precedes (l : list (string * Stats.t)) :
  Forall finite_row l →
  StronglySorted (precedes (compareRows localeCompare)) l →
  StronglySorted (ranked localeCompare) l.
Proof.
  apply StronglySorted_on. intros x y Hx Hy. by apply precedes_ranked.
Qed.

(** Rows with finite changes come out ranked. *)
Lemma rows_sorted (entries : list (string * Size.t)) :
  Forall finite_row (map (toRow getBundleLabel) entries) →
  StronglySorted (ranked localeCompare)
    (rows localeCompare getBundleLabel entries).
Proof.
  apply (Array_sort_by (compareRows localeCompare) finite_row).
  - apply precedes_ranked.
  - apply ranked_total.
  - apply ranked_trans.
Qed.
End rows_facts.

(** ** The keys and the entries of a diff *)

Lemma bundleKeys_elem (base target : SizeSnapshot) (bundle : string) :
  bundle ∈ bundleKeys base target ↔ bundle ∈ dom base ∪ dom target.
Proof.
  unfold bundleKeys, Object_keys, spread.
  rewrite elem_of_elements, dom_union_L, !elem_of_union. tauto.
Qed.

Lemma bundleKeys_NoDup (base target : SizeSnapshot) :
  NoDup (bundleKeys base target).
Proof. apply NoDup_elements. Qed.

Lemma bundleKeys_length (base target : SizeSnapshot) :
  length (bundleKeys base target) = size (dom base ∪ dom target).
Proof.
  unfold bundleKeys, Object_keys, spread.
  rewrite dom_union_L, (comm_L (∪) (dom target)). reflexivity.
Qed.

Lemma bundleKeys_set (base target : SizeSnapshot) :
  list_to_set (bundleKeys base target) =@{gset string} dom base ∪ dom target.
Proof.
  apply set_eq. intros x. rewrite elem_of_list_to_set. apply bundleKeys_elem.
Qed.

Lemma entry_id (base target : SizeSnapshot) (keys : list string) :
  (map (entry base target) keys).*1 = keys.
Proof. induction keys as [|k keys IH]; [done|]. cbn. f_equal. exact IH. Qed.

(** The loop of the flat loader pushes one entry per key, in order. *)
Lemma Flat_fold (base target : SizeSnapshot) (keys : list string)
    (acc : Flat.AppData) :
  Flat.main (fold_left (Flat.step base target) keys acc)
  = Flat.main acc ++ map (entry base target) keys.
Proof.
  revert acc. induction keys as [|k keys IH]; intros acc; simpl.
  { by rewrite app_nil_r. }
  rewrite IH. simpl. by rewrite <- app_assoc.
Qed.

Lemma Flat_main (base target : SizeSnapshot) :
  Flat.main (Flat.diff base target)
  = map (entry base target) (bundleKeys base target).
Proof. unfold Flat.diff. by rewrite Flat_fold. Qed.

Lemma Paged_fold (base target : SizeSnapshot) (keys : list string)
    (acc : Paged.AppData) :
  fold_left (Paged.step base target) keys acc
  = {| Paged.main :=
         Paged.main acc
         ++ map (entry base target) (filter (λ b, ¬ is_page b) keys);
       Paged.pages :=
         Paged.pages acc ++ map (entry base target) (filter is_page keys) |}.
Proof.
  revert acc. induction keys as [|k keys IH]; intros acc; simpl.
  { rewrite !app_nil_r. by destruct acc. }
  rewrite IH. unfold Paged.step. rewrite !filter_cons.
  destruct (decide (is_page k)) as [Hp|Hp].
  - rewrite decide_False by tauto. unfold is_page in Hp. rewrite Hp.
    simpl. by rewrite <- app_assoc.
  - rewrite decide_True by done. apply not_true_is_false in Hp. rewrite Hp.
    simpl. by rewrite <- app_assoc.
Qed.

Lemma Paged_main (base target : SizeSnapshot) :
  Paged.main (Paged.diff base target)
  = map (entry base target)
      (filter (λ b, ¬ is_page b) (bundleKeys base target)).
Proof. unfold Paged.diff. by rewrite Paged_fold. Qed.

Lemma Paged_pages (base target : SizeSnapshot) :
  Paged.pages (Paged.diff base target)
  = map (entry base target) (filter is_page (bundleKeys base target)).
Proof. unfold Paged.diff. by rewrite Paged_fold. Qed.

(** The two lists of the paged loader hold the entries of the flat one. *)
Lemma Paged_perm (base target : SizeSnapshot) :
  Paged.main (Paged.diff base target) ++ Paged.pages (Paged.diff base target)
  ≡ₚ Flat.main (Flat.diff base target).
Proof.
  rewrite Paged_main, Paged_pages, Flat_main, <- map_app.
  apply Permutation_map.
  induction (bundleKeys base target) as [|k keys IH]; [done|].
  rewrite !filter_cons.
  destruct (decide (is_page k)).
  - rewrite decide_False by tauto.
    rewrite <- Permutation_middle. by constructor.
  - rewrite decide_True by done. simpl. by constructor.
Qed.

(** An emitted entry is [entry] at a key of the union. *)
Lemma elem_of_Flat_main (base target : SizeSnapshot) (e : string * Size.t) :
  e ∈ Flat.main (Flat.diff base target)
  ↔ e.1 ∈ dom base ∪ dom target ∧ e = entry base target e.1.
Proof.
  rewrite Flat_main, list_elem_of_fmap. split.
  - intros (k & -> & Hk). by apply bundleKeys_elem in Hk.
  - intros [Hk He]. exists e.1. by rewrite bundleKeys_elem.
Qed.

Lemma elem_of_Paged (base target : SizeSnapshot) (e : string * Size.t) :
  e ∈ Paged.main (Paged.diff base target) ++ Paged.pages (Paged.diff base target)
  ↔ e ∈ Flat.main (Flat.diff base target).
Proof. by rewrite Paged_perm. Qed.

(** ** The emitted bundles *)

Lemma exactly_the_union_perm (base target : SizeSnapshot) (ids : list string) :
  ids ≡ₚ bundleKeys base target → exactly_the_union base target ids.
Proof.
  intros Hp. repeat split.
  - rewrite <- bundleKeys_set. apply set_eq. intros x.
    by rewrite !elem_of_list_to_set, Hp.
  - rewrite Hp. apply bundleKeys_NoDup.
  - rewrite Hp. apply bundleKeys_length.
Qed.

Lemma Flat_ids (base target : SizeSnapshot) :
  (Flat.main (Flat.diff base target)).*1 = bundleKeys base target.
Proof. by rewrite Flat_main, entry_id. Qed.

Lemma toRow_id (getBundleLabel : string → string)
    (entries : list (string * Size.t)) :
  map (λ r, Stats.id r.2) (map (toRow getBundleLabel) entries) = entries.*1.
Proof.
  induction entries as [|[k s] entries IH]; [done|]. cbn. f_equal. exact IH.
Qed.

(** C2. For all snapshots [base] and [target], the bundle identifiers of the
    emitted entries are exactly the union of the two key sets: as a set they
    equal the union, each identifier appears once, and the number of entries
    is the cardinality of the union.  This holds for the list [main] of the
    flat loader, for [main] and [pages] of the paged loader taken together,
    and for the sorted rows of the tables made from them. *)
Theorem emitted_bundles_are_the_union
    (localeCompare : string → string → Z) (base target : SizeSnapshot) :
  exactly_the_union base target (Flat.main (Flat.diff base target)).*1
  ∧ length (Flat.main (Flat.diff base target)) = size (dom base ∪ dom target)
  ∧ exactly_the_union base target
      (Paged.main (Paged.diff base target)
       ++ Paged.pages (Paged.diff base target)).*1
  ∧ exactly_the_union base target
      (map (λ r, Stats.id r.2) (SizeComparison localeCompare base target))
  ∧ length (SizeComparison localeCompare base target)
    = size (dom base ∪ dom target)
  ∧ exactly_the_union base target
      (map (λ r, Stats.id r.2)
         ((Comparison localeCompare base target).1
          ++ (Comparison localeCompare base target).2)).
Proof.
  assert (length (Flat.main (Flat.diff base target))
          = size (dom base ∪ dom target)) as Hlen.
  { rewrite <- (length_fmap fst), Flat_ids. apply bundleKeys_length. }
  split; [|split; [done|split; [|split; [|split]]]].
  - apply exactly_the_union_perm. by rewrite Flat_ids.
  - apply exactly_the_union_perm. by rewrite Paged_perm, Flat_ids.
  - apply exactly_the_union_perm. unfold SizeComparison.
    rewrite <- Flat_ids, <- (toRow_id getMainBundleLabel).
    apply Permutation_map, rows_perm.
  - unfold SizeComparison.
    rewrite (Permutation_length (rows_perm _ _ _)), length_map. exact Hlen.
  - apply exactly_the_union_perm. unfold Comparison. cbn [fst snd].
    rewrite map_app, !rows_perm, !toRow_id, <- fmap_app.
    by rewrite Paged_perm, Flat_ids.
Qed.

(** C10. The paged loader splits the entries on the prefix "docs:": every
    bundle of the union that starts with "docs:" is emitted into [pages] and
    not into [main], every other bundle into [main] and not into [pages]; the
    two lists share no bundle and together hold exactly the union. *)
Theorem pages_are_the_docs_bundles (base target : SizeSnapshot) :
  let data := Paged.diff base target in
  (∀ bundle, bundle ∈ dom base ∪ dom target →
     if startsWith bundle "docs:"
     then bundle ∈ (Paged.pages data).*1 ∧ bundle ∉ (Paged.main data).*1
     else bundle ∈ (Paged.main data).*1 ∧ bundle ∉ (Paged.pages data).*1)
  ∧ (∀ bundle, bundle ∈ (Paged.pages data).*1 →
       startsWith bundle "docs:" = true ∧ bundle ∈ dom base ∪ dom target)
  ∧ (∀ bundle, bundle ∈ (Paged.main data).*1 →
       startsWith bundle "docs:" = false ∧ bundle ∈ dom base ∪ dom target)
  ∧ (∀ bundle, bundle ∈ (Paged.main data).*1 →
       bundle ∈ (Paged.pages data).*1 → False)
  ∧ exactly_the_union base target
      ((Paged.main data).*1 ++ (Paged.pages data).*1).
Proof.
  intros data.
  assert (∀ bundle, bundle ∈ (Paged.pages data).*1 ↔
            startsWith bundle "docs:" = true ∧ bundle ∈ dom base ∪ dom target)
    as Hpages.
  { intros bundle. unfold data. rewrite Paged_pages, entry_id.
    rewrite list_elem_of_filter, bundleKeys_elem. done. }
  assert (∀ bundle, bundle ∈ (Paged.main data).*1 ↔
            startsWith bundle "docs:" = false ∧ bundle ∈ dom base ∪ dom target)
    as Hmain.
  { intros bundle. unfold data. rewrite Paged_main, entry_id.
    rewrite list_elem_of_filter, bundleKeys_elem. unfold is_page.
    by rewrite not_true_iff_false. }
  split; [|split; [|split; [|split]]].
  - intros bundle Hin. destruct (startsWith bundle "docs:") eqn:E.
    + split; [by apply Hpages|]. rewrite Hmain. intros [? _]; congruence.
    + split; [by apply Hmain|]. rewrite Hpages. intros [? _]; congruence.
  - intros bundle. apply Hpages.
  - intros bundle. apply Hmain.
  - intros bundle [H1 _]%Hmain [H2 _]%Hpages. congruence.
  - rewrite <- fmap_app. apply exactly_the_union_perm.
    unfold data. by rewrite Paged_perm, Flat_ids.
Qed.

(** ** The fields of an entry *)

(** The entry emitted for a bundle is unique. *)
Lemma Flat_main_entry (base target : SizeSnapshot) (bundle : string)
    (size : Size.t) :
  (bundle, size) ∈ Flat.main (Flat.diff base target)
  ↔ bundle ∈ dom base ∪ dom target ∧ size = (entry base target bundle).2.
Proof.
  rewrite elem_of_Flat_main. cbn [fst]. split.
  - intros [Hin He]. split; [done|]. by rewrite <- He.
  - intros [Hin ->]. split; [done|]. reflexivity.
Qed.

Lemma emitted_entry (base target : SizeSnapshot) (bundle : string)
    (size : Size.t) :
  emitted base target (bundle, size)
  ↔ bundle ∈ dom base ∪ dom target ∧ size = (entry base target bundle).2.
Proof. unfold emitted. rewrite elem_of_Paged, Flat_main_entry. tauto. Qed.

(** An own property is found before anything inherited, and a key that
    nothing inherits is found only as an own property. *)
Lemma Get_own {A : Type} (o : gmap string A) (key : string) (a : A) :
  o !! key = Some a → Get o key = Own a.
Proof. intros Ho. unfold Get. by rewrite Ho. Qed.

Lemma Get_plain {A : Type} (o : gmap string A) (key : string) :
  inherited key = false → o !! key = None → Get o key = Undefined.
Proof.
  unfold inherited, Get. rewrite lookup_empty. intros Hkey ->.
  destruct (List.find _ Object_prototype) as [[? ?]|]; [done|].
  by destruct (String.eqb key "__proto__").
Qed.

Lemma inherited_spec (key : string) :
  inherited key
  = match List.find (λ named, String.eqb (fst named) key) Object_prototype with
    | Some _ => true
    | None => String.eqb key "__proto__"
    end.
Proof.
  unfold inherited, Get. rewrite lookup_empty.
  destruct (List.find _ Object_prototype) as [[? ?]|]; [done|].
  by destruct (String.eqb key "__proto__").
Qed.

(** What a lookup finds, against the own properties of the object. *)
Lemma Get_spec {A : Type} (o : gmap string A) (key : string) :
  match Get o key with
  | Own a => o !! key = Some a
  | Method _ | Prototype => o !! key = None ∧ inherited key = true
  | Undefined => o !! key = None ∧ inherited key = false
  end.
Proof.
  rewrite inherited_spec. unfold Get.
  destruct (o !! key); [done|].
  destruct (List.find _ Object_prototype) as [[? ?]|]; [done|].
  by destruct (String.eqb key "__proto__").
Qed.

Lemma Get_Prototype {A : Type} (o : gmap string A) (key : string) :
  Get o key = Prototype → key = "__proto__".
Proof.
  unfold Get. destruct (o !! key); [done|].
  destruct (List.find _ Object_prototype) as [[? ?]|]; [done|].
  by destruct (String.eqb_spec key "__proto__").
Qed.

Lemma ToNumber_Some (n : number) : ToNumber (Some n) = n.
Proof. reflexivity. Qed.

(** No bundle is named like an inherited property: no lookup finds one. *)
Lemma plainly_named_check (base target : SizeSnapshot) :
  forallb (λ bundle, negb (inherited bundle))
    (elements (dom base ∪ dom target)) = true →
  plainly_named base target.
Proof.
  intros Hall bundle Hin Hkey. rewrite forallb_forall in Hall.
  apply elem_of_elements, list_elem_of_In, Hall in Hin.
  by rewrite Hkey in Hin.
Qed.

(** The sizes that are read for a bundle which the snapshot has, or which
    nothing inherits: those of the snapshot, or nothing. *)
Lemma or_nullSnapshot_plain (snapshot : SizeSnapshot) (bundle : string) :
  (inherited bundle = true → bundle ∈ dom snapshot) →
  or_nullSnapshot (Get snapshot bundle)
  = {| Sized.parsed := Some (Snapshot.parsed (size_in snapshot bundle));
       Sized.gzip := Some (Snapshot.gzip (size_in snapshot bundle)) |}.
Proof.
  intros Hplain. unfold size_in.
  destruct (snapshot !! bundle) as [e|] eqn:He.
  - by rewrite (Get_own _ _ _ He).
  - rewrite Get_plain; [done| |done].
    destruct (inherited bundle); [|done].
    apply not_elem_of_dom in He. destruct He. by apply Hplain.
Qed.

Lemma entry_plain (base target : SizeSnapshot) (bundle : string) :
  plainly_named base target → bundle ∈ dom base ∪ dom target →
  (entry base target bundle).2
  = {| Size.parsed :=
         metric (Some (Snapshot.parsed (size_in base bundle)))
                (Some (Snapshot.parsed (size_in target bundle)));
       Size.gzip :=
         metric (Some (Snapshot.gzip (size_in base bundle)))
                (Some (Snapshot.gzip (size_in target bundle))) |}.
Proof.
  intros Hplain Hin. unfold entry. cbn [snd].
  rewrite !or_nullSnapshot_plain; [done| |].
  - intros Hkey. by destruct (Hplain bundle Hin Hkey).
  - intros Hkey. by destruct (Hplain bundle Hin Hkey).
Qed.

(** C3. The claim holds of the code except where a lookup finds an
    inherited property.  For the snapshots [{}] and
    [{"constructor": {parsed: 100, gzip: 50}}] the lookup of "constructor"
    in the empty base finds the function [Object], which is truthy:
    [nullSnapshot] does not take its place, [previous] is [undefined] and
    not [0], and [absoluteDiff] is NaN and not [100]. *)
Theorem inherited_bundle_is_not_defaulted :
  "constructor" ∈ dom (∅ : SizeSnapshot) ∪ dom (single "constructor" 100 50)
  ∧ (∅ : SizeSnapshot) !! "constructor" = None
  ∧ ∃ size : Size.t,
      Flat.main (Flat.diff ∅ (single "constructor" 100 50))
      = [("constructor", size)]
      ∧ Paged.diff ∅ (single "constructor" 100 50)
        = {| Paged.main := [("constructor", size)]; Paged.pages := [] |}
      ∧ Size.previous (Size.parsed size) = None
      ∧ Size.previous (Size.gzip size) = None
      ∧ Size.previous (Size.parsed size) ≠ Some (num_of_Z 0)
      ∧ Size.current (Size.parsed size) = Some (num_of_Z 100)
      ∧ Size.absoluteDiff (Size.parsed size) = NaN
      ∧ Size.absoluteDiff (Size.gzip size) = NaN.
Proof.
  split; [|split; [done|]].
  - apply elem_of_union_r. unfold single. rewrite dom_singleton_L.
    by apply elem_of_singleton.
  - eexists. split; [vm_compute; reflexivity|].
    split; [vm_compute; reflexivity|]. cbn. done.
Qed.

(** What C3 states, for bundles that read no inherited property: exactly
    one entry is emitted for every bundle of the union; its [previous] is
    the size in [base] and its [current] the size in [target], a missing
    entry counting as [{parsed: 0, gzip: 0}]; and for both metrics
    [absoluteDiff = current - previous]. *)
Lemma entry_previous_current (base target : SizeSnapshot) (bundle : string) :
  plainly_named base target →
  bundle ∈ dom base ∪ dom target →
  ∃ size : Size.t,
    (∀ size', (bundle, size') ∈ Flat.main (Flat.diff base target)
              ↔ size' = size)
    ∧ (∀ size', (bundle, size') ∈ Paged.main (Paged.diff base target)
                                   ++ Paged.pages (Paged.diff base target)
                ↔ size' = size)
    ∧ Size.previous (Size.parsed size)
      = Some (Snapshot.parsed (size_in base bundle))
    ∧ Size.previous (Size.gzip size)
      = Some (Snapshot.gzip (size_in base bundle))
    ∧ Size.current (Size.parsed size)
      = Some (Snapshot.parsed (size_in target bundle))
    ∧ Size.current (Size.gzip size)
      = Some (Snapshot.gzip (size_in target bundle))
    ∧ Size.absoluteDiff (Size.parsed size)
      = num_sub (Snapshot.parsed (size_in target bundle))
                (Snapshot.parsed (size_in base bundle))
    ∧ Size.absoluteDiff (Size.gzip size)
      = num_sub (Snapshot.gzip (size_in target bundle))
                (Snapshot.gzip (size_in base bundle)).
Proof.
  intros Hplain Hin. exists (entry base target bundle).2.
  split; [|split].
  - intros size'. rewrite Flat_main_entry. tauto.
  - intros size'. rewrite elem_of_Paged, Flat_main_entry. tauto.
  - by rewrite entry_plain.
Qed.


(** What C4 states of the entries: for both metrics
    [relativeDiff = current / previous - 1] on the sizes as numbers; and a
    bundle that [base] does not have, under a name that nothing inherits,
    has the previous size [0], and the relative change [+Infinity] for each
    metric whose current size is positive. *)
Lemma relativeDiff_of_entry (base target : SizeSnapshot) (bundle : string)
    (size : Size.t) :
  emitted base target (bundle, size) →
  Size.relativeDiff (Size.parsed size)
  = num_sub (num_div (ToNumber (Size.current (Size.parsed size)))
                     (ToNumber (Size.previous (Size.parsed size)))) 1%Z
  ∧ Size.relativeDiff (Size.gzip size)
    = num_sub (num_div (ToNumber (Size.current (Size.gzip size)))
                       (ToNumber (Size.previous (Size.gzip size)))) 1%Z
  ∧ (bundle ∉ dom base → inherited bundle = false →
     Size.previous (Size.parsed size) = Some (num_of_Z 0)
     ∧ Size.previous (Size.gzip size) = Some (num_of_Z 0)
     ∧ (num_gt (ToNumber (Size.current (Size.parsed size))) 0%Z = true →
        Size.relativeDiff (Size.parsed size) = Infinity false)
     ∧ (num_gt (ToNumber (Size.current (Size.gzip size))) 0%Z = true →
        Size.relativeDiff (Size.gzip size) = Infinity false)).
Proof.
  intros [_ ->]%emitted_entry.
  split; [reflexivity|]. split; [reflexivity|].
  intros Hbase Hplain. apply not_elem_of_dom in Hbase.
  unfold entry. rewrite (Get_plain _ _ Hplain Hbase). simpl.
  split; [done|]. split; [done|]. split; apply num_div_zero_r.
Qed.

(** ** Removed and unchanged bundles *)

(** C5. A removed bundle does not always have the relative change [-1]:
    the bundle "b" of [{"b": {parsed: 0, gzip: 0}}], removed against [{}],
    has [0 / 0 - 1], which is NaN; and the bundle "toString" of
    [{"toString": {parsed: 100, gzip: 50}}], removed against [{}], has the
    current size [undefined] for the inherited function, and NaN again. *)
Theorem removed_empty_bundle_is_NaN :
  "b" ∈ dom (single "b" 0 0)
  ∧ ("b" ∉ dom (∅ : SizeSnapshot))
  ∧ (∃ size : Size.t,
       Flat.main (Flat.diff (single "b" 0 0) ∅) = [("b", size)]
       ∧ Paged.diff (single "b" 0 0) ∅
         = {| Paged.main := [("b", size)]; Paged.pages := [] |}
       ∧ Size.relativeDiff (Size.parsed size) = NaN
       ∧ Size.relativeDiff (Size.gzip size) = NaN
       ∧ Size.relativeDiff (Size.parsed size) ≠ (-1)%Z
       ∧ strict_eq (Size.relativeDiff (Size.parsed size)) (-1)%Z = false)
  ∧ ∃ size : Size.t,
      Flat.main (Flat.diff (single "toString" 100 50) ∅)
      = [("toString", size)]
      ∧ Size.current (Size.parsed size) = None
      ∧ Size.relativeDiff (Size.parsed size) = NaN
      ∧ Size.relativeDiff (Size.gzip size) = NaN.
Proof.
  split; [|split; [|split]].
  - unfold single. rewrite dom_singleton_L. by apply elem_of_singleton.
  - rewrite dom_empty_L. apply not_elem_of_empty.
  - eexists. split; [vm_compute; reflexivity|].
    split; [vm_compute; reflexivity|]. simpl. done.
  - eexists. split; [vm_compute; reflexivity|]. simpl. done.
Qed.

(** What C5 states, where it holds: a bundle that [base] has and [target]
    does not, under a name that nothing inherits, has [current = 0] for both
    metrics, and [relativeDiff = -1] for each metric whose previous size is
    neither zero nor NaN; the snapshot [{"b": {parsed: 100, gzip: 50}}]
    against the empty one gives the single entry with [current = 0],
    [absoluteDiff = -100] and [relativeDiff = -1]. *)
Lemma removed_bundle_relativeDiff :
  (∀ (base target : SizeSnapshot) (bundle : string) (e : Snapshot.entry)
     (size : Size.t),
     base !! bundle = Some e → target !! bundle = None →
     inherited bundle = false →
     emitted base target (bundle, size) →
     Size.current (Size.parsed size) = Some (num_of_Z 0)
     ∧ Size.current (Size.gzip size) = Some (num_of_Z 0)
     ∧ (Snapshot.parsed e ≠ NaN → strict_eq (Snapshot.parsed e) 0%Z = false →
        Size.relativeDiff (Size.parsed size) = (-1)%Z)
     ∧ (Snapshot.gzip e ≠ NaN → strict_eq (Snapshot.gzip e) 0%Z = false →
        Size.relativeDiff (Size.gzip size) = (-1)%Z))
  ∧ Flat.main (Flat.diff (single "b" 100 50) ∅) = [("b", example_removed)]
  ∧ Paged.diff (single "b" 100 50) ∅
    = {| Paged.main := [("b", example_removed)]; Paged.pages := [] |}.
Proof.
  split; [|split; vm_compute; reflexivity].
  intros base target bundle e size Hbase Htarget Hplain [_ ->]%emitted_entry.
  unfold entry. rewrite (Get_own _ _ _ Hbase), (Get_plain _ _ Hplain Htarget).
  simpl.
  repeat split; try reflexivity; intros; by apply num_div_zero_l.
Qed.

(** C6. For every snapshot [A] of finite sizes, every entry of the diff of
    [A] with itself has [absoluteDiff = 0] for both metrics, and
    [relativeDiff = 0] for each metric whose previous value is not zero. *)
Theorem same_snapshot_no_change (A : SizeSnapshot) (bundle : string)
    (size : Size.t) :
  valid_snapshot A →
  emitted A A (bundle, size) →
  Size.absoluteDiff (Size.parsed size) = 0%Z
  ∧ Size.absoluteDiff (Size.gzip size) = 0%Z
  ∧ (strict_eq (ToNumber (Size.previous (Size.parsed size))) 0%Z = false →
     Size.relativeDiff (Size.parsed size) = 0%Z)
  ∧ (strict_eq (ToNumber (Size.previous (Size.gzip size))) 0%Z = false →
     Size.relativeDiff (Size.gzip size) = 0%Z).
Proof.
  intros Hvalid [Hin ->]%emitted_entry.
  rewrite union_idemp_L in Hin. apply elem_of_dom in Hin as [e He].
  destruct (Hvalid bundle e He) as [Hp Hg].
  unfold entry. rewrite (Get_own _ _ _ He). simpl.
  split; [by apply num_sub_diag|]. split; [by apply num_sub_diag|].
  split; intros; by apply num_div_diag.
Qed.

(** ** Totality and failed fetches *)

Lemma bundleKeys_empty : bundleKeys ∅ ∅ = [].
Proof.
  unfold bundleKeys, Object_keys, spread.
  by rewrite dom_union_L, dom_empty_L, union_empty_l_L, elements_empty.
Qed.

(** C7. The claim holds of the code except where a lookup finds an
    inherited property.  The snapshots [{}] and
    [{"constructor": {parsed: 100, gzip: 50}}] share no key, and the one
    entry that is emitted shows the bundle neither as fully added (its
    [previous] is [undefined], not [0]) nor as fully removed. *)
Theorem inherited_bundle_is_neither_added_nor_removed :
  dom (∅ : SizeSnapshot) ## dom (single "constructor" 100 50)
  ∧ valid_snapshot (single "constructor" 100 50)
  ∧ ∃ size : Size.t,
      Flat.main (Flat.diff ∅ (single "constructor" 100 50))
      = [("constructor", size)]
      ∧ Paged.main (Paged.diff ∅ (single "constructor" 100 50))
        = [("constructor", size)]
      ∧ ¬ fully_added (single "constructor" 100 50) "constructor" size
      ∧ ¬ fully_removed ∅ "constructor" size.
Proof.
  split; [|split].
  - rewrite dom_empty_L. apply disjoint_empty_l.
  - apply map_Forall_singleton. by split.
  - eexists. split; [vm_compute; reflexivity|].
    split; [vm_compute; reflexivity|]. split.
    + intros (e & _ & Hprevious & _). cbn in Hprevious. discriminate.
    + intros (e & He & _). by rewrite lookup_empty in He.
Qed.

(** What C7 states, where it holds: on two fetched snapshots the loaders
    return (a 200 response with the diff, unless the ETag matches) and throw
    nothing; two empty snapshots give empty lists; and when no key is shared
    and no lookup finds an inherited property, every bundle of either
    snapshot has an entry, which shows it as fully added or as fully
    removed. *)
Lemma diff_is_total (sha256 : string → string)
    (localeCompare : string → string → Z) (request : Request)
    (firstWins : bool) (base target : SizeSnapshot) :
  (∃ response,
     Paged_loader sha256 request firstWins (Fulfilled base) (Fulfilled target)
     = Return response
     ∧ (etag_matches (ifNoneMatch request)
          (sha256 ("v1-" ++ searchParams request)%string) = false →
        status response = 200%Z
        ∧ body response = Some (Data (Paged.diff base target))))
  ∧ (∃ response,
       Flat_loader sha256 request firstWins (Fulfilled base) (Fulfilled target)
       = Return response
       ∧ (etag_matches (ifNoneMatch request)
            (sha256 ("v1-v1-" ++ searchParams request)%string) = false →
          status response = 200%Z
          ∧ body response = Some (Data (Flat.diff base target))))
  ∧ Paged.diff ∅ ∅ = {| Paged.main := []; Paged.pages := [] |}
  ∧ Flat.diff ∅ ∅ = {| Flat.main := [] |}
  ∧ SizeComparison localeCompare ∅ ∅ = []
  ∧ (dom base ## dom target → plainly_named base target →
     ∀ bundle, bundle ∈ dom base ∪ dom target →
       ∃ size,
         (bundle, size) ∈ Flat.main (Flat.diff base target)
         ∧ (bundle, size) ∈ Paged.main (Paged.diff base target)
                            ++ Paged.pages (Paged.diff base target)
         ∧ (fully_added target bundle size ∨ fully_removed base bundle size)).
Proof.
  split; [|split; [|split; [|split; [|split]]]].
  - unfold Paged_loader.
    destruct (etag_matches _ _); simpl; eexists; (split; [reflexivity|]);
      [discriminate | done].
  - unfold Flat_loader.
    change ("v" ++ cacheEpoch ++ "-" ++ "v1-" ++ searchParams request)%string
      with ("v1-v1-" ++ searchParams request)%string.
    destruct (etag_matches _ _); simpl; eexists; (split; [reflexivity|]);
      [discriminate | done].
  - unfold Paged.diff. by rewrite bundleKeys_empty.
  - unfold Flat.diff. by rewrite bundleKeys_empty.
  - unfold SizeComparison, Flat.diff. by rewrite bundleKeys_empty.
  - intros Hdisj Hplain bundle Hin. exists (entry base target bundle).2.
    assert ((bundle, (entry base target bundle).2)
            ∈ Flat.main (Flat.diff base target)) as Hflat.
    { by apply Flat_main_entry. }
    split; [done|]. split; [by apply elem_of_Paged|].
    rewrite (entry_plain _ _ _ Hplain Hin). unfold size_in.
    apply elem_of_union in Hin as [Hb|Ht].
    + right. assert (bundle ∉ dom target) as Hnt by (clear -Hdisj Hb; set_solver).
      apply elem_of_dom in Hb as [e He]. apply not_elem_of_dom in Hnt.
      exists e. simpl. rewrite He, Hnt. done.
    + left. assert (bundle ∉ dom base) as Hnb by (clear -Hdisj Ht; set_solver).
      apply elem_of_dom in Ht as [e He]. apply not_elem_of_dom in Hnb.
      exists e. simpl. rewrite He, Hnb. done.
Qed.

Lemma Promise_all_rejected {A B : Type} (firstWins : bool)
    (p : settled A) (q : settled B) :
  rejected p = true ∨ rejected q = true →
  ∃ error, Promise_all firstWins p q = Rejected error
           ∧ (p = Rejected error ∨ q = Rejected error).
Proof.
  destruct p as [a|e1], q as [b|e2]; simpl; intros [H|H]; try discriminate;
    try (eexists; split; [reflexivity|]; auto; fail).
  all: destruct firstWins; eexists; split; try reflexivity; auto.
Qed.

Lemma Comparison_empty (localeCompare : string → string → Z) :
  Comparison localeCompare ∅ ∅ = ([], []).
Proof. unfold Comparison, Paged.diff. by rewrite bundleKeys_empty. Qed.

(** C9, as stated, fails for the Azure route, whose loader swallows the
    rejection.  With the fetch of the target snapshot rejected for
    "Error: 404: Not Found", the loader returns (it does not throw) a 404
    with an empty status text and the build id as its only data: nothing of
    the failure is in it; and the component of the route renders that data,
    with the two tables of a diff over no bundle. *)
Lemma azure_404_drops_the_failure :
  ∃ response data,
    Azure_loader (λ s, s) show_integer example_request true
      (Fulfilled example_base) (Rejected example_error)
    = Return response
    ∧ status response = 404%Z
    ∧ statusText response = ""
    ∧ body response = Some data
    ∧ data = Failure (num_of_Z 9)
    ∧ ¬ carries_failure response example_error
    ∧ Azure_SizeComparison codeCompare data = ([], []).
Proof.
  eexists _, _. split; [reflexivity|].
  split; [reflexivity|]. split; [reflexivity|]. split; [reflexivity|].
  split; [reflexivity|]. split; [by vm_compute|]. apply Comparison_empty.
Qed.

(** C9, amended. When one of the two fetches fails and no ETag matches, no
    loader answers with a diff or with snapshots.  The loaders of the
    CircleCI routes throw the 404 response that carries the failure: its
    status text is [String(error)] for the rejection [error] of one of the
    fetches, and its data the number of the pull request.  The loader of the
    Azure route catches the rejection and returns a 404 response with the
    build id and an empty status text, whatever the failure was; the
    component of that route renders it with two empty tables. *)
Theorem failed_fetch_is_a_404 (sha256 md5 : string → string)
    (Number_toString : number → string) (localeCompare : string → string → Z)
    (request : Request) (firstWins : bool) (p q : settled SizeSnapshot) :
  rejected p = true ∨ rejected q = true →
  ∃ error,
    (p = Rejected error ∨ q = Rejected error)
    ∧ (etag_matches (ifNoneMatch request)
         (sha256 ("v1-" ++ searchParams request)%string) = false →
       Paged_loader sha256 request firstWins p q
       = Throw (json (Failure (prNumber request)) 404
                  (Error.toString error) [])
       ∧ carries_failure
           (response_of (Paged_loader sha256 request firstWins p q)) error)
    ∧ (etag_matches (ifNoneMatch request)
         (sha256 ("v1-v1-" ++ searchParams request)%string) = false →
       Flat_loader sha256 request firstWins p q
       = Throw (json (Failure (prNumber request)) 404
                  (Error.toString error) [])
       ∧ carries_failure
           (response_of (Flat_loader sha256 request firstWins p q)) error)
    ∧ (etag_matches (ifNoneMatch request)
         (md5 ("v1-" ++ (baseCommit request ++ "--" ++ baseRef request ++ "--"
                         ++ Number_toString (buildNumber request) ++ "--"
                         ++ Number_toString (prNumber request)))%string)
       = false →
       Azure_loader md5 Number_toString request firstWins p q
       = Return (json (Failure (buildNumber request)) 404 "" [])
       ∧ Azure_SizeComparison localeCompare (Failure (buildNumber request))
         = ([], []))
    ∧ carries_data (response_of (Paged_loader sha256 request firstWins p q))
      = false
    ∧ carries_data (response_of (Flat_loader sha256 request firstWins p q))
      = false
    ∧ carries_data
        (response_of (Azure_loader md5 Number_toString request firstWins p q))
      = false.
Proof.
  intros Hfail.
  destruct (Promise_all_rejected firstWins p q Hfail) as (error & Hall & Hor).
  exists error. split; [done|].
  unfold Paged_loader, Flat_loader, Azure_loader.
  change ("v" ++ cacheEpoch ++ "-" ++ "v1-" ++ searchParams request)%string
    with ("v1-v1-" ++ searchParams request)%string.
  rewrite Hall.
  split; [intros ->; by split|]. split; [intros ->; by split|].
  split; [intros ->; split; [done|apply Comparison_empty]|].
  split; [by destruct (_ && _)|]. split; [by destruct (_ && _)|].
  by destruct (etag_matches _ _).
Qed.

(** ** The order of the rows *)

Lemma num_sub_finite (a b : number) :
  is_finite a = true → is_finite b = true → is_finite (num_sub a b) = true.
Proof. by destruct a, b. Qed.

Lemma default_finite (snapshot : SizeSnapshot) (bundle : string) :
  valid_snapshot snapshot →
  is_finite (Snapshot.parsed (size_in snapshot bundle)) = true
  ∧ is_finite (Snapshot.gzip (size_in snapshot bundle)) = true.
Proof.
  intros Hvalid. unfold size_in.
  destruct (snapshot !! bundle) as [e|] eqn:He; simpl.
  - exact (Hvalid bundle e He).
  - done.
Qed.

Lemma entries_finite (getBundleLabel : string → string)
    (base target : SizeSnapshot) (keys : list string) :
  valid_snapshot base → valid_snapshot target →
  plainly_named base target →
  Forall (λ bundle, bundle ∈ dom base ∪ dom target) keys →
  Forall finite_row
    (map (toRow getBundleLabel) (map (entry base target) keys)).
Proof.
  intros Hbase Htarget Hplain Hkeys. apply Forall_forall. intros r Hr.
  apply list_elem_of_fmap in Hr as (e & -> & He).
  apply list_elem_of_fmap in He as (k & -> & Hk).
  rewrite Forall_forall in Hkeys.
  pose proof (entry_plain base target k Hplain (Hkeys k Hk)) as Hentry.
  destruct (default_finite base k Hbase), (default_finite target k Htarget).
  unfold finite_row, toRow. destruct (entry base target k) as [id size].
  cbn [snd] in Hentry. subst size.
  split; simpl; by apply num_sub_finite.
Qed.

(** The label of a row is the label of its bundle. *)
Lemma rows_label (localeCompare : string → string → Z)
    (getBundleLabel : string → string) (entries : list (string * Size.t))
    (r : string * Stats.t) :
  r ∈ rows localeCompare getBundleLabel entries →
  r.1 = getBundleLabel (Stats.id r.2).
Proof.
  rewrite rows_perm. intros ([k s] & -> & _)%list_elem_of_fmap. done.
Qed.

(** C1. The claim holds of the code except where a lookup finds an
    inherited property.  For the snapshots [{}] and
    [{"a": {parsed: 1, gzip: 1}, "constructor": {parsed: 100, gzip: 50}}],
    both of finite sizes, the table "Modules" of the Azure route has two
    rows, and they are in none of the three relations of the claim: the
    changes of "constructor" are NaN, and no comparison with NaN holds. *)
Theorem inherited_bundle_is_not_ranked :
  valid_snapshot example_inherited
  ∧ ∃ x y : string * Stats.t,
      (Comparison codeCompare ∅ example_inherited).1 = [x; y]
      ∧ ¬ ranked codeCompare x y
      ∧ ¬ (num_gt (absParsed x) (absParsed y) = true
           ∨ (strict_eq (absParsed x) (absParsed y) = true
              ∧ num_ge (absGzip x) (absGzip y) = true)
           ∨ (strict_eq (absParsed x) (absParsed y) = true
              ∧ strict_eq (absGzip x) (absGzip y) = true
              ∧ (codeCompare x.1 y.1 <= 0)%Z)).
Proof.
  split.
  - apply map_Forall_insert_2; [by split|].
    apply map_Forall_singleton. by split.
  - eexists _, _. split; [vm_compute; reflexivity|].
    split; vm_compute; intros [H|[[H _]|[H _]]]; discriminate.
Qed.

(** What C1 states, where it holds: for two snapshots of finite sizes in
    which no lookup finds an inherited property, the entries [main] or
    [pages] of their diff, a consistent [localeCompare] and any two rows
    [x], [y] at positions [i < j], either
    |x.parsed.absoluteDiff| > |y.parsed.absoluteDiff|, or these are equal
    and |x.gzip.absoluteDiff| > |y.gzip.absoluteDiff|, or both are equal and
    the label of [x] compares at most equal to the label of [y]; in
    particular the disjunction of the specification holds, whose second
    case reads [>=]. *)
Lemma rows_are_ranked (localeCompare : string → string → Z)
    (getBundleLabel : string → string) (base target : SizeSnapshot)
    (entries : list (string * Size.t)) (i j : nat) (x y : string * Stats.t) :
  consistent localeCompare →
  valid_snapshot base → valid_snapshot target →
  plainly_named base target →
  entries ∈ [Flat.main (Flat.diff base target);
             Paged.main (Paged.diff base target);
             Paged.pages (Paged.diff base target)] →
  (i < j)%nat →
  rows localeCompare getBundleLabel entries !! i = Some x →
  rows localeCompare getBundleLabel entries !! j = Some y →
  ranked localeCompare x y
  ∧ (num_gt (absParsed x) (absParsed y) = true
     ∨ (strict_eq (absParsed x) (absParsed y) = true
        ∧ num_ge (absGzip x) (absGzip y) = true)
     ∨ (strict_eq (absParsed x) (absParsed y) = true
        ∧ strict_eq (absGzip x) (absGzip y) = true
        ∧ (localeCompare x.1 y.1 <= 0)%Z))
  ∧ x.1 = getBundleLabel (Stats.id x.2)
  ∧ y.1 = getBundleLabel (Stats.id y.2).
Proof.
  intros Hlc Hbase Htarget Hplain Hentries Hij Hx Hy.
  assert (∃ keys, entries = map (entry base target) keys
                  ∧ Forall (λ bundle, bundle ∈ dom base ∪ dom target) keys)
    as (keys & -> & Hkeys).
  { rewrite !elem_of_cons, elem_of_nil in Hentries.
    destruct Hentries as [->|[->|[->|[]]]]; eexists.
    - split; [apply Flat_main|]. apply Forall_forall. intros k.
      apply bundleKeys_elem.
    - split; [apply Paged_main|]. apply Forall_forall.
      intros k [_ Hk]%list_elem_of_filter. by apply bundleKeys_elem.
    - split; [apply Paged_pages|]. apply Forall_forall.
      intros k [_ Hk]%list_elem_of_filter. by apply bundleKeys_elem. }
  assert (ranked localeCompare x y) as Hranked.
  { eapply StronglySorted_lookup; [|exact Hij|exact Hx|exact Hy].
    apply rows_sorted; [done|]. by apply entries_finite. }
  split; [done|]. split.
  - destruct Hranked as [H|[[H1 H2]|(H1 & H2 & H3)]]; [by left| |by right; right].
    right; left. split; [done|]. unfold num_ge. by rewrite H2.
  - split; eapply rows_label, list_elem_of_lookup_2; eauto.
Qed.

(** ** The profiler timings *)

Lemma num_le_Fin (a b : Q) : num_le (Fin a) (Fin b) = true ↔ (a <= b)%Q.
Proof.
  unfold num_le. rewrite orb_true_iff, strict_eq_Fin.
  change (num_lt (Fin a) (Fin b)) with (num_gt (Fin b) (Fin a)).
  rewrite num_gt_Fin. split; [intros [H|H]; lra|].
  intros H. destruct (Qlt_le_dec a b); [by left|right; lra].
Qed.

(** On numbers other than NaN the comparator [(a, b) => a - b] leaves [x] in
    front of [y] exactly when [x <= y]. *)
Lemma timings_precedes (x y : number) :
  x ≠ NaN → y ≠ NaN →
  precedes (λ a b, num_sub a b) x y ↔ num_le x y = true.
Proof.
  unfold precedes, SortCompare.
  destruct x as [|s|a], y as [|t|b]; try done; intros _ _.
  - by destruct s, t.
  - by destruct s.
  - by destruct t.
  - change (num_sub (Fin a) (Fin b)) with (Fin (Qred (a - b))).
    unfold num_of_Z. rewrite num_le_Fin, num_gt_Fin_false, Qred_correct.
    change (inject_Z 0) with 0%Q. split; intros; lra.
Qed.

Lemma num_le_total (x y : number) :
  x ≠ NaN → y ≠ NaN → num_le x y ≠ true → num_le y x = true.
Proof.
  destruct x as [|s|a], y as [|t|b]; try done; intros _ _.
  - by destruct s, t.
  - by destruct s.
  - by destruct t.
  - rewrite !num_le_Fin. intros. lra.
Qed.

Lemma num_le_trans (x y z : number) :
  x ≠ NaN → y ≠ NaN → z ≠ NaN →
  num_le x y = true → num_le y z = true → num_le x z = true.
Proof.
  destruct x as [|s|a], y as [|t|b], z as [|u|c]; try done; intros _ _ _.
  all: try (repeat match goal with s : bool |- _ => destruct s end; done).
  rewrite !num_le_Fin. intros. lra.
Qed.

Lemma sorted_timings_perm (timings : list number) :
  Profiler.sorted_timings timings ≡ₚ timings.
Proof. apply Array_sort_perm. Qed.

Lemma sorted_timings_sorted (timings : list number) :
  Forall (λ t, t ≠ NaN) timings →
  StronglySorted (λ a b, num_le a b = true) (Profiler.sorted_timings timings).
Proof.
  apply (Array_sort_by (λ a b, num_sub a b) (λ t, t ≠ NaN)).
  - apply timings_precedes.
  - apply num_le_total.
  - apply num_le_trans.
Qed.

(** [n >> 1] halves a length below 2^31. *)
Lemma sar_half (n : nat) :
  (Z.of_nat n < 2 ^ 31)%Z → sar (Z.of_nat n) 1 = Z.of_nat (n / 2).
Proof.
  intros Hn. unfold sar, ToInt32.
  rewrite Z.mod_small by lia.
  destruct (Z.ltb_spec (Z.of_nat n) (2 ^ 31)); [|lia].
  rewrite Z.shiftr_div_pow2 by lia. by rewrite Nat2Z.inj_div.
Qed.

Lemma squash_lookup (renders : list Profiler.render)
    (run : list Profiler.ProfilerReport) (i : nat) :
  Profiler.squash renders run !! i
  = match renders !! i, run !! i with
    | Some r, Some x => Some (Profiler.push_report r x)
    | Some r, None => Some r
    | None, Some x => Some (Profiler.first_report x)
    | None, None => None
    end.
Proof.
  revert run i. induction renders as [|r renders IH]; intros run i.
  - simpl. rewrite list_lookup_fmap. by destruct (run !! i).
  - destruct run as [|x run].
    + simpl. by destruct ((r :: renders) !! i).
    + destruct i as [|i]; simpl; [done|]. apply IH.
Qed.

Lemma column_snoc (i : nat) (rs : list (list Profiler.ProfilerReport))
    (run : list Profiler.ProfilerReport) :
  column i (rs ++ [run])
  = column i rs ++ match run !! i with Some x => [x] | None => [] end.
Proof. unfold column. rewrite omap_app. simpl. by destruct (run !! i). Qed.

Lemma runs_snoc (testId browser : string) (seen : list Profiler.TestProfile)
    (p : Profiler.TestProfile) :
  runs testId browser (seen ++ [p])
  = runs testId browser seen
    ++ match run_of testId browser p with Some run => [run] | None => [] end.
Proof. unfold runs. rewrite omap_app. simpl. by destruct (run_of _ _ p). Qed.

Lemma render_of_snoc (reports : list Profiler.ProfilerReport)
    (r : Profiler.render) (x : Profiler.ProfilerReport) :
  render_of reports = Some r →
  render_of (reports ++ [x]) = Some (Profiler.push_report r x).
Proof.
  destruct reports as [|first reports]; [done|]. intros [= <-].
  cbn. unfold Profiler.push_report. cbn. by rewrite !fmap_app.
Qed.

Lemma render_of_None (reports : list Profiler.ProfilerReport) :
  render_of reports = None ↔ reports = [].
Proof. by destruct reports. Qed.

Lemma render_of_Some (reports : list Profiler.ProfilerReport)
    (r : Profiler.render) :
  render_of reports = Some r →
  reports ≠ []
  ∧ Profiler.r_actualDuration r = Profiler.actualDuration <$> reports
  ∧ Profiler.r_baseDuration r = Profiler.baseDuration <$> reports.
Proof. destruct reports as [|first reports]; [done|]. by intros [= <-]. Qed.

(** A profile without reports of the test adds no run. *)
Lemma runs_skip (testId browser : string) (seen : list Profiler.TestProfile)
    (p : Profiler.TestProfile) :
  match Profiler.profile p !! testId with
  | Some (_ :: _) => Profiler.browserName p ≠ browser
  | _ => True
  end →
  runs testId browser (seen ++ [p]) = runs testId browser seen.
Proof.
  intros Hp. rewrite runs_snoc. unfold run_of.
  destruct (decide (Profiler.browserName p = browser)) as [Heq|Hne];
    [|by rewrite app_nil_r].
  destruct (Profiler.profile p !! testId) as [[|x run]|];
    by rewrite ?app_nil_r.
Qed.

(** One round of the outer loop, when it completes, keeps the renders up to
    date. *)
Lemma squashed_renders_step (testId : string)
    (acc acc' : gmap string (list Profiler.render))
    (seen : list Profiler.TestProfile) (p : Profiler.TestProfile) :
  squashed_renders testId acc seen →
  Profiler.step testId acc p = Profiler.Aggregated acc' →
  squashed_renders testId acc' (seen ++ [p]).
Proof.
  intros Hacc Hstep browser. specialize (Hacc browser).
  unfold Profiler.step in Hstep.
  pose proof (Get_spec (Profiler.profile p) testId) as Ht.
  destruct (Get (Profiler.profile p) testId) as [[|x run]|length| |].
  - injection Hstep as <-. rewrite runs_skip; [done|by rewrite Ht].
  - pose proof (Get_spec acc (Profiler.browserName p)) as Hb.
    destruct (Get acc (Profiler.browserName p)) as [renders|length| |];
      [| |done|]; injection Hstep as <-.
    + destruct (decide (Profiler.browserName p = browser)) as [<-|Hne].
      * rewrite lookup_insert_eq. rewrite Hb in Hacc.
        destruct Hacc as (Hplain & Hruns & Hacc).
        rewrite runs_snoc. unfold run_of. rewrite decide_True, Ht by done.
        split; [done|]. split; [by intros [? _]%app_eq_nil|].
        intros i. specialize (Hacc i). rewrite squash_lookup, column_snoc.
        destruct (renders !! i) as [r|] eqn:Hr,
                 ((x :: run) !! i) as [y|] eqn:Hy.
        -- symmetry. by apply render_of_snoc.
        -- by rewrite app_nil_r.
        -- symmetry in Hacc. apply render_of_None in Hacc. by rewrite Hacc.
        -- by rewrite app_nil_r.
      * rewrite lookup_insert_ne by done.
        rewrite runs_skip; [done|by rewrite Ht].
    + destruct Hb as [Hnone Hkey].
      destruct (decide (Profiler.browserName p = browser)) as [<-|Hne].
      * rewrite Hnone. congruence.
      * rewrite runs_skip; [done|by rewrite Ht].
    + destruct Hb as [Hnone Hkey].
      destruct (decide (Profiler.browserName p = browser)) as [<-|Hne].
      * rewrite lookup_insert_eq. rewrite Hnone in Hacc.
        rewrite runs_snoc. unfold run_of. rewrite decide_True, Ht by done.
        rewrite (Hacc Hkey). split; [done|]. split; [done|]. intros i.
        change (Profiler.first_report x :: map Profiler.first_report run)
          with (Profiler.first_report <$> x :: run).
        rewrite list_lookup_fmap. unfold column. cbn [omap list_omap app].
        by destruct ((x :: run) !! i).
      * rewrite lookup_insert_ne by done.
        rewrite runs_skip; [done|by rewrite Ht].
  - destruct Ht as [Ht _]. destruct (0 <? length)%Z; [done|].
    injection Hstep as <-. rewrite runs_skip; [done|by rewrite Ht].
  - destruct Ht as [Ht _]. injection Hstep as <-.
    rewrite runs_skip; [done|by rewrite Ht].
  - destruct Ht as [Ht _]. injection Hstep as <-.
    rewrite runs_skip; [done|by rewrite Ht].
Qed.

Lemma aggregate_renders (testId : string)
    (testProfiles : list Profiler.TestProfile)
    (acc t : gmap string (list Profiler.render))
    (seen : list Profiler.TestProfile) :
  squashed_renders testId acc seen →
  Profiler.aggregate testId testProfiles acc = Profiler.Aggregated t →
  squashed_renders testId t (seen ++ testProfiles).
Proof.
  revert acc seen. induction testProfiles as [|p ps IH]; intros acc seen Hacc.
  - intros [= <-]. by rewrite app_nil_r.
  - cbn [Profiler.aggregate].
    destruct (Profiler.step testId acc p) as [acc'| |] eqn:Hstep; [|done..].
    rewrite (cons_middle p seen ps), (assoc_L (++)). apply IH.
    by apply (squashed_renders_step testId acc).
Qed.

(** The aggregation, when it completes, squashes the runs of a browser into
    the renders of their columns. *)
Lemma profilesByBrowserName_renders (testId : string)
    (testProfiles : list Profiler.TestProfile)
    (t : gmap string (list Profiler.render)) :
  Profiler.profilesByBrowserName testId testProfiles = Profiler.Aggregated t →
  squashed_renders testId t testProfiles.
Proof.
  apply (aggregate_renders testId testProfiles ∅ t []).
  intros browser. by rewrite lookup_empty.
Qed.

(** The aggregation completes when no lookup finds an inherited function
    in a profile and no browser is named "__proto__". *)
Lemma aggregate_total (testId : string)
    (testProfiles : list Profiler.TestProfile)
    (acc : gmap string (list Profiler.render)) :
  inherited testId = false →
  Forall (λ p, Profiler.browserName p ≠ "__proto__") testProfiles →
  ∃ t, Profiler.aggregate testId testProfiles acc = Profiler.Aggregated t.
Proof.
  intros Hplain Hbrowsers. revert acc.
  induction Hbrowsers as [|p ps Hp _ IH]; intros acc; [by eexists|].
  cbn [Profiler.aggregate]. unfold Profiler.step.
  pose proof (Get_spec (Profiler.profile p) testId) as Ht.
  destruct (Get (Profiler.profile p) testId) as [[|x run]|length| |];
    [apply IH| |destruct Ht; congruence..|apply IH].
  destruct (Get acc (Profiler.browserName p)) as [renders|length| |] eqn:Hb;
    [apply IH..| |apply IH].
  by apply Get_Prototype in Hb.
Qed.

(** The element in the middle of the sorted timings. *)
Lemma upper_median (format : number → string) (timings : list number) :
  timings ≠ [] →
  (Z.of_nat (length timings) < 2 ^ 31)%Z →
  ∃ m,
    Profiler.sorted_timings timings !! (length timings / 2)%nat = Some m
    ∧ Profiler.mean timings = Some m
    ∧ m ∈ timings
    ∧ Profiler.TimingAnalysisMean format timings = Some (format m).
Proof.
  intros Hne Hlen.
  assert (length timings / 2 < length (Profiler.sorted_timings timings))%nat
    as Hlt.
  { rewrite (Permutation_length (sorted_timings_perm timings)).
    destruct timings; [done|]. apply Nat.div_lt; simpl; lia. }
  apply lookup_lt_is_Some in Hlt as [m Hm]. exists m.
  assert (Profiler.mean timings = Some m) as Hmean.
  { unfold Profiler.mean, array_get. rewrite sar_half by done.
    destruct (Z.ltb_spec (Z.of_nat (length timings / 2)) 0); [lia|].
    by rewrite Nat2Z.id. }
  split; [done|]. split; [done|]. split.
  - rewrite <- (sorted_timings_perm timings).
    eapply list_elem_of_lookup_2; eauto.
  - unfold Profiler.TimingAnalysisMean. by rewrite Hmean.
Qed.

(** C8. The aggregation collects, for a test id and a browser, the repeated
    measurements of each render: the object at index [i] holds the actual and
    the base durations of the reports at index [i] of the runs of that
    browser, at least one.  The "mean" cell shows their median: for every
    non-empty list of timings (fewer than 2^31, none of them NaN) the sorted
    list is the list in ascending numeric order, and the value handed to
    [format] is its element at index floor(n / 2), one of the timings. *)
Theorem mean_is_the_median (format : number → string) (testId : string)
    (testProfiles : list Profiler.TestProfile)
    (profilesByBrowserName : gmap string (list Profiler.render))
    (browser : string) (renders : list Profiler.render) (i : nat)
    (r : Profiler.render) :
  Profiler.profilesByBrowserName testId testProfiles
  = Profiler.Aggregated profilesByBrowserName →
  profilesByBrowserName !! browser = Some renders →
  renders !! i = Some r →
  column i (runs testId browser testProfiles) ≠ []
  ∧ Profiler.r_actualDuration r
    = Profiler.actualDuration <$> column i (runs testId browser testProfiles)
  ∧ Profiler.r_baseDuration r
    = Profiler.baseDuration <$> column i (runs testId browser testProfiles)
  ∧ ∀ timings : list number,
      timings ≠ [] →
      (Z.of_nat (length timings) < 2 ^ 31)%Z →
      Forall (λ t, t ≠ NaN) timings →
      Profiler.sorted_timings timings ≡ₚ timings
      ∧ StronglySorted (λ a b, num_le a b = true)
          (Profiler.sorted_timings timings)
      ∧ ∃ m,
          Profiler.sorted_timings timings !! (length timings / 2)%nat = Some m
          ∧ Profiler.mean timings = Some m
          ∧ m ∈ timings
          ∧ Profiler.TimingAnalysisMean format timings = Some (format m).
Proof.
  intros Haggregated Hrenders Hr.
  pose proof (profilesByBrowserName_renders testId testProfiles _ Haggregated
                browser) as Hsq.
  rewrite Hrenders in Hsq. destruct Hsq as (_ & _ & Hsq).
  specialize (Hsq i). rewrite Hr in Hsq. symmetry in Hsq.
  apply render_of_Some in Hsq as (Hne & Ha & Hb).
  split; [done|]. split; [done|]. split; [done|].
  intros timings Hnonempty Hlen Hnan.
  split; [apply sorted_timings_perm|].
  split; [by apply sorted_timings_sorted|].
  by apply upper_median.
Qed.

(** * Examples *)

Lemma codeCompare_consistent : consistent codeCompare.
Proof.
  unfold codeCompare. split.
  - intros a b. rewrite (String.compare_antisym b a).
    destruct (String.compare a b); simpl; lia.
  - intros a b c Hab Hbc.
    destruct (String.compare a b) eqn:Eab; [| |lia].
    { apply String.compare_eq_iff in Eab as ->. done. }
    destruct (String.compare b c) eqn:Ebc; [| |lia].
    { apply String.compare_eq_iff in Ebc as ->. by rewrite Eab. }
    apply OrderedTypeEx.String_as_OT.cmp_lt in Eab, Ebc.
    pose proof (OrderedTypeEx.String_as_OT.lt_trans _ _ _ Eab Ebc) as Hac.
    apply OrderedTypeEx.String_as_OT.cmp_lt in Hac.
    unfold OrderedTypeEx.String_as_OT.cmp in Hac. rewrite Hac. lia.
Qed.

Lemma valid_single (bundle : string) (parsed gzip : Z) :
  valid_snapshot (single bundle parsed gzip).
Proof. apply map_Forall_singleton. by split. Qed.

Lemma valid_insert (bundle : string) (parsed gzip : Z) (snapshot : SizeSnapshot) :
  valid_snapshot snapshot →
  valid_snapshot
    (<[bundle := {| Snapshot.parsed := parsed; Snapshot.gzip := gzip |}]>
       snapshot).
Proof. intros H. apply map_Forall_insert_2; [by split | done]. Qed.

(** Bundle "a" changes by 100 bytes and "b" by 50: "a" ranks first. *)
Example mixed_scenario :
  Comparison codeCompare example_base example_target
  = ([row "a" "a" example_a; row "b" "b" example_b], []).
Proof. vm_compute. reflexivity. Qed.

(** An unchanged bundle ranks behind a changed one, whatever its label. *)
Example unchanged_bundle_last :
  map fst
    (SizeComparison codeCompare
       (<["a" := {| Snapshot.parsed := 10%Z; Snapshot.gzip := 5%Z |}]>
          (single "z" 7 3))
       (<["a" := {| Snapshot.parsed := 10%Z; Snapshot.gzip := 5%Z |}]>
          (single "z" 8 3)))
  = ["z"; "a"].
Proof. vm_compute. reflexivity. Qed.

Example added_bundle :
  Flat.main (Flat.diff ∅ (single "b" 100 50))
  = [("b",
      {| Size.parsed :=
           {| Size.previous := Some (num_of_Z 0);
              Size.current := Some (num_of_Z 100);
              Size.absoluteDiff := 100%Z;
              Size.relativeDiff := Infinity false |};
         Size.gzip :=
           {| Size.previous := Some (num_of_Z 0);
              Size.current := Some (num_of_Z 50);
              Size.absoluteDiff := 50%Z;
              Size.relativeDiff := Infinity false |} |})].
Proof. vm_compute. reflexivity. Qed.

Example labels :
  map getMainBundleLabel
    ["@material-ui/core"; "@material-ui/core.legacy"; "@material-ui/icons";
     "@material-ui/lab"; "@material-ui/core/Button.esm"; "docs.main"]
  = ["@mui/material"; "@mui/material.legacy"; "@mui/material-icons";
     "@mui/lab"; "Button"; "docs:/_app"].
Proof. reflexivity. Qed.

Example median_of_four :
  Profiler.mean [Fin 3; Fin 1; Fin 2; Fin (5 # 2)] = Some (Fin (5 # 2)).
Proof. reflexivity. Qed.

Example mean_of_nothing : Profiler.mean [] = None.
Proof. reflexivity. Qed.

Lemma example_b_emitted : emitted example_base example_target ("b", example_b).
Proof.
  apply emitted_entry. split; [|vm_compute; reflexivity].
  apply elem_of_union_r, elem_of_dom. eexists. vm_compute. reflexivity.
Qed.

Lemma example_plainly_named : plainly_named example_base example_target.
Proof. apply plainly_named_check. vm_compute. reflexivity. Qed.

(** The rows of the mixed scenario are ranked: "a" before "b". *)
Example ranked_mixed_scenario :
  ranked codeCompare (row "a" "a" example_a) (row "b" "b" example_b).
Proof.
  refine (proj1 (rows_are_ranked codeCompare getMainBundleLabel
                   example_base example_target
                   (Flat.main (Flat.diff example_base example_target))
                   0 1 _ _ codeCompare_consistent
                   (valid_single _ _ _)
                   (valid_insert _ _ _ _ (valid_single _ _ _))
                   example_plainly_named _ _ _ _)).
  - apply list_elem_of_here.
  - lia.
  - vm_compute. reflexivity.
  - vm_compute. reflexivity.
Qed.

(** Bundle "b" of the mixed scenario: nothing before, 50 bytes now. *)
Example added_in_the_mixed_scenario :
  ∃ size : Size.t,
    ("b", size) ∈ Flat.main (Flat.diff example_base example_target)
    ∧ Size.previous (Size.parsed size) = Some (num_of_Z 0)
    ∧ Size.current (Size.parsed size) = Some (num_of_Z 50).
Proof.
  destruct (entry_previous_current example_base example_target "b"
              example_plainly_named)
    as (size & Hflat & _ & Hprev & _ & Hcur & _).
  { apply elem_of_union_r, elem_of_dom. eexists. vm_compute. reflexivity. }
  exists size. split; [by apply Hflat|].
  split; [exact Hprev | exact Hcur].
Qed.

(** Bundle "b" of the mixed scenario is new: its change is [+Infinity]. *)
Example infinite_in_the_mixed_scenario :
  Size.relativeDiff (Size.parsed example_b) = Infinity false
  ∧ Size.relativeDiff (Size.gzip example_b) = Infinity false.
Proof.
  destruct (relativeDiff_of_entry example_base example_target "b" example_b
              example_b_emitted) as (_ & _ & Hadded).
  destruct Hadded as (_ & _ & Hp & Hg).
  { apply not_elem_of_dom. vm_compute. reflexivity. }
  { reflexivity. }
  split; [apply Hp | apply Hg]; vm_compute; reflexivity.
Qed.

(** The removed bundle of 100 and 50 bytes: [-1] for both metrics. *)
Example removed_bundle_of_100_bytes :
  Size.relativeDiff (Size.parsed (entry (single "b" 100 50) ∅ "b").2) = (-1)%Z
  ∧ Size.relativeDiff (Size.gzip (entry (single "b" 100 50) ∅ "b").2) = (-1)%Z.
Proof.
  destruct (proj1 removed_bundle_relativeDiff (single "b" 100 50) ∅ "b"
              {| Snapshot.parsed := 100%Z; Snapshot.gzip := 50%Z |}
              (entry (single "b" 100 50) ∅ "b").2)
    as (_ & _ & Hp & Hg).
  - vm_compute. reflexivity.
  - vm_compute. reflexivity.
  - reflexivity.
  - apply emitted_entry. split; [|reflexivity].
    apply elem_of_union_l, elem_of_dom. eexists. vm_compute. reflexivity.
  - split; [apply Hp | apply Hg]; (discriminate || reflexivity).
Qed.

(** The target of the mixed scenario against itself: nothing changes. *)
Lemma same_snapshot_no_change_witness :
  Size.absoluteDiff (Size.parsed (entry example_target example_target "a").2)
  = 0%Z
  ∧ Size.relativeDiff (Size.parsed (entry example_target example_target "a").2)
    = 0%Z.
Proof.
  destruct (same_snapshot_no_change example_target "a"
              (entry example_target example_target "a").2)
    as (Hp & _ & Hr & _).
  - exact (valid_insert _ _ _ _ (valid_single _ _ _)).
  - apply emitted_entry. split; [|reflexivity].
    apply elem_of_union_l, elem_of_dom. eexists. vm_compute. reflexivity.
  - split; [exact Hp | apply Hr; vm_compute; reflexivity].
Defined.

(** Disjoint snapshots: "a" is fully removed, "b" fully added. *)
Example disjoint_snapshots :
  (∃ size, ("a", size) ∈ Flat.main (Flat.diff (single "a" 1000 400)
                                               (single "b" 50 20))
           ∧ fully_removed (single "a" 1000 400) "a" size)
  ∧ (∃ size, ("b", size) ∈ Flat.main (Flat.diff (single "a" 1000 400)
                                                 (single "b" 50 20))
             ∧ fully_added (single "b" 50 20) "b" size).
Proof.
  destruct (diff_is_total (λ s, s) codeCompare example_request true
              (single "a" 1000 400) (single "b" 50 20))
    as (_ & _ & _ & _ & _ & H).
  assert (dom (single "a" 1000 400) ## dom (single "b" 50 20)) as Hdisj.
  { unfold single. rewrite !dom_singleton_L.
    apply disjoint_singleton_l, not_elem_of_singleton. discriminate. }
  assert (plainly_named (single "a" 1000 400) (single "b" 50 20)) as Hplain.
  { apply plainly_named_check. vm_compute. reflexivity. }
  split.
  - destruct (H Hdisj Hplain "a") as (size & Hin & _ & [Hadd|Hrem]).
    + apply elem_of_union_l, elem_of_dom. eexists. vm_compute. reflexivity.
    + destruct Hadd as (e & He & _). vm_compute in He. discriminate.
    + exists size. by split.
  - destruct (H Hdisj Hplain "b") as (size & Hin & _ & [Hadd|Hrem]).
    + apply elem_of_union_r, elem_of_dom. eexists. vm_compute. reflexivity.
    + exists size. by split.
    + destruct Hrem as (e & He & _). vm_compute in He. discriminate.
Qed.

Example aggregated_profiles :
  Profiler.profilesByBrowserName "renders" example_profiles
  = Profiler.Aggregated example_renders.
Proof. vm_compute. reflexivity. Qed.

(** The details of a test "constructor", which no profile has, do not
    render: the lookup finds the function [Object], of length 1. *)
Example inherited_test_throws :
  Profiler.profilesByBrowserName "constructor" example_profiles
  = Profiler.Throws.
Proof. vm_compute. reflexivity. Qed.

(** The reports of a browser "constructor" get no column. *)
Example inherited_browser_has_no_column :
  Profiler.profilesByBrowserName "renders" example_inherited_profiles
  = Profiler.Aggregated {["firefox" := [collected [5]%Z [5]%Z]]}.
Proof. vm_compute. reflexivity. Qed.

(** The reports of a browser "__proto__" are written to
    [Object.prototype]. *)
Example prototype_browser_pollutes :
  Profiler.profilesByBrowserName "renders" [profile_of "__proto__" [report 3 9]]
  = Profiler.Pollutes.
Proof. vm_compute. reflexivity. Qed.

(** The first render in Chrome took 3, 1 and 2 ms: the cell shows 2. *)
Lemma mean_is_the_median_witness :
  column 0 (runs "renders" "chrome" example_profiles) ≠ []
  ∧ ∃ m, Profiler.mean (map num_of_Z [3; 1; 2]%Z) = Some m
         ∧ m ∈ map num_of_Z [3; 1; 2]%Z.
Proof.
  destruct (mean_is_the_median (λ _, "ms") "renders" example_profiles
              example_renders "chrome"
              [collected [3; 1; 2]%Z [9; 7; 8]%Z; collected [8; 6; 7]%Z [2; 4; 3]%Z;
               collected [2]%Z [2]%Z]
              0 (collected [3; 1; 2]%Z [9; 7; 8]%Z))
    as (Hcolumn & _ & _ & Hmedian).
  - vm_compute. reflexivity.
  - vm_compute. reflexivity.
  - reflexivity.
  - split; [exact Hcolumn|].
    destruct (Hmedian (map num_of_Z [3; 1; 2]%Z)) as (_ & _ & m & _ & Hm & Hin & _).
    + discriminate.
    + reflexivity.
    + repeat constructor; discriminate.
    + exists m. by split.
Defined.

(** The CircleCI fetch fails with "404: Not Found". *)
Lemma failed_fetch_is_a_404_witness :
  Paged_loader (λ s, s) example_request true
    (Fulfilled example_base) (Rejected example_error)
  = Throw (json (Failure 7%Z) 404 "Error: 404: Not Found" [])
  ∧ Azure_loader (λ s, s) (λ _, "n") example_request true
      (Fulfilled example_base) (Rejected example_error)
    = Return (json (Failure 9%Z) 404 "" []).
Proof.
  destruct (failed_fetch_is_a_404 (λ s, s) (λ s, s) (λ _, "n") codeCompare
              example_request true (Fulfilled example_base)
              (Rejected example_error))
    as (error & Herr & Hpaged & _ & Hazure & _).
  - right. reflexivity.
  - destruct Herr as [Herr|Herr]; [discriminate|].
    injection Herr as <-.
    split; [apply Hpaged | apply Hazure]; reflexivity.
Defined.

(** The page bundle goes to [pages], the others to [main]. *)
Lemma pages_are_the_docs_bundles_witness :
  ("docs:/api" ∈ (Paged.pages (Paged.diff example_base example_pages)).*1
   ∧ "docs:/api" ∉ (Paged.main (Paged.diff example_base example_pages)).*1)
  ∧ ("a" ∈ (Paged.main (Paged.diff example_base example_pages)).*1
     ∧ "a" ∉ (Paged.pages (Paged.diff example_base example_pages)).*1).
Proof.
  destruct (pages_are_the_docs_bundles example_base example_pages) as (H & _).
  split.
  - apply (H "docs:/api").
    apply elem_of_union_r, elem_of_dom. eexists. vm_compute. reflexivity.
  - apply (H "a").
    apply elem_of_union_l, elem_of_dom. eexists. vm_compute. reflexivity.
Defined.

(** * Properties of the further code *)

(** ** The digest and the ETag *)

Lemma append_cons (c : Ascii.ascii) (s t : string) :
  (String c s ++ t)%string = String c (s ++ t)%string.
Proof. reflexivity. Qed.

Lemma append_nil_l (s : string) : ("" ++ s)%string = s.
Proof. reflexivity. Qed.

Lemma append_nil_r (s : string) : (s ++ "")%string = s.
Proof. induction s as [|c s IH]; [done|]. by rewrite append_cons, IH. Qed.

Lemma append_assoc (a b c : string) :
  ((a ++ b) ++ c)%string = (a ++ (b ++ c))%string.
Proof. induction a as [|x a IH]; [done|]. by rewrite !append_cons, IH. Qed.

Lemma append_length (a b : string) :
  String.length (a ++ b)%string = (String.length a + String.length b)%nat.
Proof.
  induction a as [|x a IH]; [done|]. rewrite append_cons. cbn. by rewrite IH.
Qed.

Lemma all_chars_append (f : Ascii.ascii → bool) (a b : string) :
  all_chars f (a ++ b)%string = all_chars f a && all_chars f b.
Proof.
  induction a as [|x a IH]; [done|].
  rewrite append_cons. cbn. rewrite IH. by rewrite andb_assoc.
Qed.

(** Every byte is written with two digits. *)
Lemma byte_two_digits (b : Byte.byte) :
  padStart 2 "0" (toString16 b)
  = String (hex_digit (Byte.to_N b / 16))
      (String (hex_digit (Byte.to_N b mod 16)) "").
Proof. by destruct b. Qed.

Lemma byte_digits_hex (b : Byte.byte) :
  is_hex (hex_digit (Byte.to_N b / 16)) = true
  ∧ is_hex (hex_digit (Byte.to_N b mod 16)) = true.
Proof. by destruct b. Qed.

Lemma byte_digits_value (b : Byte.byte) :
  Byte.of_N (16 * hex_value (hex_digit (Byte.to_N b / 16))
             + hex_value (hex_digit (Byte.to_N b mod 16))) = Some b.
Proof. by destruct b. Qed.

Lemma hashHex_cons (b : Byte.byte) (hashArray : list Byte.byte) :
  hashHex (b :: hashArray)
  = String (hex_digit (Byte.to_N b / 16))
      (String (hex_digit (Byte.to_N b mod 16)) (hashHex hashArray)).
Proof.
  unfold hashHex. cbn [map String.concat]. rewrite byte_two_digits.
  destruct hashArray as [|b' l]; [done|]. done.
Qed.

(** The bytes are read back from their digits. *)
Lemma unhex_hashHex (hashArray : list Byte.byte) :
  unhex (hashHex hashArray) = hashArray.
Proof.
  induction hashArray as [|b l IH]; [done|].
  rewrite hashHex_cons. cbn [unhex]. by rewrite byte_digits_value, IH.
Qed.

(** X1: the digest writes every byte of the hash with exactly two
    lower-case hexadecimal digits: the text is twice as long as the hash and
    consists of the characters 0-9 and a-f. *)
Theorem digest_two_digits_per_byte
    (SHA_256 : list Byte.byte → list Byte.byte) (message : string) :
  String.length (digest SHA_256 message)
  = (2 * length (SHA_256 (String.list_byte_of_string message)))%nat
  ∧ all_chars is_hex (digest SHA_256 message) = true.
Proof.
  unfold digest. generalize (SHA_256 (String.list_byte_of_string message)).
  intros hashArray.
  induction hashArray as [|b l [IHlen IHhex]]; [done|].
  rewrite hashHex_cons. split.
  - cbn [String.length length]. rewrite IHlen. lia.
  - cbn [all_chars]. destruct (byte_digits_hex b) as [-> ->]. by rewrite IHhex.
Qed.

(** X2: the digest loses nothing of the hash: two messages have the same
    digest exactly when they have the same hash, so the ETags of two
    requests differ whenever the hashes of their parameters do. *)
Theorem digest_reflects_the_hash
    (SHA_256 : list Byte.byte → list Byte.byte) (message message' : string) :
  digest SHA_256 message = digest SHA_256 message'
  ↔ SHA_256 (String.list_byte_of_string message)
    = SHA_256 (String.list_byte_of_string message').
Proof.
  unfold digest. split; [|by intros ->].
  intros Heq. apply (f_equal unhex) in Heq. by rewrite !unhex_hashHex in Heq.
Qed.

Lemma etag_matches_refl (etag : string) : etag_matches (Some etag) etag = true.
Proof. apply String.eqb_refl. Qed.

(** X3: the routes over CircleCI answer a request that sends back the ETag
    of an earlier response with 304, without a body and with the same two
    headers, whatever has become of the snapshots in the meantime. *)
Theorem revalidation_is_not_modified (sha256 : string → string)
    (request : Request) (etag : string)
    (firstWins firstWins' : bool)
    (s3 ci s3' ci' : settled SizeSnapshot) :
  (Headers_get "ETag"
     (headers (response_of (Paged_loader sha256 request firstWins s3 ci)))
   = Some etag →
   Paged_loader sha256 (revalidate request etag) firstWins' s3' ci'
   = Return {| status := 304; statusText := "";
               headers := [("ETag", etag);
                           ("Cache-Control", "immutable, max-age=86400")];
               body := None |})
  ∧ (Headers_get "ETag"
       (headers (response_of (Flat_loader sha256 request firstWins s3 ci)))
     = Some etag →
     Flat_loader sha256 (revalidate request etag) firstWins' s3' ci'
     = Return {| status := 304; statusText := "";
                 headers := [("ETag", etag);
                             ("Cache-Control", "immutable, max-age=86400")];
                 body := None |}).
Proof.
  split.
  - unfold Paged_loader. cbn [enableCaching andb searchParams revalidate ifNoneMatch].
    intros Hetag.
    assert (etag = sha256 ("v1-" ++ searchParams request)%string) as ->.
    { destruct (etag_matches _ _); [cbn in Hetag; congruence|].
      destruct (Promise_all _ _ _) as [[??]|?]; cbn in Hetag; congruence. }
    by rewrite etag_matches_refl.
  - unfold Flat_loader. cbn [enableCaching andb searchParams revalidate ifNoneMatch].
    intros Hetag.
    assert (etag = sha256 ("v" ++ cacheEpoch ++ "-"
                           ++ ("v1-" ++ searchParams request))%string) as ->.
    { destruct (etag_matches _ _); [cbn in Hetag; congruence|].
      destruct (Promise_all _ _ _) as [[??]|?]; cbn in Hetag; congruence. }
    by rewrite etag_matches_refl.
Qed.

(** X4: the route over Azure also answers the ETag of an earlier response
    with 304, but that response has no header at all: the document gets
    neither an ETag nor a Cache-Control from it. *)
Theorem azure_revalidation_has_no_headers (md5 : string → string)
    (Number_toString : number → string)
    (request : Request) (etag : string)
    (firstWins firstWins' : bool)
    (s3 azure s3' azure' : settled SizeSnapshot) :
  Headers_get "ETag"
    (headers (response_of
       (Azure_loader md5 Number_toString request firstWins s3 azure)))
  = Some etag →
  Azure_loader md5 Number_toString (revalidate request etag)
    firstWins' s3' azure'
  = Return {| status := 304; statusText := ""; headers := []; body := None |}
  ∧ document_headers
      (headers (response_of
         (Azure_loader md5 Number_toString (revalidate request etag)
            firstWins' s3' azure')))
    = [("Cache-Control", None); ("ETag", None)].
Proof.
  intros Hetag.
  assert (Azure_loader md5 Number_toString (revalidate request etag)
            firstWins' s3' azure'
          = Return {| status := 304; statusText := ""; headers := [];
                      body := None |}) as Hloader.
  { revert Hetag. unfold Azure_loader.
    cbn [revalidate ifNoneMatch baseCommit baseRef buildNumber prNumber].
    set (tag := md5 _). intros Hetag.
    assert (etag = tag) as ->.
    { destruct (etag_matches _ _); [cbn in Hetag; congruence|].
      destruct (Promise_all _ _ _) as [[??]|?]; cbn in Hetag; congruence. }
    by rewrite etag_matches_refl. }
  split; [exact Hloader|]. by rewrite Hloader.
Qed.

(** ** The fetch of the CircleCI snapshot *)

Lemma toString_named (name message : string) :
  name ≠ "" → message ≠ "" →
  Error.toString {| Error.name := name; Error.message := message |}
  = (name ++ ": " ++ message)%string.
Proof.
  intros Hname Hmessage. unfold Error.toString. cbn [Error.name Error.message].
  destruct (String.eqb_spec name ""); [done|].
  by destruct (String.eqb_spec message "").
Qed.

Lemma append_not_nil_r (a b : string) : b ≠ "" → (a ++ b)%string ≠ "".
Proof.
  intros Hb Heq. apply (f_equal String.length) in Heq.
  rewrite append_length in Heq. destruct b; [done|]. cbn in Heq. lia.
Qed.

(** X5: when CircleCI answers the list of artifacts with another status
    than 200 while the base snapshot arrives, each of the two routes, on any
    request whose [If-None-Match] is not its ETag, throws a 404 whose status
    text is "Error: <status>: <status text>" of that answer; nothing is
    downloaded. *)
Theorem circleci_status_is_reported (sha256 : string → string)
    (downloadSnapshot : string → settled SizeSnapshot)
    (undefined_url_message : string)
    (request : Request) (firstWins : bool) (baseSnapshot : SizeSnapshot)
    (status : Z) (statusText : string) (artifacts : list Artifact.t) :
  status ≠ 200%Z →
  let fetched :=
    fetchCircleCISizeSnapshot downloadSnapshot undefined_url_message
      (Fulfilled {| http_status := status; http_statusText := statusText;
                    http_json := Fulfilled artifacts |}) in
  let thrown {D : Type} : completion (payload D) :=
    Throw (json (Failure (prNumber request)) 404
             ("Error: " ++ pretty status ++ ": " ++ statusText)%string []) in
  (etag_matches (ifNoneMatch request)
     (sha256 ("v1-" ++ searchParams request)%string) = false →
   Paged_loader sha256 request firstWins (Fulfilled baseSnapshot) fetched
   = thrown)
  ∧ (etag_matches (ifNoneMatch request)
       (sha256 ("v1-v1-" ++ searchParams request)%string) = false →
     Flat_loader sha256 request firstWins (Fulfilled baseSnapshot) fetched
     = thrown).
Proof.
  intros Hstatus fetched thrown.
  assert (fetched
          = Rejected {| Error.name := "Error";
                        Error.message :=
                          (pretty status ++ ": " ++ statusText)%string |})
    as ->.
  { unfold fetched, fetchCircleCISizeSnapshot.
    cbn [http_json http_status http_statusText].
    by destruct (Z.eqb_spec status 200). }
  unfold Paged_loader, Flat_loader, thrown.
  change ("v" ++ cacheEpoch ++ "-" ++ "v1-" ++ searchParams request)%string
    with ("v1-v1-" ++ searchParams request)%string.
  split; intros ->; cbn [andb Promise_all enableCaching];
    (rewrite toString_named; [done|done|]); by apply append_not_nil_r.
Qed.

(** X6: when the list of artifacts arrives with status 200, the snapshot
    is downloaded from the first artifact whose path is exactly
    "size-snapshot.json"; when there is none the fetch fails with a
    TypeError and nothing is downloaded, so each route, on any request
    whose [If-None-Match] is not its ETag, throws its 404. *)
Theorem circleci_snapshot_artifact (sha256 : string → string)
    (downloadSnapshot : string → settled SizeSnapshot)
    (undefined_url_message : string)
    (request : Request) (firstWins : bool) (baseSnapshot : SizeSnapshot)
    (statusText : string) (before after : list Artifact.t) (url : string) :
  Forall (λ artifact, Artifact.path artifact ≠ "size-snapshot.json") before →
  let fetch artifacts :=
    fetchCircleCISizeSnapshot downloadSnapshot undefined_url_message
      (Fulfilled {| http_status := 200; http_statusText := statusText;
                    http_json := Fulfilled artifacts |}) in
  fetch (before
         ++ {| Artifact.path := "size-snapshot.json"; Artifact.url := url |}
            :: after)
  = downloadSnapshot url
  ∧ fetch before
    = Rejected {| Error.name := "TypeError";
                  Error.message := undefined_url_message |}
  ∧ (undefined_url_message ≠ "" →
     (etag_matches (ifNoneMatch request)
        (sha256 ("v1-" ++ searchParams request)%string) = false →
      Paged_loader sha256 request firstWins (Fulfilled baseSnapshot)
        (fetch before)
      = Throw (json (Failure (prNumber request)) 404
                 ("TypeError: " ++ undefined_url_message)%string []))
     ∧ (etag_matches (ifNoneMatch request)
          (sha256 ("v1-v1-" ++ searchParams request)%string) = false →
        Flat_loader sha256 request firstWins (Fulfilled baseSnapshot)
          (fetch before)
        = Throw (json (Failure (prNumber request)) 404
                   ("TypeError: " ++ undefined_url_message)%string []))).
Proof.
  intros Hbefore fetch.
  assert (Hfind : ∀ rest,
    List.find (λ artifact,
                 String.eqb (Artifact.path artifact) "size-snapshot.json")
      (before ++ rest)
    = List.find (λ artifact,
                   String.eqb (Artifact.path artifact) "size-snapshot.json")
        rest).
  { intros rest. induction Hbefore as [|a before Ha _ IH]; [done|].
    cbn [app List.find]. by destruct (String.eqb_spec (Artifact.path a)
                                        "size-snapshot.json"). }
  assert (Hnone : fetch before
                  = Rejected {| Error.name := "TypeError";
                                Error.message := undefined_url_message |}).
  { unfold fetch, fetchCircleCISizeSnapshot.
    cbn [http_json http_status Z.eqb Pos.eqb].
    specialize (Hfind []). rewrite app_nil_r in Hfind. by rewrite Hfind. }
  split; [|split; [exact Hnone|]].
  - unfold fetch, fetchCircleCISizeSnapshot.
    cbn [http_json http_status Z.eqb Pos.eqb]. by rewrite Hfind.
  - intros Hmessage. rewrite Hnone. unfold Paged_loader, Flat_loader.
    change ("v" ++ cacheEpoch ++ "-" ++ "v1-" ++ searchParams request)%string
      with ("v1-v1-" ++ searchParams request)%string.
    split; intros ->; cbn [andb Promise_all enableCaching];
      by rewrite toString_named.
Qed.

(** ** Prefixes *)

Lemma strip_prefix_spec (p s r : string) :
  strip_prefix p s = Some r ↔ s = (p ++ r)%string.
Proof.
  revert s. induction p as [|a p IH]; intros s.
  - cbn. rewrite append_nil_l. split; congruence.
  - rewrite append_cons. destruct s as [|b s]; cbn; [split; congruence|].
    destruct (Ascii.eqb_spec a b) as [->|Hab].
    + rewrite IH. split; congruence.
    + split; congruence.
Qed.

Lemma strip_prefix_append (p r : string) : strip_prefix p (p ++ r) = Some r.
Proof. by apply strip_prefix_spec. Qed.

Lemma startsWith_spec (s p : string) :
  startsWith s p = true ↔ ∃ r, s = (p ++ r)%string.
Proof.
  unfold startsWith. revert s. induction p as [|a p IH]; intros s.
  - destruct s; cbn; split; eauto.
  - destruct s as [|b s]; cbn.
    + split; [done|]. intros [r Hr]. by rewrite append_cons in Hr.
    + destruct (Ascii.ascii_dec a b) as [->|Hab].
      * rewrite IH. split; intros [r Hr]; exists r.
        -- by rewrite append_cons, Hr.
        -- rewrite append_cons in Hr. congruence.
      * split; [done|]. intros [r Hr]. rewrite append_cons in Hr. congruence.
Qed.

Lemma startsWith_strip (s p : string) :
  startsWith s p = true ↔ ∃ r, strip_prefix p s = Some r.
Proof.
  rewrite startsWith_spec. by setoid_rewrite strip_prefix_spec.
Qed.

(** ** The cells of the tables *)

Lemma num_lt_Fin (a b : Q) : num_lt (Fin a) (Fin b) = true ↔ (a < b)%Q.
Proof. exact (num_gt_Fin b a). Qed.

Lemma sub_is_negative (a b : Q) :
  num_lt (num_sub (Fin b) (Fin a)) 0%Z = true ↔ (b < a)%Q.
Proof.
  unfold num_sub, num_of_Z. rewrite num_lt_Fin, Qred_correct.
  change (inject_Z 0) with 0%Q. split; intros H; lra.
Qed.

Section cells_facts.
Variable toFixed2 : number → string.
Variable prettyBytes_signed : number → string.
Variable prettyBytes : option number → string.
Variable localeCompare : string → string → Z.
Variable Number_toString : number → string.

(** The cell of a change between two finite sizes. *)
Lemma formatDiff_change_shown (previous current relativeChange : number) :
  is_finite previous = true → is_finite current = true →
  change_shown
    (formatDiff toFixed2 prettyBytes_signed (num_sub current previous)
       relativeChange)
    previous current.
Proof.
  destruct previous as [| |p]; [done..|].
  destruct current as [| |c]; [done..|]. intros _ _.
  unfold change_shown, formatDiff.
  pose proof (sub_is_zero p c) as Hzero.
  pose proof (sub_is_negative p c) as Hneg.
  rewrite strict_eq_Fin, num_lt_Fin, num_gt_Fin.
  destruct (strict_eq (num_sub (Fin c) (Fin p)) 0%Z) eqn:Hz.
  - assert (p == c)%Q as Heq by by apply Hzero.
    repeat split; try done; intros; lra.
  - assert (¬ (p == c)%Q) as Hne.
    { intros Heq. apply Hzero in Heq. congruence. }
    destruct (num_lt (num_sub (Fin c) (Fin p)) 0%Z) eqn:Hlt.
    + assert (c < p)%Q as Hcp by by apply Hneg.
      rewrite !append_cons. repeat split; try done; intros; lra.
    + assert (¬ (c < p)%Q) as Hcp.
      { intros Hcp. apply Hneg in Hcp. congruence. }
      rewrite !append_cons. repeat split; try done; intros; lra.
Qed.

(** A row of a table is the row of an entry. *)
Lemma CompareTable_elem (getBundleLabel : string → string)
    (renderBundleLabel : string → node) (entries : list (string * Size.t))
    (tr : Tr.t) :
  tr ∈ CompareTable toFixed2 prettyBytes_signed prettyBytes localeCompare
         getBundleLabel renderBundleLabel entries
  ↔ ∃ bundle size, (bundle, size) ∈ entries
      ∧ tr = {| Tr.key := getBundleLabel bundle;
                Tr.bundle := renderBundleLabel bundle;
                Tr.sizeChange :=
                  formatDiff toFixed2 prettyBytes_signed
                    (Size.absoluteDiff (Size.parsed size))
                    (Size.relativeDiff (Size.parsed size));
                Tr.size := prettyBytes (Size.current (Size.parsed size));
                Tr.gzipChange :=
                  formatDiff toFixed2 prettyBytes_signed
                    (Size.absoluteDiff (Size.gzip size))
                    (Size.relativeDiff (Size.gzip size));
                Tr.gzip := prettyBytes (Size.current (Size.gzip size)) |}.
Proof.
  unfold CompareTable. rewrite list_elem_of_fmap. split.
  - intros ([label stats] & -> & Hrow). rewrite rows_perm in Hrow.
    apply list_elem_of_fmap in Hrow as ([bundle size] & Hrow & He).
    exists bundle, size. split; [done|]. cbn in Hrow. by simplify_eq.
  - intros (bundle & size & He & ->).
    exists (toRow getBundleLabel (bundle, size)). split; [done|].
    rewrite rows_perm. apply list_elem_of_fmap. by exists (bundle, size).
Qed.

(** The row of an entry that read no inherited property. *)
Lemma row_of_entry (getBundleLabel : string → string)
    (renderBundleLabel : string → node) (base target : SizeSnapshot)
    (bundle : string) :
  valid_snapshot base → valid_snapshot target → plainly_named base target →
  bundle ∈ dom base ∪ dom target →
  let size := (entry base target bundle).2 in
  row_of_bundle prettyBytes (getBundleLabel bundle) (renderBundleLabel bundle)
    base target bundle
    {| Tr.key := getBundleLabel bundle;
       Tr.bundle := renderBundleLabel bundle;
       Tr.sizeChange :=
         formatDiff toFixed2 prettyBytes_signed
           (Size.absoluteDiff (Size.parsed size))
           (Size.relativeDiff (Size.parsed size));
       Tr.size := prettyBytes (Size.current (Size.parsed size));
       Tr.gzipChange :=
         formatDiff toFixed2 prettyBytes_signed
           (Size.absoluteDiff (Size.gzip size))
           (Size.relativeDiff (Size.gzip size));
       Tr.gzip := prettyBytes (Size.current (Size.gzip size)) |}.
Proof.
  intros Hbase Htarget Hplain Hin size. unfold size.
  rewrite (entry_plain _ _ _ Hplain Hin).
  destruct (default_finite base bundle Hbase),
           (default_finite target bundle Htarget).
  unfold row_of_bundle, metric. simpl.
  repeat split; try reflexivity; by apply formatDiff_change_shown.
Qed.

(** X7: in the two tables of the Azure route, over snapshots of finite
    sizes in which no lookup finds an inherited property, every row of the
    table "Modules" is the row of a bundle without the prefix "docs:" and
    every row of "Pages" the row of a bundle with it, and every bundle of a
    snapshot has its row: the key and the first cell are the label of that
    bundle, the cells of size show its sizes in [target], and its two cells
    of change read "--" exactly when its size is the same in both
    snapshots, start with the falling triangle exactly when it has shrunk
    and with the rising one exactly when it has grown; a bundle that a
    snapshot lacks counts with the size 0. *)
Theorem change_cells_show_the_trend (base target : SizeSnapshot)
    (prNumber : number) :
  valid_snapshot base → valid_snapshot target → plainly_named base target →
  let tables :=
    ComparisonTables toFixed2 prettyBytes_signed prettyBytes localeCompare
      Number_toString base target prNumber in
  let modules_row bundle :=
    row_of_bundle prettyBytes (getMainBundleLabel_core bundle)
      (Text (getMainBundleLabel_core bundle)) base target bundle in
  let pages_row bundle :=
    row_of_bundle prettyBytes (getPageBundleLabel bundle)
      (renderPageBundleLabel Number_toString prNumber bundle)
      base target bundle in
  (∀ tr, tr ∈ tables.1 →
     ∃ bundle, bundle ∈ dom base ∪ dom target ∧ ¬ is_page bundle
               ∧ modules_row bundle tr)
  ∧ (∀ tr, tr ∈ tables.2 →
       ∃ bundle, bundle ∈ dom base ∪ dom target ∧ is_page bundle
                 ∧ pages_row bundle tr)
  ∧ (∀ bundle, bundle ∈ dom base ∪ dom target → ¬ is_page bundle →
       ∃ tr, tr ∈ tables.1 ∧ modules_row bundle tr)
  ∧ (∀ bundle, bundle ∈ dom base ∪ dom target → is_page bundle →
       ∃ tr, tr ∈ tables.2 ∧ pages_row bundle tr).
Proof.
  intros Hbase Htarget Hplain tables modules_row pages_row.
  unfold tables, ComparisonTables. cbn [fst snd].
  rewrite Paged_main, Paged_pages.
  split; [|split; [|split]].
  - intros tr (bundle & size & He & ->)%CompareTable_elem.
    apply list_elem_of_fmap in He as (k & Heq & Hk).
    assert (bundle = k) as -> by exact (f_equal fst Heq).
    assert (size = (entry base target k).2) as -> by exact (f_equal snd Heq).
    apply list_elem_of_filter in Hk as [Hpage Hk%bundleKeys_elem].
    exists k. split; [done|]. split; [done|].
    by apply (row_of_entry getMainBundleLabel_core
                (λ b, Text (getMainBundleLabel_core b))).
  - intros tr (bundle & size & He & ->)%CompareTable_elem.
    apply list_elem_of_fmap in He as (k & Heq & Hk).
    assert (bundle = k) as -> by exact (f_equal fst Heq).
    assert (size = (entry base target k).2) as -> by exact (f_equal snd Heq).
    apply list_elem_of_filter in Hk as [Hpage Hk%bundleKeys_elem].
    exists k. split; [done|]. split; [done|].
    by apply (row_of_entry getPageBundleLabel
                (renderPageBundleLabel Number_toString prNumber)).
  - intros bundle Hin Hpage. eexists. split.
    + apply CompareTable_elem. exists bundle, (entry base target bundle).2.
      split; [|reflexivity]. apply list_elem_of_fmap. exists bundle.
      split; [done|]. apply list_elem_of_filter. by rewrite bundleKeys_elem.
    + by apply (row_of_entry getMainBundleLabel_core
                (λ b, Text (getMainBundleLabel_core b))).
  - intros bundle Hin Hpage. eexists. split.
    + apply CompareTable_elem. exists bundle, (entry base target bundle).2.
      split; [|reflexivity]. apply list_elem_of_fmap. exists bundle.
      split; [done|]. apply list_elem_of_filter. by rewrite bundleKeys_elem.
    + by apply (row_of_entry getPageBundleLabel
                (renderPageBundleLabel Number_toString prNumber)).
Qed.

(** The percentage of a change between two different finite sizes is a
    number. *)
Lemma percentage_is_a_number (p c : Q) :
  strict_eq (num_sub (Fin c) (Fin p)) 0%Z = false →
  num_mul (num_sub (num_div (Fin c) (Fin p)) 1%Z) 100%Z ≠ NaN.
Proof.
  intros Hz. cbn [num_div]. unfold Qsign.
  destruct (p ?= 0)%Q eqn:Hp; [|done..].
  destruct (c ?= 0)%Q eqn:Hc; [|done..].
  apply Qeq_alt in Hp, Hc.
  assert (p == c)%Q as Heq by lra.
  apply sub_is_zero in Heq. congruence.
Qed.

Lemma formatDiff_ext (toFixed2' : number → string)
    (base target : SizeSnapshot) (bundle : string) :
  valid_snapshot base → valid_snapshot target → plainly_named base target →
  bundle ∈ dom base ∪ dom target →
  (∀ n, n ≠ NaN → toFixed2' n = toFixed2 n) →
  let size := (entry base target bundle).2 in
  formatDiff toFixed2' prettyBytes_signed
    (Size.absoluteDiff (Size.parsed size)) (Size.relativeDiff (Size.parsed size))
  = formatDiff toFixed2 prettyBytes_signed
      (Size.absoluteDiff (Size.parsed size))
      (Size.relativeDiff (Size.parsed size))
  ∧ formatDiff toFixed2' prettyBytes_signed
      (Size.absoluteDiff (Size.gzip size)) (Size.relativeDiff (Size.gzip size))
    = formatDiff toFixed2 prettyBytes_signed
        (Size.absoluteDiff (Size.gzip size))
        (Size.relativeDiff (Size.gzip size)).
Proof.
  intros Hbase Htarget Hplain Hin Hsame size.
  destruct (default_finite base bundle Hbase) as [Hbp Hbg].
  destruct (default_finite target bundle Htarget) as [Htp Htg].
  unfold size. rewrite (entry_plain _ _ _ Hplain Hin). unfold metric.
  cbn [Size.parsed Size.gzip Size.absoluteDiff Size.relativeDiff].
  rewrite !ToNumber_Some.
  destruct (Snapshot.parsed (size_in base bundle)) as [| |bp]; [done..|].
  destruct (Snapshot.gzip (size_in base bundle)) as [| |bg]; [done..|].
  destruct (Snapshot.parsed (size_in target bundle)) as [| |tp]; [done..|].
  destruct (Snapshot.gzip (size_in target bundle)) as [| |tg]; [done..|].
  unfold formatDiff, addPercent. split.
  - destruct (strict_eq (num_sub (Fin tp) (Fin bp)) 0%Z) eqn:Hz; [done|].
    by rewrite Hsame by by apply percentage_is_a_number.
  - destruct (strict_eq (num_sub (Fin tg) (Fin bg)) 0%Z) eqn:Hz; [done|].
    by rewrite Hsame by by apply percentage_is_a_number.
Qed.

(** X8: the tables of the Azure route never format NaN as a percentage:
    over snapshots of finite sizes in which no lookup finds an inherited
    property they are the same tables whatever [toFixed] would make of NaN,
    because a change of 0 bytes, the only one with the relative change NaN,
    is shown as "--". *)
Theorem NaN_is_never_formatted (toFixed2' : number → string)
    (base target : SizeSnapshot) (prNumber : number) :
  valid_snapshot base → valid_snapshot target → plainly_named base target →
  (∀ n, n ≠ NaN → toFixed2' n = toFixed2 n) →
  ComparisonTables toFixed2' prettyBytes_signed prettyBytes localeCompare
    Number_toString base target prNumber
  = ComparisonTables toFixed2 prettyBytes_signed prettyBytes localeCompare
      Number_toString base target prNumber.
Proof.
  intros Hbase Htarget Hplain Hsame.
  assert (Hrows : ∀ getBundleLabel renderBundleLabel entries,
    (∀ e, e ∈ entries → emitted base target e) →
    CompareTable toFixed2' prettyBytes_signed prettyBytes localeCompare
      getBundleLabel renderBundleLabel entries
    = CompareTable toFixed2 prettyBytes_signed prettyBytes localeCompare
        getBundleLabel renderBundleLabel entries).
  { intros label render entries Hentries. unfold CompareTable.
    apply map_ext_in. intros [l stats] Hrow.
    apply list_elem_of_In in Hrow. rewrite rows_perm in Hrow.
    apply list_elem_of_fmap in Hrow as ([bundle size] & Hrow & He).
    cbn in Hrow. simplify_eq. cbn [Stats.parsed Stats.gzip Stats.id].
    apply Hentries, emitted_entry in He as [Hin ->].
    destruct (formatDiff_ext toFixed2' base target bundle Hbase Htarget
                Hplain Hin Hsame) as [-> ->].
    done. }
  unfold ComparisonTables. f_equal; apply Hrows; intros e He;
    right; apply elem_of_app; [by left|by right].
Qed.

(** Two page bundles with the same label are the same bundle. *)
Lemma getPageBundleLabel_inj (a b : string) :
  is_page a → is_page b →
  getPageBundleLabel a = getPageBundleLabel b → a = b.
Proof.
  unfold is_page, getPageBundleLabel, remove_prefix.
  intros [ra ->]%startsWith_spec [rb ->]%startsWith_spec.
  rewrite !strip_prefix_append. cbn. unfold id.
  destruct (startsWith ("docs:" ++ ra) "docs:/") eqn:Ha;
    destruct (startsWith ("docs:" ++ rb) "docs:/") eqn:Hb;
    try congruence.
  - apply startsWith_spec in Ha as [r Hr]. rewrite !append_cons in Hr.
    rewrite !append_nil_l in Hr. simplify_eq.
    intros Heq. by rewrite !append_cons in Heq.
  - apply startsWith_spec in Hb as [r Hr]. rewrite !append_cons in Hr.
    rewrite !append_nil_l in Hr. simplify_eq.
    intros Heq. by rewrite !append_cons in Heq.
Qed.

Lemma CompareTable_keys (getBundleLabel : string → string)
    (renderBundleLabel : string → node) (entries : list (string * Size.t)) :
  Tr.key <$> CompareTable toFixed2 prettyBytes_signed prettyBytes
               localeCompare getBundleLabel renderBundleLabel entries
  ≡ₚ getBundleLabel <$> entries.*1.
Proof.
  unfold CompareTable.
  transitivity ((rows localeCompare getBundleLabel entries).*1).
  { induction (rows localeCompare getBundleLabel entries) as [|[??] l IH];
      [done|]. cbn. by constructor. }
  rewrite rows_perm.
  induction entries as [|[??] l IH]; [done|]. cbn. by constructor.
Qed.

(** X9: the rows of the table "Pages" of the Azure route have pairwise
    different React keys, although the key is the label and not the
    identifier of the bundle; and the text that the first cell shows, link
    or not, is that key. *)
Theorem page_rows_have_distinct_keys (base target : SizeSnapshot)
    (prNumber : number) :
  let pages :=
    (ComparisonTables toFixed2 prettyBytes_signed prettyBytes localeCompare
       Number_toString base target prNumber).2 in
  NoDup (Tr.key <$> pages)
  ∧ Forall (λ tr, node_text (Tr.bundle tr) = Tr.key tr) pages.
Proof.
  cbn [ComparisonTables snd]. split.
  - rewrite CompareTable_keys, Paged_pages, entry_id.
    apply NoDup_fmap_2_strong.
    + intros a b [Ha _]%list_elem_of_filter [Hb _]%list_elem_of_filter.
      by apply getPageBundleLabel_inj.
    + apply NoDup_filter, bundleKeys_NoDup.
  - apply Forall_forall. intros tr Htr.
    apply CompareTable_elem in Htr as (bundle & size & _ & ->).
    cbn [Tr.bundle Tr.key]. unfold renderPageBundleLabel, getPageBundleLabel.
    by destruct (startsWith bundle "docs:/").
Qed.
End cells_facts.

(** ** The labels of the bundles *)

(** X10: a bundle "@material-ui/core/<component>" is labelled with the
    component, without a suffix ".esm", in both routes; the exceptions are
    the component "Textarea" in both and, in the route over CircleCI, the
    component "legacy", which the rename of "@material-ui/core.legacy"
    takes for its own because the dot of its expression matches the
    slash. *)
Theorem component_label (component : string) :
  component ≠ "Textarea" →
  getMainBundleLabel_core ("@material-ui/core/" ++ component)
  = remove_suffix ".esm" component
  ∧ (component ≠ "legacy" →
     getMainBundleLabel ("@material-ui/core/" ++ component)
     = remove_suffix ".esm" component)
  ∧ getMainBundleLabel "@material-ui/core/legacy" = "@mui/material.legacy".
Proof.
  intros HTextarea.
  rewrite !append_cons, append_nil_l.
  split; [|split; [|done]].
  - unfold getMainBundleLabel_core. cbn -[remove_suffix].
    destruct (String.eqb_spec component "Textarea"); done.
  - intros Hlegacy. unfold getMainBundleLabel. cbn -[remove_suffix].
    destruct (String.eqb_spec component "Textarea"); [done|].
    unfold rename_legacy, replace_whole, rename_org, remove_prefix.
    cbn -[remove_suffix].
    destruct (String.eqb_spec component "legacy"); [done|].
    cbn -[remove_suffix]. done.
Qed.

(** ** Matching *)

Lemma span_spec (f : Ascii.ascii → bool) (s : string) :
  s = ((span f s).1 ++ (span f s).2)%string
  ∧ all_chars f (span f s).1 = true
  ∧ stops f (span f s).2.
Proof.
  induction s as [|c s (IH1 & IH2 & IH3)]; [done|].
  cbn [span]. destruct (f c) eqn:Hc; cbn [fst snd].
  - rewrite append_cons, <- IH1. cbn [all_chars]. by rewrite Hc, IH2.
  - done.
Qed.

Lemma span_append (f : Ascii.ascii → bool) (a b : string) :
  all_chars f a = true → stops f b → span f (a ++ b) = (a, b).
Proof.
  intros Ha Hb. induction a as [|c a IH].
  - rewrite append_nil_l. destruct b as [|c b]; [done|].
    cbn in Hb |- *. by rewrite Hb.
  - cbn in Ha. apply andb_true_iff in Ha as [Hc Ha].
    rewrite append_cons. cbn [span]. by rewrite Hc, IH.
Qed.

Lemma many1_spec (f : Ascii.ascii → bool) (s a b : string) :
  many1 f s = Some (a, b)
  ↔ s = (a ++ b)%string ∧ some_of f a ∧ stops f b.
Proof.
  unfold many1, some_of. split.
  - destruct (span_spec f s) as (H1 & H2 & H3).
    destruct (span f s) as [a' b'] eqn:Hspan. cbn [fst snd] in *.
    destruct (String.eqb_spec a' ""); [done|].
    intros [= <- <-]. done.
  - intros (-> & [Hne Ha] & Hb). rewrite span_append by done.
    by destruct (String.eqb_spec a "").
Qed.

Lemma many1_append (f : Ascii.ascii → bool) (a b : string) :
  some_of f a → stops f b → many1 f (a ++ b) = Some (a, b).
Proof. intros. by apply many1_spec. Qed.

Lemma at_end_spec (s : string) : at_end s = Some tt ↔ s = "".
Proof. unfold at_end. by destruct (String.eqb_spec s ""). Qed.

Lemma bind_Some_pair {A B C : Type} (m : option (A * B))
    (k : A → B → option C) (z : C) :
  (m ≫= λ '(a, b), k a b) = Some z
  ↔ ∃ a b, m = Some (a, b) ∧ k a b = Some z.
Proof.
  destruct m as [[a b]|]; cbn.
  - split; [by exists a, b|]. by intros (? & ? & [= <- <-] & ?).
  - split; [done|]. by intros (? & ? & ? & ?).
Qed.

#[local] Arguments strip_prefix : simpl never.
#[local] Arguments many1 : simpl never.
#[local] Arguments at_end : simpl never.

(** ** The traced interactions *)

(** A trace is read as its three parts. *)
Lemma traceByStackMatch_trace (filename lineNumber column interactionName : string) :
  some_of no_colon filename → some_of is_digit lineNumber →
  some_of is_digit column → some_of no_paren interactionName →
  traceByStackMatch
    (filename ++ ":" ++ lineNumber ++ ":" ++ column
     ++ " (" ++ interactionName ++ ")")
  = Some (filename, lineNumber, interactionName).
Proof.
  intros Hf Hl Hcol Hi. unfold traceByStackMatch.
  rewrite many1_append by done. cbn.
  rewrite strip_prefix_append. cbn.
  rewrite many1_append by done. cbn.
  rewrite strip_prefix_append. cbn.
  rewrite many1_append by done. cbn.
  rewrite strip_prefix_append. cbn.
  rewrite many1_append by done. done.
Qed.

(** X11: a name is read as a trace exactly when it is
    "<file>:<line>:<column> (<interaction>)" with a non-empty file without
    a colon, non-empty decimal line and column, and a non-empty interaction
    without a closing parenthesis; the three parts read are the file, the
    line and the interaction. *)
Theorem traceByStackMatch_spec (name filename lineNumber interactionName : string) :
  traceByStackMatch name = Some (filename, lineNumber, interactionName)
  ↔ ∃ column,
      name = (filename ++ ":" ++ lineNumber ++ ":" ++ column
              ++ " (" ++ interactionName ++ ")")%string
      ∧ some_of no_colon filename
      ∧ some_of is_digit lineNumber
      ∧ some_of is_digit column
      ∧ some_of no_paren interactionName.
Proof.
  unfold traceByStackMatch. split.
  - intros H.
    apply bind_Some_pair in H as (f & r1 & Hf & H).
    apply bind_Some in H as (r2 & Hr2 & H).
    apply bind_Some_pair in H as (l & r3 & Hl & H).
    apply bind_Some in H as (r4 & Hr4 & H).
    apply bind_Some_pair in H as (col & r5 & Hcol & H).
    apply bind_Some in H as (r6 & Hr6 & H).
    apply bind_Some_pair in H as (i & r7 & Hi & H).
    apply bind_Some in H as (r8 & Hr8 & H).
    apply bind_Some in H as ([] & Hend & H).
    injection H as <- <- <-.
    apply many1_spec in Hf as (-> & Hf & _).
    apply strip_prefix_spec in Hr2 as ->.
    apply many1_spec in Hl as (-> & Hl & _).
    apply strip_prefix_spec in Hr4 as ->.
    apply many1_spec in Hcol as (-> & Hcol & _).
    apply strip_prefix_spec in Hr6 as ->.
    apply many1_spec in Hi as (-> & Hi & _).
    apply strip_prefix_spec in Hr8 as ->.
    apply at_end_spec in Hend as ->.
    by exists col.
  - intros (column & -> & Hf & Hl & Hcol & Hi).
    by apply traceByStackMatch_trace.
Qed.

Lemma traceByStackMatch_no_colon (name : string) :
  all_chars no_colon name = true → traceByStackMatch name = None.
Proof.
  intros Hname. unfold traceByStackMatch.
  destruct (many1 _ name) as [[f r]|] eqn:Hf; [|done].
  apply many1_spec in Hf as (-> & _ & Hstops).
  rewrite all_chars_append in Hname. apply andb_true_iff in Hname as [_ Hr].
  destruct r as [|c r]; [done|]. cbn [stops all_chars] in Hstops, Hr.
  unfold no_colon in Hr. by rewrite Hstops in Hr.
Qed.

(** X12: a traced interaction "<file>:<line>:<column> (<interaction>)" is
    shown as "<interaction>@L<line>" and links to the line of the file in
    the tree of the revision of the pipeline; the link has two slashes
    before the file, because the code URL of the details ends with one. *)
Theorem traced_interaction_links_to_the_line (job : Job.t)
    (fetchCircleCIPipelineDetails : string → settled Pipeline.t)
    (details : TestProfileDetails.t) (id : number)
    (filename lineNumber column interactionName : string) :
  fetchTestProfileDetails (Fulfilled job) fetchCircleCIPipelineDetails
  = Fulfilled details →
  some_of no_colon filename → some_of is_digit lineNumber →
  some_of is_digit column → some_of no_paren interactionName →
  ∃ pipeline,
    fetchCircleCIPipelineDetails (Job.pipeline_id job) = Fulfilled pipeline
    ∧ ProfilerInteraction (TestProfileDetails.codeUrl details)
        {| Profiler.id := id;
           Profiler.name :=
             (filename ++ ":" ++ lineNumber ++ ":" ++ column
              ++ " (" ++ interactionName ++ ")")%string |}
      = (id,
         Anchor (Vcs.origin_repository_url (Pipeline.vcs pipeline)
                 ++ "/tree/" ++ Vcs.revision (Pipeline.vcs pipeline)
                 ++ "//" ++ filename ++ "#L" ++ lineNumber)%string
                (interactionName ++ "@L" ++ lineNumber)%string).
Proof.
  intros Hdetails Hf Hl Hcol Hi. cbn in Hdetails.
  destruct (fetchCircleCIPipelineDetails (Job.pipeline_id job))
    as [pipeline|] eqn:Hpipeline; [|done].
  injection Hdetails as <-. exists pipeline. split; [done|].
  unfold ProfilerInteraction. cbn [Profiler.id Profiler.name].
  rewrite traceByStackMatch_trace by done.
  cbn [TestProfileDetails.codeUrl]. by rewrite !append_assoc.
Qed.

(** X13: the name "unknown line (<who>)", with a non-empty <who> that has
    neither a colon nor a closing parenthesis, is shown as the text <who>;
    any other name without a colon is shown as it is. *)
Theorem unknown_line_shows_the_interaction (codeUrl : string) (id : number)
    (name : string) :
  all_chars no_colon name = true →
  ∃ text,
    ProfilerInteraction codeUrl {| Profiler.id := id; Profiler.name := name |}
    = (id, Text text)
    ∧ (∀ who, name = ("unknown line (" ++ who ++ ")")%string →
              some_of no_paren who → text = who)
    ∧ ((∀ who, name = ("unknown line (" ++ who ++ ")")%string →
               ¬ some_of no_paren who) → text = name).
Proof.
  intros Hname. unfold ProfilerInteraction. cbn [Profiler.id Profiler.name].
  rewrite traceByStackMatch_no_colon by done.
  eexists. split; [reflexivity|]. split.
  - intros who -> Hwho. unfold unknownLineMatch.
    rewrite strip_prefix_append. cbn.
    rewrite many1_append by done. done.
  - intros Hnot. destruct (unknownLineMatch name) as [who|] eqn:Hwho; [|done].
    exfalso. unfold unknownLineMatch in Hwho.
    apply bind_Some in Hwho as (r1 & Hr1 & Hwho).
    apply bind_Some_pair in Hwho as (w & r2 & Hw & Hwho).
    apply bind_Some in Hwho as (r3 & Hr3 & Hwho).
    apply bind_Some in Hwho as ([] & Hend & Hwho).
    apply strip_prefix_spec in Hr1 as ->.
    apply many1_spec in Hw as (-> & Hw & _).
    apply strip_prefix_spec in Hr3 as ->.
    apply at_end_spec in Hend as ->.
    by apply (Hnot w).
Qed.

(** ** The profiling artifacts of a build *)

Lemma pretty_N_char_digit (d : N) :
  (d < 10)%N →
  Ascii.N_of_ascii (pretty_N_char d) = (48 + d)%N
  ∧ is_digit (pretty_N_char d) = true.
Proof.
  intros Hd.
  assert (d = 0 ∨ d = 1 ∨ d = 2 ∨ d = 3 ∨ d = 4 ∨ d = 5 ∨ d = 6 ∨ d = 7
          ∨ d = 8 ∨ d = 9)%N as Hcases by lia.
  by repeat destruct Hcases as [->|Hcases]; [..|subst d].
Qed.

(** Reading the digits that were written for a number continues from the
    number read so far, shifted by as many digits. *)
Lemma parse_pretty_N_go (x : N) :
  ∃ k : Z, (0 <= k)%Z ∧ ∀ (s : string) (a : Z),
    fold_left (λ n c, (10 * n + (Z.of_N (Ascii.N_of_ascii c) - 48))%Z)
      (String.list_ascii_of_string (pretty_N_go x s)) a
    = fold_left (λ n c, (10 * n + (Z.of_N (Ascii.N_of_ascii c) - 48))%Z)
        (String.list_ascii_of_string s) (a * 10 ^ k + Z.of_N x)%Z
    ∧ all_chars is_digit (pretty_N_go x s) = all_chars is_digit s.
Proof.
  induction (N.lt_wf_0 x) as [x _ IH].
  assert (x = 0 ∨ 0 < x)%N as [->|Hx] by lia.
  { exists 0%Z. split; [done|]. intros s a. rewrite pretty_N_go_0.
    split; [|done]. f_equal. lia. }
  destruct (IH (x `div` 10)%N) as (k & Hk & IHx).
  { apply N.div_lt; lia. }
  exists (k + 1)%Z. split; [lia|]. intros s a.
  rewrite pretty_N_go_step by done.
  destruct (IHx (String (pretty_N_char (x `mod` 10)) s) a) as [-> ->].
  destruct (pretty_N_char_digit (x `mod` 10)) as [Hcode Hdigit].
  { apply N.mod_lt. lia. }
  cbn [String.list_ascii_of_string fold_left all_chars].
  rewrite Hcode, Hdigit. split; [|done]. f_equal.
  rewrite Z.pow_add_r by lia.
  pose proof (N.div_mod x 10) as Hdiv.
  assert (Z.of_N x
          = (10 * Z.of_N (x `div` 10) + Z.of_N (x `mod` 10))%Z) as Hx'.
  { rewrite (N.div_mod x 10) at 1 by lia. lia. }
  rewrite Hx'. lia.
Qed.

Lemma digits_value_pretty (n : N) :
  digits_value (pretty n) = Z.of_N n ∧ some_of is_digit (pretty n).
Proof.
  unfold pretty, pretty_N, digits_value, some_of.
  destruct (decide (n = 0)%N) as [->|Hn]; [done|].
  destruct (parse_pretty_N_go n) as (k & _ & Hgo).
  destruct (Hgo "" 0%Z) as [Hparse Hdigits].
  split; [|split].
  - rewrite Hparse. cbn [String.list_ascii_of_string fold_left]. lia.
  - intros Hempty. rewrite Hempty in Hparse.
    cbn [String.list_ascii_of_string fold_left] in Hparse. lia.
  - by rewrite Hdigits.
Qed.

(** Below 2^53 [parseInt] does not round. *)
Lemma parseInt_pretty (n : N) :
  (n < 2 ^ 53)%N →
  parseInt_digits (pretty n) = num_of_Z (Z.of_N n)
  ∧ some_of is_digit (pretty n).
Proof.
  intros Hn. destruct (digits_value_pretty n) as [Hvalue Hdigits].
  split; [|done]. unfold parseInt_digits, round_to_number. rewrite Hvalue.
  destruct (Z.ltb_spec (Z.of_N n) (2 ^ 53)) as [_|Hge]; [done|].
  apply N2Z.inj_lt in Hn. rewrite N2Z.inj_pow in Hn.
  change (Z.of_N 2 ^ Z.of_N 53)%Z with (2 ^ 53)%Z in Hn. lia.
Qed.

Lemma reportPathMatch_spec (pretty_path browserName timestampRaw : string) :
  reportPathMatch pretty_path = Some (browserName, timestampRaw)
  ↔ pretty_path = ("react-profiler-report/karma/" ++ browserName ++ "/"
                   ++ timestampRaw ++ ".json")%string
    ∧ some_of no_slash browserName
    ∧ some_of is_digit timestampRaw.
Proof.
  unfold reportPathMatch. split.
  - intros H.
    apply bind_Some in H as (r1 & Hr1 & H).
    apply bind_Some_pair in H as (b & r2 & Hb & H).
    apply bind_Some in H as (r3 & Hr3 & H).
    apply bind_Some_pair in H as (t & r4 & Ht & H).
    apply bind_Some in H as (r5 & Hr5 & H).
    apply bind_Some in H as ([] & Hend & H).
    injection H as <- <-.
    apply strip_prefix_spec in Hr1 as ->.
    apply many1_spec in Hb as (-> & Hb & _).
    apply strip_prefix_spec in Hr3 as ->.
    apply many1_spec in Ht as (-> & Ht & _).
    apply strip_prefix_spec in Hr5 as ->.
    apply at_end_spec in Hend as ->.
    done.
  - intros (-> & Hb & Ht).
    rewrite strip_prefix_append. cbn.
    rewrite many1_append by done. cbn.
    rewrite strip_prefix_append. cbn.
    rewrite many1_append by done. done.
Qed.

(** X14: of the artifacts of a build, exactly those at a path
    "react-profiler-report/karma/<browser>/<digits>.json", with a browser
    name without a slash, are taken as profiles, each with the browser
    name of its path, the number that the digits write and its own URL. *)
Theorem profiler_reports_are_recognised (infos : list ArtifactInfo.t) :
  ∃ found,
    fetchTestProfileArtifactsInfos (Fulfilled infos) = Fulfilled found
    ∧ ∀ info, info ∈ found ↔
        ∃ artifactInfo timestampRaw,
          artifactInfo ∈ infos
          ∧ ArtifactInfo.pretty_path artifactInfo
            = ("react-profiler-report/karma/"
               ++ TestProfileArtifactsInfo.browserName info ++ "/"
               ++ timestampRaw ++ ".json")%string
          ∧ some_of no_slash (TestProfileArtifactsInfo.browserName info)
          ∧ some_of is_digit timestampRaw
          ∧ TestProfileArtifactsInfo.timestamp info
            = parseInt_digits timestampRaw
          ∧ TestProfileArtifactsInfo.url info = ArtifactInfo.url artifactInfo.
Proof.
  eexists. split; [reflexivity|]. intros info.
  rewrite list_elem_of_omap. unfold toTestProfileArtifactsInfo. split.
  - intros (a & Ha & Hinfo).
    apply bind_Some_pair in Hinfo as (b & t & Hmatch & [= <-]).
    apply reportPathMatch_spec in Hmatch as (Hpath & Hb & Ht).
    by exists a, t.
  - intros (a & t & Ha & Hpath & Hb & Ht & Hstamp & Hurl).
    exists a. split; [done|].
    assert (reportPathMatch (ArtifactInfo.pretty_path a)
            = Some (TestProfileArtifactsInfo.browserName info, t)) as ->.
    { by apply reportPathMatch_spec. }
    cbn. rewrite <- Hstamp, <- Hurl. by destruct info.
Qed.

(** X15: the time stamp of a report is read back from its path: the report
    that a browser without a slash in its name wrote at the time [n], in
    decimal notation, is taken with the time stamp [n]; [n] is below 2^53,
    as a number that [parseInt] returns without rounding. *)
Theorem timestamp_is_read_back (browserName url : string) (n : N) :
  some_of no_slash browserName → (n < 2 ^ 53)%N →
  toTestProfileArtifactsInfo
    {| ArtifactInfo.pretty_path :=
         ("react-profiler-report/karma/" ++ browserName ++ "/"
          ++ pretty n ++ ".json")%string;
       ArtifactInfo.url := url |}
  = Some {| TestProfileArtifactsInfo.browserName := browserName;
            TestProfileArtifactsInfo.timestamp := Z.of_N n;
            TestProfileArtifactsInfo.url := url |}.
Proof.
  intros Hbrowser Hn. unfold toTestProfileArtifactsInfo.
  cbn [ArtifactInfo.pretty_path ArtifactInfo.url].
  destruct (parseInt_pretty n Hn) as [Hparse Hdigits].
  assert (reportPathMatch
            ("react-profiler-report/karma/" ++ browserName ++ "/"
             ++ pretty n ++ ".json")
          = Some (browserName, pretty n)) as ->.
  { by apply reportPathMatch_spec. }
  cbn. by rewrite Hparse.
Qed.

(** ** The loader of the profiles *)

Lemma Promise_all_list_fulfilled {A : Type} (first : nat)
    (promises : list (settled A)) (values : list A) :
  Promise_all_list first promises = Fulfilled values
  ↔ promises = Fulfilled <$> values.
Proof.
  unfold Promise_all_list. revert values.
  induction promises as [|[a|e] promises IH]; intros values.
  - cbn. split; [by intros [= <-]|]. by destruct values.
  - cbn [omap list_omap].
    destruct (omap _ promises) as [|e es] eqn:Hreasons.
    + split.
      * intros [= <-]. cbn. f_equal. by apply IH.
      * destruct values as [|v values]; [done|]. intros [= -> Hrest].
        f_equal. f_equal. apply IH in Hrest. by injection Hrest.
    + split; [done|]. destruct values as [|v values]; [done|].
      intros [= _ Hrest]. by apply IH in Hrest.
  - cbn [omap list_omap]. split; [done|]. by destruct values.
Qed.

Lemma found_nil (infos : list ArtifactInfo.t) :
  omap toTestProfileArtifactsInfo infos = []
  ↔ Forall (λ artifactInfo,
              reportPathMatch (ArtifactInfo.pretty_path artifactInfo) = None)
      infos.
Proof.
  induction infos as [|a infos IH]; [done|].
  cbn [omap list_omap]. rewrite Forall_cons, <- IH.
  unfold toTestProfileArtifactsInfo.
  destruct (reportPathMatch (ArtifactInfo.pretty_path a)) as [[b t]|]; cbn.
  - split; [done|]. by intros [? _].
  - tauto.
Qed.

(** X16: when the details of the build arrive, the layout route answers
    404 "Build contains no profiling artifacts", with the build number,
    exactly when the list of artifacts arrives and none of its paths is the
    path of a profiler report. *)
Theorem build_without_reports_is_a_404 (buildNumber : number)
    (firstWins : bool) (first : nat)
    (download : string → settled (gmap string (list Profiler.ProfilerReport)))
    (fetched : settled (list ArtifactInfo.t))
    (details : TestProfileDetails.t) :
  TestProfile_loader buildNumber firstWins
    (fetchTestProfiles first download fetched) (Fulfilled details)
  = Fulfilled (json (NoProfiles buildNumber) 404
                 "Build contains no profiling artifacts" [])
  ↔ ∃ infos,
      fetched = Fulfilled infos
      ∧ Forall (λ artifactInfo,
                  reportPathMatch (ArtifactInfo.pretty_path artifactInfo)
                  = None) infos.
Proof.
  unfold TestProfile_loader, fetchTestProfiles, fetchTestProfileArtifactsInfos.
  destruct fetched as [infos|e]; cbn [Promise_all].
  - setoid_rewrite <- found_nil.
    destruct (omap toTestProfileArtifactsInfo infos) as [|info found]
      eqn:Hfound.
    + cbn. split; [by exists infos|done].
    + destruct (Promise_all_list _ _) as [profiles|e] eqn:Hall.
      * apply Promise_all_list_fulfilled in Hall.
        destruct profiles as [|p profiles]; [done|]. cbn.
        split; [done|]. intros (? & [= <-] & ?). congruence.
      * split; [done|]. intros (? & [= <-] & ?). congruence.
  - split; [done|]. by intros (? & ? & ?).
Qed.

(** X17: the profiles of a build arrive exactly when every report is
    downloaded, and then there is one profile per report, in the order of
    the reports in the list of artifacts, with the browser name and the
    time stamp of the path of the report. *)
Theorem profiles_follow_the_reports (first : nat)
    (download : string → settled (gmap string (list Profiler.ProfilerReport)))
    (infos : list ArtifactInfo.t) (testProfiles : list Profiler.TestProfile) :
  fetchTestProfiles first download (Fulfilled infos) = Fulfilled testProfiles
  ↔ Forall2 (downloaded download)
      (omap toTestProfileArtifactsInfo infos) testProfiles.
Proof.
  unfold fetchTestProfiles, fetchTestProfileArtifactsInfos.
  rewrite Promise_all_list_fulfilled.
  generalize (omap toTestProfileArtifactsInfo infos). intros found.
  revert testProfiles. induction found as [|info found IH]; intros profiles.
  - cbn. split.
    + intros Hnil. destruct profiles; [constructor|done].
    + by intros ->%Forall2_nil_inv_l.
  - cbn [map fmap list_fmap]. split.
    + destruct profiles as [|p profiles]; [done|]. cbn [fmap list_fmap].
      intros [= Hp Hrest]. apply IH in Hrest. constructor; [|done].
      destruct (download (TestProfileArtifactsInfo.url info)) as [a|e]
        eqn:Hd; [|done].
      injection Hp as <-. by repeat split.
    + intros (p & profiles' & (Hb & Ht & Hd) & Hrest & ->)%Forall2_cons_inv_l.
      cbn [fmap list_fmap]. apply IH in Hrest. rewrite Hrest, Hd.
      f_equal. f_equal. destruct p. cbn in *. by subst.
Qed.

(** X18: the layout route turns no failed fetch into a response: its
    promise is fulfilled with a response only when the profiles and the
    details both arrive, and is otherwise rejected with the reason of one
    of the two fetches. *)
Theorem failed_profile_fetch_is_rejected (buildNumber : number)
    (firstWins : bool)
    (profiles : settled (list Profiler.TestProfile))
    (details : settled TestProfileDetails.t) :
  match TestProfile_loader buildNumber firstWins profiles details with
  | Fulfilled response =>
      rejected profiles = false ∧ rejected details = false
      ∧ (status response = 200%Z ∨ status response = 404%Z)
  | Rejected reason =>
      reason_of profiles = Some reason ∨ reason_of details = Some reason
  end.
Proof.
  unfold TestProfile_loader.
  destruct profiles as [testProfiles|e1], details as [d|e2]; cbn.
  - destruct testProfiles; cbn; auto.
  - by right.
  - by left.
  - destruct firstWins; auto.
Qed.

(** ** The label and the review of a pipeline *)

Lemma search_here {A : Type} (match_here : string → option A) (s : string)
    (x : A) :
  match_here s = Some x → search match_here s = Some x.
Proof. intros Hs. destruct s; cbn; by rewrite Hs. Qed.

Lemma search_Some {A : Type} (match_here : string → option A) (s : string)
    (x : A) :
  search match_here s = Some x →
  ∃ before after, s = (before ++ after)%string ∧ match_here after = Some x.
Proof.
  induction s as [|c s IH]; cbn.
  - destruct (match_here "") eqn:H0; [|done]. intros [= ->]. by exists "", "".
  - destruct (match_here (String c s)) eqn:Hc.
    + intros [= ->]. by exists "", (String c s).
    + intros (before & after & -> & Hafter)%IH.
      by exists (String c before), after.
Qed.

Lemma search_None {A : Type} (match_here : string → option A) (s : string) :
  (∀ before after, s = (before ++ after)%string → match_here after = None) →
  search match_here s = None.
Proof.
  induction s as [|c s IH]; intros Hnone; cbn.
  - by rewrite (Hnone "" "").
  - rewrite (Hnone "" (String c s)) by done. apply IH.
    intros before after ->. by apply (Hnone (String c before) after).
Qed.

Lemma pullRequestMatch_pullMatch (s number : string) :
  pullRequestMatch s = Some number →
  pullMatch s = Some number ∧ some_of is_digit number.
Proof.
  unfold pullRequestMatch, pullMatch. intros H.
  apply bind_Some in H as (r1 & -> & H).
  apply bind_Some_pair in H as (n & r2 & Hn & H).
  apply bind_Some in H as (r3 & Hr3 & H).
  cbn. rewrite Hn. cbn. rewrite Hr3. cbn.
  apply many1_spec in Hn as (_ & Hn & _).
  destruct (_ || _); by simplify_eq.
Qed.

(** X19: on a branch "pull/<number>/head" or "pull/<number>/merge" of
    CircleCI the pipeline is labelled "#<number>" and reviewed at the pull
    request <number> of the repository. *)
Theorem pull_request_branch (origin revision number kind : string) :
  some_of is_digit number →
  kind = "head" ∨ kind = "merge" →
  let pipeline :=
    {| Pipeline.vcs :=
         {| Vcs.branch := Some ("pull/" ++ number ++ "/" ++ kind)%string;
            Vcs.origin_repository_url := origin;
            Vcs.revision := revision |} |} in
  computeLabel pipeline = ("#" ++ number)%string
  ∧ computeReviewUrl pipeline = (origin ++ "/pull/" ++ number ++ "/")%string.
Proof.
  intros Hnumber Hkind pipeline.
  assert (pullRequestMatch ("pull/" ++ number ++ "/" ++ kind) = Some number)
    as Hmatch.
  { unfold pullRequestMatch. rewrite strip_prefix_append. cbn.
    rewrite many1_append by done. cbn.
    rewrite strip_prefix_append. cbn. by destruct Hkind as [-> | ->]. }
  unfold computeLabel, computeReviewUrl, pipeline.
  cbn [Pipeline.vcs Vcs.branch Vcs.origin_repository_url Vcs.revision mbind
       option_bind].
  rewrite (search_here _ _ _ Hmatch).
  apply pullRequestMatch_pullMatch in Hmatch as [Hmatch _].
  by rewrite (search_here _ _ _ Hmatch).
Qed.

(** X20: a pipeline that is reviewed at a pull request, and not at its
    commit, is labelled "#<number>" for a part "pull/<number>/" of its
    branch, with a non-empty decimal number. *)
Theorem review_of_a_pull_request_is_labelled (pipeline : Pipeline.t) :
  computeReviewUrl pipeline
  ≠ (Vcs.origin_repository_url (Pipeline.vcs pipeline) ++ "/commit/"
     ++ Vcs.revision (Pipeline.vcs pipeline) ++ "/")%string →
  ∃ branch before number after,
    Vcs.branch (Pipeline.vcs pipeline) = Some branch
    ∧ branch = (before ++ "pull/" ++ number ++ "/" ++ after)%string
    ∧ some_of is_digit number
    ∧ computeLabel pipeline = ("#" ++ number)%string.
Proof.
  unfold computeReviewUrl, computeLabel.
  destruct (Vcs.branch (Pipeline.vcs pipeline)) as [branch|]; [|done].
  cbn [mbind option_bind].
  destruct (search pullRequestMatch branch) as [n|] eqn:Hreview; [|done].
  intros _.
  assert (∃ m, search pullMatch branch = Some m) as [m Hm].
  { clear -Hreview. induction branch as [|c s IH]; cbn in *.
    - destruct (pullRequestMatch "") eqn:H0; [|done].
      apply pullRequestMatch_pullMatch in H0 as [-> _]. eauto.
    - destruct (pullRequestMatch (String c s)) eqn:Hc.
      + apply pullRequestMatch_pullMatch in Hc as [-> _]. eauto.
      + destruct (pullMatch (String c s)); eauto. }
  rewrite Hm.
  apply search_Some in Hm as (before & rest & -> & Hrest).
  unfold pullMatch in Hrest.
  apply bind_Some in Hrest as (r1 & Hr1 & Hrest).
  apply bind_Some_pair in Hrest as (number & r2 & Hnumber & Hrest).
  apply bind_Some in Hrest as (after & Hr2 & [= <-]).
  apply strip_prefix_spec in Hr1 as ->.
  apply many1_spec in Hnumber as (-> & Hnumber & _).
  apply strip_prefix_spec in Hr2 as ->.
  by exists (before ++ "pull/" ++ number ++ "/" ++ after)%string,
            before, number, after.
Qed.

(** X21: a pipeline on a branch without "pull/" in its name is labelled
    with the branch and the first eight characters of the revision, and is
    reviewed at the commit of the revision. *)
Theorem ordinary_branch (origin revision branch : string) :
  (∀ before after, branch ≠ (before ++ "pull/" ++ after)%string) →
  let pipeline :=
    {| Pipeline.vcs :=
         {| Vcs.branch := Some branch;
            Vcs.origin_repository_url := origin;
            Vcs.revision := revision |} |} in
  computeLabel pipeline
  = (branch ++ " (" ++ String.substring 0 8 revision ++ ")")%string
  ∧ computeReviewUrl pipeline
    = (origin ++ "/commit/" ++ revision ++ "/")%string.
Proof.
  intros Hbranch pipeline.
  assert (∀ before after, branch = (before ++ after)%string →
            strip_prefix "pull/" after = None) as Hnone.
  { intros before after ->.
    destruct (strip_prefix "pull/" after) as [r|] eqn:Hr; [|done].
    apply strip_prefix_spec in Hr as ->. by destruct (Hbranch before r). }
  unfold computeLabel, computeReviewUrl, pipeline.
  cbn [Pipeline.vcs Vcs.branch Vcs.origin_repository_url Vcs.revision mbind
       option_bind].
  rewrite !search_None; [done| |].
  - intros before after Heq. unfold pullRequestMatch.
    by rewrite (Hnone before after Heq).
  - intros before after Heq. unfold pullMatch.
    by rewrite (Hnone before after Heq).
Qed.

(** ** The index of the tests and the details of a test *)

(** X22: the aggregation of the details of a test completes when the test
    and the browsers are not named like inherited properties (a browser
    "__proto__" apart, no name of a browser stops it).  When it completes,
    the table has a column for a browser exactly when a profile of that
    browser has reports of the test and the browser is not named like an
    inherited property; and the row [i] of such a browser is made of the
    reports at index [i] of the runs that are that long, in the order of the
    profiles: the four lists of measurements hold one value for each of
    them, and the phase and the interactions are those of the first. *)
Theorem renders_are_the_columns (testId : string)
    (testProfiles : list Profiler.TestProfile) :
  (inherited testId = false →
   Forall (λ p, Profiler.browserName p ≠ "__proto__") testProfiles →
   ∃ t, Profiler.profilesByBrowserName testId testProfiles
        = Profiler.Aggregated t)
  ∧ ∀ (t : gmap string (list Profiler.render)) (browser : string) (i : nat),
      Profiler.profilesByBrowserName testId testProfiles
      = Profiler.Aggregated t →
      (t !! browser = None
       ↔ runs testId browser testProfiles = [] ∨ inherited browser = true)
      ∧ (inherited browser = false →
         (t !! browser ≫= λ renders, renders !! i)
         = render_of (column i (runs testId browser testProfiles))).
Proof.
  split; [apply aggregate_total|].
  intros t browser i Haggregated.
  pose proof (profilesByBrowserName_renders testId testProfiles t Haggregated
                browser) as H.
  destruct (t !! browser) as [renders|].
  - destruct H as (Hplain & Hne & H). split; [|intros _; apply H].
    split; [done|]. intros [?|?]; [done|congruence].
  - split.
    + split; [|done]. intros _.
      destruct (inherited browser); [by right|left; by apply H].
    + intros Hplain. by rewrite (H Hplain).
Qed.

Lemma Set_from_spec (array : list string) :
  NoDup (Set_from array) ∧ ∀ x, x ∈ Set_from array ↔ x ∈ array.
Proof.
  unfold Set_from.
  assert (∀ seen : list string, NoDup seen →
    NoDup (fold_left (λ seen x, if decide (x ∈ seen) then seen
                                else seen ++ [x]) array seen)
    ∧ ∀ x, x ∈ fold_left (λ seen x, if decide (x ∈ seen) then seen
                                     else seen ++ [x]) array seen
           ↔ x ∈ seen ∨ x ∈ array) as Hfold.
  { induction array as [|a array IH]; intros seen Hseen; cbn [fold_left].
    - split; [done|]. intros x. rewrite elem_of_nil. tauto.
    - destruct (decide (a ∈ seen)) as [Ha|Ha].
      + destruct (IH seen Hseen) as [Hnodup Hin]. split; [done|].
        intros x. rewrite Hin, elem_of_cons.
        split; [tauto|]. intros [?|[->|?]]; tauto.
      + destruct (IH (seen ++ [a])) as [Hnodup Hin].
        { apply NoDup_app. split; [done|]. split; [|apply NoDup_singleton].
          intros x Hx ->%list_elem_of_singleton. done. }
        split; [done|]. intros x.
        rewrite Hin, elem_of_app, list_elem_of_singleton, elem_of_cons. tauto. }
  destruct (Hfold [] (NoDup_nil_2)) as [Hnodup Hin]. split; [done|].
  intros x. rewrite Hin, elem_of_nil. tauto.
Qed.

Lemma has_reports_keys (profile : gmap string (list Profiler.ProfilerReport))
    (testId : string) :
  testId ∈ List.filter (has_reports profile) (Object_keys profile)
  ↔ has_reports profile testId = true.
Proof.
  rewrite list_elem_of_In, filter_In, <- list_elem_of_In.
  unfold Object_keys. rewrite elem_of_elements, elem_of_dom.
  split; [tauto|]. intros Hhas. split; [|done].
  unfold has_reports in Hhas. by destruct (profile !! testId).
Qed.

Lemma testIdsDuplicated_spec (testProfiles : list Profiler.TestProfile)
    (testId : string) :
  testId ∈ fold_left
             (λ testIdsDuplicated p,
                testIdsDuplicated
                ++ List.filter (has_reports (Profiler.profile p))
                     (Object_keys (Profiler.profile p)))
             testProfiles []
  ↔ ∃ p, p ∈ testProfiles ∧ has_reports (Profiler.profile p) testId = true.
Proof.
  assert (∀ acc : list string,
    testId ∈ fold_left
               (λ testIdsDuplicated p,
                  testIdsDuplicated
                  ++ List.filter (has_reports (Profiler.profile p))
                       (Object_keys (Profiler.profile p)))
               testProfiles acc
    ↔ testId ∈ acc
      ∨ ∃ p, p ∈ testProfiles ∧ has_reports (Profiler.profile p) testId = true)
    as Hfold.
  { induction testProfiles as [|q ps IH]; intros acc; cbn [fold_left].
    - split; [tauto|]. intros [?|(? & []%elem_of_nil & _)]. done.
    - rewrite IH, elem_of_app, has_reports_keys. split.
      + intros [[?|?]|(p & ? & ?)]; [tauto| |].
        * right. exists q. split; [left|done].
        * right. exists p. split; [by right|done].
      + intros [?|(p & [->|?]%elem_of_cons & ?)]; [tauto..|].
        right. by exists p. }
  rewrite Hfold, elem_of_nil. tauto.
Qed.

Lemma has_reports_run (testId : string) (p : Profiler.TestProfile) :
  has_reports (Profiler.profile p) testId = true
  ↔ run_of testId (Profiler.browserName p) p ≠ None.
Proof.
  unfold has_reports, run_of. rewrite decide_True by done.
  by destruct (Profiler.profile p !! testId) as [[|??]|].
Qed.

Lemma listed_spec (localeCompare : string → string → Z)
    (testProfiles : list Profiler.TestProfile) (testId : string) :
  testId ∈ testIdsWithProfilingData localeCompare testProfiles
  ↔ ∃ p, p ∈ testProfiles ∧ has_reports (Profiler.profile p) testId = true.
Proof.
  unfold testIdsWithProfilingData. rewrite Array_sort_perm.
  destruct (Set_from_spec
              (fold_left
                 (λ testIdsDuplicated p,
                    testIdsDuplicated
                    ++ List.filter (has_reports (Profiler.profile p))
                         (Object_keys (Profiler.profile p)))
                 testProfiles [])) as [_ ->].
  apply testIdsDuplicated_spec.
Qed.

(** X23: the index lists every test for which some profile has at least
    one report, each once, in the order of [localeCompare]. *)
Theorem index_lists_the_profiled_tests (localeCompare : string → string → Z)
    (testProfiles : list Profiler.TestProfile) :
  consistent localeCompare →
  let listed := testIdsWithProfilingData localeCompare testProfiles in
  NoDup listed
  ∧ (∀ testId, testId ∈ listed ↔
       ∃ p reports, p ∈ testProfiles
         ∧ Profiler.profile p !! testId = Some reports ∧ reports ≠ [])
  ∧ StronglySorted (λ a b, (localeCompare a b <= 0)%Z) listed.
Proof.
  intros [Hanti Htrans] listed. split; [|split].
  - unfold listed, testIdsWithProfilingData. rewrite Array_sort_perm.
    apply Set_from_spec.
  - intros testId. unfold listed. rewrite listed_spec. unfold has_reports.
    split.
    + intros (p & Hp & Hhas). exists p.
      destruct (Profiler.profile p !! testId) as [[|r rs]|]; [done| |done].
      by exists (r :: rs).
    + intros (p & reports & Hp & Hget & Hne). exists p. rewrite Hget.
      by destruct reports.
  - unfold listed, testIdsWithProfilingData.
    apply (Array_sort_by _ (λ _, True)).
    + intros x y _ _. unfold precedes, SortCompare.
      change (num_gt (num_of_Z (localeCompare x y)) 0%Z = false
              ↔ (localeCompare x y <= 0)%Z).
      rewrite <- not_true_iff_false, num_of_Z_positive. lia.
    + intros x y _ _ Hxy. apply Hanti. lia.
    + intros x y z _ _ _. apply Htrans.
    + by apply Forall_forall.
Qed.

(** X24: the index and the details agree on a test that is not named like
    an inherited property, when no browser is either: the aggregation of
    the details completes, and the test is listed in the index exactly when
    the table of its details has at least one column. *)
Theorem listed_tests_have_details (localeCompare : string → string → Z)
    (testProfiles : list Profiler.TestProfile) (testId : string) :
  inherited testId = false →
  plain_browsers testProfiles →
  ∃ t, Profiler.profilesByBrowserName testId testProfiles
       = Profiler.Aggregated t
       ∧ (testId ∈ testIdsWithProfilingData localeCompare testProfiles
          ↔ t ≠ ∅).
Proof.
  intros Hplain Hbrowsers.
  destruct (aggregate_total testId testProfiles ∅ Hplain) as [t Ht].
  { eapply Forall_impl; [exact Hbrowsers|]. cbn. intros p Hp Heq.
    by rewrite Heq in Hp. }
  exists t. split; [exact Ht|].
  pose proof (profilesByBrowserName_renders testId testProfiles t Ht) as Hsq.
  rewrite listed_spec. split.
  - intros (p & Hp & Hhas) Hempty.
    specialize (Hsq (Profiler.browserName p)).
    rewrite Hempty, lookup_empty in Hsq.
    apply has_reports_run in Hhas.
    destruct (run_of testId (Profiler.browserName p) p) as [run|] eqn:Hrun;
      [|done].
    assert (run ∈ runs testId (Profiler.browserName p) testProfiles) as Hin.
    { unfold runs. rewrite list_elem_of_omap. by exists p. }
    unfold plain_browsers in Hbrowsers. rewrite Forall_forall in Hbrowsers.
    rewrite (Hsq (Hbrowsers p Hp)) in Hin. by apply elem_of_nil in Hin.
  - intros Hne. apply map_choose in Hne as (browser & renders & Hget).
    specialize (Hsq browser). rewrite Hget in Hsq.
    destruct Hsq as (_ & Hruns & _).
    destruct (runs testId browser testProfiles) as [|run rs] eqn:Hrs; [done|].
    assert (run ∈ runs testId browser testProfiles) as Hin.
    { rewrite Hrs. left. }
    unfold runs in Hin. apply list_elem_of_omap in Hin as (p & Hp & Hrun).
    exists p. split; [done|].
    unfold run_of in Hrun. destruct (decide _) as [<-|]; [|done].
    apply has_reports_run. unfold run_of. rewrite decide_True by done.
    by destruct (Profiler.profile p !! testId) as [[|??]|].
Qed.

(** ** The median *)

Lemma canonical_le_antisym : AntiSymm eq canonical_le.
Proof.
  intros a b (Hab & Ha & Hb) (Hba & _ & _).
  destruct a as [|s|p], b as [|t|q]; try done.
  - by destruct s, t.
  - by destruct s.
  - by destruct t.
  - apply num_le_Fin in Hab, Hba. cbn in Ha, Hb.
    injection Ha as Ha. injection Hb as Hb.
    rewrite <- Ha, <- Hb. f_equal. apply Qred_complete. lra.
Qed.

Lemma canonical_idem (x : number) : canonical (canonical x) = canonical x.
Proof.
  destruct x as [|s|p]; [done..|]. cbn. f_equal.
  apply Qred_complete, Qred_correct.
Qed.

Lemma num_le_canonical (x y : number) :
  num_le x y = true → num_le (canonical x) (canonical y) = true.
Proof.
  destruct x as [|s|p], y as [|t|q]; try done. cbn [canonical].
  rewrite !num_le_Fin. by rewrite !Qred_correct.
Qed.

Lemma canonical_le_of (x y : number) :
  num_le x y = true → canonical_le (canonical x) (canonical y).
Proof.
  intros Hxy. split; [by apply num_le_canonical|].
  split; apply canonical_idem.
Qed.

Lemma canonical_strict_eq (x y : number) :
  x ≠ NaN → canonical x = canonical y → strict_eq x y = true.
Proof.
  destruct x as [|s|p], y as [|t|q]; try done; cbn.
  - intros _ [= ->]. by destruct t.
  - intros _ [= Heq]. apply Qeq_bool_iff.
    by rewrite <- (Qred_correct p), <- (Qred_correct q), Heq.
Qed.

(** X25: the median that a cell shows does not depend on the order in
    which the measurements were collected: two arrangements of the same
    timings, fewer than 2^31 and none of them NaN, have [===]-equal
    medians. *)
Theorem median_ignores_the_order (timings timings' : list number)
    (m : number) :
  timings ≡ₚ timings' →
  Forall (λ t, t ≠ NaN) timings →
  (Z.of_nat (length timings) < 2 ^ 31)%Z →
  Profiler.mean timings = Some m →
  ∃ m', Profiler.mean timings' = Some m' ∧ strict_eq m m' = true.
Proof.
  intros Hperm Hnan Hlen Hmean.
  assert (timings ≠ []) as Hne.
  { intros ->. done. }
  assert (timings' ≠ []) as Hne'.
  { intros ->. by apply Permutation_nil_r in Hperm. }
  assert (Forall (λ t, t ≠ NaN) timings') as Hnan' by by rewrite <- Hperm.
  assert (Z.of_nat (length timings') < 2 ^ 31)%Z as Hlen'
    by by rewrite <- Hperm.
  destruct (upper_median (λ _, "") timings Hne Hlen) as (m0 & Hm0 & Hmean0 & Hin & _).
  destruct (upper_median (λ _, "") timings' Hne' Hlen')
    as (m' & Hm' & Hmean' & _ & _).
  assert (m0 = m) as -> by congruence.
  exists m'. split; [done|].
  assert (canonical <$> Profiler.sorted_timings timings
          = canonical <$> Profiler.sorted_timings timings') as Heq.
  { apply (@StronglySorted_unique number canonical_le canonical_le_antisym).
    - eapply StronglySorted_fmap; [|by apply sorted_timings_sorted].
      intros x y. apply canonical_le_of.
    - eapply StronglySorted_fmap; [|by apply sorted_timings_sorted].
      intros x y. apply canonical_le_of.
    - apply fmap_Permutation.
      by rewrite !sorted_timings_perm. }
  apply canonical_strict_eq.
  { rewrite Forall_forall in Hnan. by apply Hnan. }
  apply (f_equal (λ l, l !! (length timings / 2)%nat)) in Heq.
  rewrite !list_lookup_fmap, Hm0 in Heq.
  rewrite (Permutation_length Hperm), Hm' in Heq.
  by injection Heq.
Qed.

(** * Examples of the further code *)

Example digest_of_three_bytes :
  hashHex [Byte.x00; Byte.x0a; Byte.xff] = "000aff".
Proof. reflexivity. Qed.

Example traced_interaction :
  traceByStackMatch "packages/material-ui/src/Button/Button.test.js:12:34 (renders)"
  = Some ("packages/material-ui/src/Button/Button.test.js", "12", "renders").
Proof. reflexivity. Qed.

Example reports_of_the_example :
  fetchTestProfiles 0 example_download (Fulfilled example_infos)
  = Fulfilled
      [{| Profiler.browserName := "chrome";
          Profiler.profile := {[ "renders" := [report 3 9; report 8 2] ]};
          Profiler.timestamp := 16%Z |};
       {| Profiler.browserName := "firefox";
          Profiler.profile := {[ "renders" := [report 5 5] ]};
          Profiler.timestamp := 17%Z |}].
Proof. reflexivity. Qed.

Example index_of_the_example :
  testIdsWithProfilingData codeCompare example_profiles = ["renders"].
Proof. vm_compute. reflexivity. Qed.

(** The ETag of the example request is answered with 304 by both routes,
    although both fetches would fail. *)
Lemma revalidation_is_not_modified_witness :
  Paged_loader example_digest (revalidate example_request example_paged_etag)
    true (Rejected example_error) (Rejected example_error)
  = Return {| status := 304; statusText := "";
              headers := [("ETag", example_paged_etag);
                          ("Cache-Control", "immutable, max-age=86400")];
              body := None |}
  ∧ Flat_loader example_digest (revalidate example_request example_etag)
      true (Rejected example_error) (Rejected example_error)
    = Return {| status := 304; statusText := "";
                headers := [("ETag", example_etag);
                            ("Cache-Control", "immutable, max-age=86400")];
                body := None |}.
Proof.
  split.
  - apply (proj1 (revalidation_is_not_modified example_digest example_request
                    example_paged_etag true true
                    (Fulfilled example_base) (Fulfilled example_target)
                    (Rejected example_error) (Rejected example_error))).
    vm_compute. reflexivity.
  - apply (proj2 (revalidation_is_not_modified example_digest example_request
                    example_etag true true
                    (Fulfilled example_base) (Fulfilled example_target)
                    (Rejected example_error) (Rejected example_error))).
    vm_compute. reflexivity.
Defined.

(** The ETag of the Azure route for the example request. *)
Lemma azure_revalidation_has_no_headers_witness :
  Azure_loader (λ s, s) show_integer
    (revalidate example_request "v1-abc--master--9--7") true
    (Rejected example_error) (Rejected example_error)
  = Return {| status := 304; statusText := ""; headers := []; body := None |}.
Proof.
  apply (azure_revalidation_has_no_headers (λ s, s) show_integer
           example_request "v1-abc--master--9--7" true true
           (Fulfilled example_base) (Fulfilled example_target)
           (Rejected example_error) (Rejected example_error)).
  vm_compute. reflexivity.
Defined.

(** CircleCI answers 404 "Not Found" for the artifacts of the build, on a
    request that revalidates with a stale ETag. *)
Lemma circleci_status_is_reported_witness :
  Flat_loader example_digest (revalidate example_request "stale") true
    (Fulfilled example_base)
    (fetchCircleCISizeSnapshot example_downloadSnapshot "no url"
       (Fulfilled {| http_status := 404; http_statusText := "Not Found";
                     http_json := Fulfilled [] |}))
  = Throw (json (Failure 7%Z) 404 "Error: 404: Not Found" []).
Proof.
  apply (circleci_status_is_reported example_digest example_downloadSnapshot
           "no url" (revalidate example_request "stale") true example_base
           404 "Not Found" []).
  - discriminate.
  - vm_compute. reflexivity.
Defined.

(** The snapshot is the second artifact of the build. *)
Lemma circleci_snapshot_artifact_witness :
  fetchCircleCISizeSnapshot example_downloadSnapshot "no url"
    (Fulfilled {| http_status := 200; http_statusText := "OK";
                  http_json := Fulfilled example_artifacts |})
  = Fulfilled example_target.
Proof.
  apply (circleci_snapshot_artifact example_digest example_downloadSnapshot
           "no url" (revalidate example_request "stale") true example_base
           "OK"
           [{| Artifact.path := "junit.xml"; Artifact.url := "https://ci/0" |}]
           [] "https://ci/1").
  repeat constructor. discriminate.
Defined.

(** The page "docs:/api" of the example tables has its row in "Pages". *)
Lemma change_cells_show_the_trend_witness :
  ∃ tr, tr ∈ example_tables.2
        ∧ row_of_bundle show_size "/api"
            (Anchor "https://deploy-preview-7--material-ui.netlify.app/api"
                    "/api")
            example_base example_pages "docs:/api" tr.
Proof.
  refine (proj2 (proj2 (proj2
            (change_cells_show_the_trend show_number show_number show_size
               codeCompare show_integer example_base example_pages 7%Z
               _ _ _))) "docs:/api" _ _).
  - exact (valid_single _ _ _).
  - exact (valid_insert _ _ _ _ (valid_insert _ _ _ _ (valid_single _ _ _))).
  - apply plainly_named_check. vm_compute. reflexivity.
  - apply elem_of_union_r, elem_of_dom. eexists. vm_compute. reflexivity.
  - reflexivity.
Defined.

(** The example tables with another formatting of NaN. *)
Lemma NaN_is_never_formatted_witness :
  ComparisonTables show_number_but_NaN show_number show_size codeCompare
    show_integer example_base example_pages 7%Z
  = example_tables.
Proof.
  apply (NaN_is_never_formatted show_number show_number show_size
           codeCompare show_integer show_number_but_NaN
           example_base example_pages 7%Z).
  - exact (valid_single _ _ _).
  - exact (valid_insert _ _ _ _ (valid_insert _ _ _ _ (valid_single _ _ _))).
  - apply plainly_named_check. vm_compute. reflexivity.
  - intros n Hn. by destruct n.
Defined.

(** A traced interaction of the example pipeline. *)
Lemma traced_interaction_links_to_the_line_witness :
  ProfilerInteraction (TestProfileDetails.codeUrl example_details)
    {| Profiler.id := 1%Z;
       Profiler.name := "packages/Button.test.js:12:34 (renders)" |}
  = (num_of_Z 1,
     Anchor "https://github.com/mui-org/material-ui/tree/0123456789abcdef//packages/Button.test.js#L12"
            "renders@L12").
Proof.
  destruct (traced_interaction_links_to_the_line example_job
              (λ _, Fulfilled example_pipeline) example_details 1%Z
              "packages/Button.test.js" "12" "34" "renders")
    as (pipeline & Hpipeline & Hitem).
  - reflexivity.
  - split; [discriminate|reflexivity].
  - split; [discriminate|reflexivity].
  - split; [discriminate|reflexivity].
  - split; [discriminate|reflexivity].
  - injection Hpipeline as <-. exact Hitem.
Defined.

(** An interaction of an unknown line. *)
Lemma unknown_line_shows_the_interaction_witness :
  ProfilerInteraction "https://github.com/mui-org/material-ui/tree/0123/"
    {| Profiler.id := 2%Z; Profiler.name := "unknown line (renders)" |}
  = (num_of_Z 2, Text "renders").
Proof.
  destruct (unknown_line_shows_the_interaction
              "https://github.com/mui-org/material-ui/tree/0123/" 2%Z
              "unknown line (renders)")
    as (text & Hitem & Hwho & _).
  - reflexivity.
  - rewrite (Hwho "renders") in Hitem; [exact Hitem|reflexivity|].
    split; [discriminate|reflexivity].
Defined.

(** A report of Chrome, written at the time 1612345678901. *)
Lemma timestamp_is_read_back_witness :
  toTestProfileArtifactsInfo
    {| ArtifactInfo.pretty_path :=
         "react-profiler-report/karma/chrome/1612345678901.json";
       ArtifactInfo.url := "https://ci/chrome" |}
  = Some {| TestProfileArtifactsInfo.browserName := "chrome";
            TestProfileArtifactsInfo.timestamp := 1612345678901%Z;
            TestProfileArtifactsInfo.url := "https://ci/chrome" |}.
Proof.
  apply (timestamp_is_read_back "chrome" "https://ci/chrome" 1612345678901).
  - split; [discriminate|reflexivity].
  - reflexivity.
Defined.

(** The pipeline of the pull request 123. *)
Lemma pull_request_branch_witness :
  computeLabel example_pipeline = "#123"
  ∧ computeReviewUrl example_pipeline
    = "https://github.com/mui-org/material-ui/pull/123/".
Proof.
  apply (pull_request_branch "https://github.com/mui-org/material-ui"
           "0123456789abcdef" "123" "head").
  - split; [discriminate|reflexivity].
  - by left.
Defined.

Lemma review_of_a_pull_request_is_labelled_witness :
  ∃ branch before number after,
    Vcs.branch (Pipeline.vcs example_pipeline) = Some branch
    ∧ branch = (before ++ "pull/" ++ number ++ "/" ++ after)%string
    ∧ some_of is_digit number
    ∧ computeLabel example_pipeline = ("#" ++ number)%string.
Proof.
  apply (review_of_a_pull_request_is_labelled example_pipeline).
  vm_compute. discriminate.
Defined.

(** A pipeline on the branch "master". *)
Lemma ordinary_branch_witness :
  computeLabel
    {| Pipeline.vcs :=
         {| Vcs.branch := Some "master";
            Vcs.origin_repository_url := "https://github.com/mui-org/material-ui";
            Vcs.revision := "0123456789abcdef" |} |}
  = "master (01234567)"
  ∧ computeReviewUrl
      {| Pipeline.vcs :=
           {| Vcs.branch := Some "master";
              Vcs.origin_repository_url :=
                "https://github.com/mui-org/material-ui";
              Vcs.revision := "0123456789abcdef" |} |}
    = "https://github.com/mui-org/material-ui/commit/0123456789abcdef/".
Proof.
  apply (ordinary_branch "https://github.com/mui-org/material-ui"
           "0123456789abcdef" "master").
  intros before after Heq.
  apply (f_equal (search (strip_prefix "pull/"))) in Heq.
  rewrite (search_None (strip_prefix "pull/") "master") in Heq;
    [|intros b a Hba].
  - symmetry in Heq. revert Heq. clear.
    induction before as [|c before IH].
    + rewrite append_nil_l. intros Heq.
      rewrite (search_here _ _ after (strip_prefix_append "pull/" after)) in Heq.
      discriminate.
    + rewrite append_cons. cbn [search].
      destruct (strip_prefix "pull/" _); [discriminate|]. exact IH.
  - repeat (destruct b as [|? b];
            [rewrite append_nil_l in Hba; by subst a
            |rewrite append_cons in Hba; try discriminate;
             injection Hba as <- Hba]).
Defined.

(** The index of the example profiles. *)
Lemma index_lists_the_profiled_tests_witness :
  NoDup (testIdsWithProfilingData codeCompare example_profiles)
  ∧ StronglySorted (λ a b, (codeCompare a b <= 0)%Z)
      (testIdsWithProfilingData codeCompare example_profiles).
Proof.
  destruct (index_lists_the_profiled_tests codeCompare example_profiles
              codeCompare_consistent) as (Hnodup & _ & Hsorted).
  by split.
Defined.

(** The timings 3, 1, 2 and 1, 2, 3 have the median 2. *)
Lemma median_ignores_the_order_witness :
  ∃ m', Profiler.mean (map num_of_Z [1; 2; 3]%Z) = Some m'
        ∧ strict_eq 2%Z m' = true.
Proof.
  apply (median_ignores_the_order (map num_of_Z [3; 1; 2]%Z)
           (map num_of_Z [1; 2; 3]%Z) 2%Z).
  - cbn [map]. rewrite (Permutation_swap (num_of_Z 1) (num_of_Z 3)).
    apply Permutation_skip, Permutation_swap.
  - repeat constructor; discriminate.
  - reflexivity.
  - vm_compute. reflexivity.
Defined.

(** The bundle of the component Button, built as ES modules. *)
Lemma component_label_witness :
  getMainBundleLabel_core "@material-ui/core/Button.esm" = "Button"
  ∧ getMainBundleLabel "@material-ui/core/Button.esm" = "Button".
Proof.
  destruct (component_label "Button.esm") as (Hcore & Hmain & _).
  - discriminate.
  - split; [exact Hcore|]. apply Hmain. discriminate.
Defined.

(** From 2^53 on [parseInt] rounds: to the even neighbour at a tie. *)
Example parseInt_rounds :
  parseInt_digits "9007199254740993" = num_of_Z 9007199254740992
  ∧ parseInt_digits "9007199254740995" = num_of_Z 9007199254740996
  ∧ parseInt_digits "9007199254740992" = num_of_Z 9007199254740992.
Proof. repeat split; vm_compute; reflexivity. Qed.

(** A report with a time stamp of seventeen digits is taken with the
    rounded number. *)
Example long_timestamp_is_rounded :
  toTestProfileArtifactsInfo
    {| ArtifactInfo.pretty_path :=
         "react-profiler-report/karma/chrome/9007199254740993.json";
       ArtifactInfo.url := "https://ci/chrome" |}
  = Some {| TestProfileArtifactsInfo.browserName := "chrome";
            TestProfileArtifactsInfo.timestamp := 9007199254740992%Z;
            TestProfileArtifactsInfo.url := "https://ci/chrome" |}.
Proof. vm_compute. reflexivity. Qed.

(** The details of the example profiles: no column for Safari, and the
    third row of Chrome holds the one report of the longer run. *)
Lemma renders_are_the_columns_witness :
  example_renders !! "safari" = None
  ∧ example_renders !! "chrome" ≫= (λ renders, renders !! 2%nat)
    = render_of (column 2 (runs "renders" "chrome" example_profiles)).
Proof.
  destruct (renders_are_the_columns "renders" example_profiles)
    as [_ Hcolumns].
  assert (Profiler.profilesByBrowserName "renders" example_profiles
          = Profiler.Aggregated example_renders) as Haggregated.
  { vm_compute. reflexivity. }
  split.
  - apply (Hcolumns example_renders "safari" 0%nat Haggregated).
    left. reflexivity.
  - apply (Hcolumns example_renders "chrome" 2%nat Haggregated).
    reflexivity.
Defined.

(** The test of the example profiles is listed, and its details have
    columns. *)
Lemma listed_tests_have_details_witness :
  ∃ t, Profiler.profilesByBrowserName "renders" example_profiles
       = Profiler.Aggregated t
       ∧ ("renders" ∈ testIdsWithProfilingData codeCompare example_profiles
          ↔ t ≠ ∅).
Proof.
  apply (listed_tests_have_details codeCompare example_profiles "renders").
  - reflexivity.
  - repeat constructor.
Defined.

(** A test "constructor" is listed in the index, and its details do not
    render: in the profile of Firefox the lookup finds the function
    [Object]. *)
Example listed_inherited_test_throws :
  testIdsWithProfilingData codeCompare example_constructor_profiles
  = ["constructor"; "renders"]
  ∧ Profiler.profilesByBrowserName "constructor" example_constructor_profiles
    = Profiler.Throws.
Proof. split; vm_compute; reflexivity. Qed.
